(** * CV analysis function: response repair, fallback report and pipeline

    A shallow embedding of the three handler files of the repository
    ([src/main.js], its plain variant and the third, ES-module variant)
    together with the properties of the response sanitizer, the fallback
    report builder and the request pipeline.

    Conventions.
    - A JavaScript string is the list of its UTF-16 code units.
    - A thrown [Error] is represented by its message.
    - Numbers are exact: every double is a rational, an infinity or NaN, and
      the code only compares and selects them.
    - Builtins of the host language that are not part of the repository
      ([JSON.parse], [String.prototype.toLowerCase], the numeric coercion of
      strings and objects) are the fields of the class [Host]; every general
      theorem holds for every host.  [refHost] is a concrete host used to run
      the closed examples.
    - The collaborators (document store, blob store, generative model) are
      the fields of [Env]: the outcome of each call of one invocation.  The
      calls are recorded in the order they are made.
    - The fields of a request are strings or missing; a talent and a career
      path are records whose array attributes may be missing.
    - Log lines, clock readings, the text of the prompts and the decoding of
      the file take no part in the control flow and are left out.  The media
      type sent with the file is computed in [Media]; it is part of the
      request to the extraction model, whose answer is a field of [Env]. *)

From Stdlib Require Import ZArith NArith QArith Qminmax List String Ascii Bool Lia.
From stdpp Require Import base decidable countable list gmap.

Set Warnings "-register-all".
Local Open Scope Z_scope.

(** ** Strings *)

Definition jsstring := list N.

Definition lit (s : string) : jsstring :=
  List.map N_of_ascii (list_ascii_of_string s).

(** [jlit] writes a text with apostrophes where the text has double quotes. *)
Definition jlit (s : string) : jsstring :=
  List.map (fun c => if N.eqb c 39 then 34%N else c) (lit s).

Definition jseq (a b : jsstring) : bool :=
  bool_decide (a = b).

(** The character class [\s] (also the characters removed by [trim]). *)
Definition is_space (c : N) : bool :=
  ((9 <=? c) && (c <=? 13) || (c =? 32) || (c =? 160) || (c =? 5760)
   || (8192 <=? c) && (c <=? 8202) || (c =? 8232) || (c =? 8233)
   || (c =? 8239) || (c =? 8287) || (c =? 12288) || (c =? 65279))%N.

(** The character class [\w]. *)
Definition is_word (c : N) : bool :=
  ((48 <=? c) && (c <=? 57) || (65 <=? c) && (c <=? 90)
   || (97 <=? c) && (c <=? 122) || (c =? 95))%N.

Definition lbrace : N := 123.
Definition rbrace : N := 125.

Fixpoint takeWhile (p : N -> bool) (s : jsstring) : jsstring :=
  match s with
  | [] => []
  | c :: r => if p c then c :: takeWhile p r else []
  end.

Fixpoint dropWhile (p : N -> bool) (s : jsstring) : jsstring :=
  match s with
  | [] => []
  | c :: r => if p c then dropWhile p r else s
  end.

Definition trimStart (s : jsstring) : jsstring := dropWhile is_space s.
Definition trimEnd (s : jsstring) : jsstring := rev (dropWhile is_space (rev s)).
Definition trim (s : jsstring) : jsstring := trimEnd (trimStart s).

(** [s.indexOf(c)] and [s.lastIndexOf(c)] for a one-character needle. *)
Fixpoint indexOf_from (c : N) (s : jsstring) (i : Z) : Z :=
  match s with
  | [] => -1
  | x :: r => if N.eqb x c then i else indexOf_from c r (i + 1)
  end.

Definition indexOf (c : N) (s : jsstring) : Z := indexOf_from c s 0.

Fixpoint lastIndexOf_from (c : N) (s : jsstring) (i acc : Z) : Z :=
  match s with
  | [] => acc
  | x :: r => lastIndexOf_from c r (i + 1) (if N.eqb x c then i else acc)
  end.

Definition lastIndexOf (c : N) (s : jsstring) : Z := lastIndexOf_from c s 0 (-1).

(** [s.substring(a, b)]: both ends are clamped to [0, length] and swapped
    when out of order. *)
Definition substring (s : jsstring) (a b : Z) : jsstring :=
  let len := Z.of_nat (length s) in
  let a' := Z.max 0 (Z.min a len) in
  let b' := Z.max 0 (Z.min b len) in
  let lo := Z.min a' b' in
  let hi := Z.max a' b' in
  firstn (Z.to_nat (hi - lo)) (skipn (Z.to_nat lo) s).

(** [s.substring(a)] *)
Definition substring_from (s : jsstring) (a : Z) : jsstring :=
  substring s a (Z.of_nat (length s)).

(** ** Global regular-expression replacement

    A matcher receives the input from the current position on and answers
    the length of the match of its expression at this position and the text
    that replaces it.  [replaceAll] is [String.prototype.replace] with a
    global expression: the matches are taken from left to right and do not
    overlap.  None of the expressions below matches the empty string or
    needs backtracking: in each of them a starred class is followed by a
    character outside the class. *)

Definition Matcher := jsstring -> option (nat * jsstring).

Fixpoint replaceAll (m : Matcher) (skip : nat) (s : jsstring) : jsstring :=
  match s with
  | [] => []
  | c :: r =>
      match skip with
      | S k => replaceAll m k r
      | O =>
          match m s with
          | Some (S k, rep) => rep ++ replaceAll m k r
          | _ => c :: replaceAll m 0 r
          end
      end
  end.

Definition replace_g (m : Matcher) (s : jsstring) : jsstring := replaceAll m 0 s.

Fixpoint strip_prefix (p s : jsstring) : option jsstring :=
  match p, s with
  | [], _ => Some s
  | a :: p', b :: s' => if N.eqb a b then strip_prefix p' s' else None
  | _ :: _, [] => None
  end.

(** Three backquotes, the word json and white space; replaced by the empty
    string *)
Definition re_fence_json : Matcher := fun s =>
  match strip_prefix (lit "```json") s with
  | Some rest => Some (7 + length (takeWhile is_space rest), [])%nat
  | None => None
  end.

(** Three backquotes and white space; replaced by the empty string *)
Definition re_fence : Matcher := fun s =>
  match strip_prefix (lit "```") s with
  | Some rest => Some (3 + length (takeWhile is_space rest), [])%nat
  | None => None
  end.

(** A comma, then (group 1) white space and a closing brace or bracket;
    replaced by group 1 *)
Definition re_trailing_comma : Matcher := fun s =>
  match s with
  | 44%N :: rest =>
      let ws := takeWhile is_space rest in
      match dropWhile is_space rest with
      | c :: _ =>
          if (N.eqb c 125 || N.eqb c 93)%bool
          then Some (1 + length ws + 1, ws ++ [c])%nat
          else None
      | [] => None
      end
  | _ => None
  end.

(** An opening brace or a comma with the white space after it (group 1), a
    run of word characters (group 2) and a colon; replaced by group 1, group 2
    between double quotes, and a colon *)
Definition re_bare_key : Matcher := fun s =>
  match s with
  | c :: rest =>
      if (N.eqb c 123 || N.eqb c 44)%bool then
        let ws := takeWhile is_space rest in
        let r1 := dropWhile is_space rest in
        let w := takeWhile is_word r1 in
        match w, dropWhile is_word r1 with
        | _ :: _, 58%N :: _ =>
            Some (1 + length ws + length w + 1,
                  c :: ws ++ [34%N] ++ w ++ [34%N; 58%N])%nat
        | _, _ => None
        end
      else None
  | [] => None
  end.

(** A colon, white space and a text between apostrophes that holds no apostrophe,
    replaced by a colon, a space and the text between double quotes *)
Definition re_single_quoted : Matcher := fun s =>
  match s with
  | 58%N :: rest =>
      let ws := takeWhile is_space rest in
      match dropWhile is_space rest with
      | 39%N :: r2 =>
          let body := takeWhile (fun c => negb (N.eqb c 39)) r2 in
          match dropWhile (fun c => negb (N.eqb c 39)) r2 with
          | 39%N :: _ =>
              Some (1 + length ws + 1 + length body + 1,
                    [58%N; 32%N; 34%N] ++ body ++ [34%N])%nat
          | _ => None
          end
      | _ => None
      end
  | _ => None
  end.

(** A line feed; replaced by a space *)
Definition re_newline : Matcher := fun s =>
  match s with
  | 10%N :: _ => Some (1%nat, [32%N])
  | _ => None
  end.

(** A non-empty run of white space; replaced by a space *)
Definition re_spaces : Matcher := fun s =>
  match takeWhile is_space s with
  | [] => None
  | ws => Some (length ws, [32%N])
  end.

(** ** Results of fallible code *)

Inductive result (A : Type) : Type :=
| Ok (a : A)
| Throw (msg : jsstring).
Arguments Ok {A} a.
Arguments Throw {A} msg.

Definition rbind {A B} (r : result A) (k : A -> result B) : result B :=
  match r with
  | Ok a => k a
  | Throw m => Throw m
  end.

(** [try { body } catch (error) { handler(error.message) }] *)
Definition rcatch {A} (body : result A) (handler : jsstring -> result A) : result A :=
  match body with
  | Ok a => Ok a
  | Throw m => handler m
  end.

Definition is_throw {A} (r : result A) : bool :=
  match r with
  | Ok _ => false
  | Throw _ => true
  end.

(** ** extractAndCleanJSON (identical in the three files) *)

Definition no_json_object_msg : jsstring := lit "No valid JSON object found in response".

Definition repair (s : jsstring) : jsstring :=
  trim
    (replace_g re_spaces
      (replace_g re_newline
        (replace_g re_single_quoted
          (replace_g re_bare_key
            (replace_g re_trailing_comma s))))).

Definition strip_fences (text : jsstring) : jsstring :=
  trim (replace_g re_fence (replace_g re_fence_json text)).

Definition extractAndCleanJSON (text : jsstring) : result jsstring :=
  rcatch
    (let cleaned := strip_fences text in
     let startIndex := indexOf lbrace cleaned in
     let lastIndex := lastIndexOf rbrace cleaned in
     if (startIndex =? -1) || (lastIndex =? -1) || (startIndex >=? lastIndex)
     then Throw no_json_object_msg
     else Ok (repair (substring cleaned startIndex (lastIndex + 1))))
    (fun message => Throw (lit "Failed to clean JSON: " ++ message)).

(** ** JavaScript values

    Numbers are the exact values of the doubles (every double is a rational,
    an infinity or NaN); [Math.min], [Math.max] and the comparisons are exact
    on doubles, so they are modelled without rounding. *)

Inductive JSNumber : Type :=
| NaN
| PosInf
| NegInf
| Fin (q : Q).

Inductive JSValue : Type :=
| JUndefined
| JNull
| JBool (b : bool)
| JNum (n : JSNumber)
| JStr (s : jsstring)
| JArr (items : list JSValue)
| JObj (fields : list (jsstring * JSValue)).

Definition num (z : Z) : JSValue := JNum (Fin (inject_Z z)).
Definition str (s : string) : JSValue := JStr (lit s).
Definition strs (l : list jsstring) : JSValue := JArr (List.map JStr l).

(** ToBoolean *)
Definition truthy (v : JSValue) : bool :=
  match v with
  | JUndefined | JNull => false
  | JBool b => b
  | JNum NaN => false
  | JNum (Fin q) => negb (Qeq_bool q 0)
  | JNum _ => true
  | JStr s => match s with [] => false | _ => true end
  | JArr _ | JObj _ => true
  end.

Fixpoint assoc_get (k : jsstring) (fs : list (jsstring * JSValue)) : JSValue :=
  match fs with
  | [] => JUndefined
  | (k', v) :: r => if jseq k k' then v else assoc_get k r
  end.

Fixpoint assoc_set (k : jsstring) (v : JSValue) (fs : list (jsstring * JSValue))
  : list (jsstring * JSValue) :=
  match fs with
  | [] => [(k, v)]
  | (k', v') :: r => if jseq k k' then (k', v) :: r else (k', v') :: assoc_set k v r
  end.

(** [v[k]] for a key that is a field name of the report (no index, no
    [length], no inherited name): undefined on everything but an object that
    has the key. *)
Definition get (v : JSValue) (k : jsstring) : JSValue :=
  match v with
  | JObj fs => assoc_get k fs
  | _ => JUndefined
  end.

(** [v[k] = x] on an object: the field keeps its place when it exists and is
    appended otherwise. *)
Definition set (v : JSValue) (k : jsstring) (x : JSValue) : JSValue :=
  match v with
  | JObj fs => JObj (assoc_set k x fs)
  | _ => v
  end.

(** Builtins of the host language. *)
Class Host : Type := {
  (** [JSON.parse]; a thrown SyntaxError is given by its message *)
  JSON_parse : jsstring -> result JSValue;
  (** [String.prototype.toLowerCase] *)
  toLowerCase : jsstring -> jsstring;
  (** ToNumber on a string *)
  StringToNumber : jsstring -> JSNumber;
  (** ToNumber on an array or an object (through ToPrimitive) *)
  ObjectToNumber : JSValue -> JSNumber
}.

Section Coercions.
Context `{Host}.

Definition ToNumber (v : JSValue) : JSNumber :=
  match v with
  | JUndefined => NaN
  | JNull => Fin 0
  | JBool b => if b then Fin 1 else Fin 0
  | JNum n => n
  | JStr s => StringToNumber s
  | JArr _ | JObj _ => ObjectToNumber v
  end.
End Coercions.

(** The sanitizer of the specification: the two statements
    [cleanedJson = extractAndCleanJSON(responseText)] and
    [analysis = JSON.parse(cleanedJson)] of [analyzeCVContent]. *)
Definition sanitizeAndParse `{Host} (responseText : jsstring) : result JSValue :=
  rbind (extractAndCleanJSON responseText) JSON_parse.

Definition Math_min (a b : JSNumber) : JSNumber :=
  match a, b with
  | NaN, _ | _, NaN => NaN
  | NegInf, _ | _, NegInf => NegInf
  | PosInf, x | x, PosInf => x
  | Fin p, Fin q => Fin (Qmin p q)
  end.

Definition Math_max (a b : JSNumber) : JSNumber :=
  match a, b with
  | NaN, _ | _, NaN => NaN
  | PosInf, _ | _, PosInf => PosInf
  | NegInf, x | x, NegInf => x
  | Fin p, Fin q => Fin (Qmax p q)
  end.

(** [a < b] on numbers *)
Definition num_lt (a b : JSNumber) : bool :=
  match a, b with
  | NaN, _ | _, NaN => false
  | _, NegInf | PosInf, _ => false
  | NegInf, _ | _, PosInf => true
  | Fin p, Fin q => negb (Qle_bool q p)
  end.

(** [s.split(c)] for a one-character separator *)
Fixpoint split_on (c : N) (s : jsstring) : list jsstring :=
  match s with
  | [] => [[]]
  | x :: r =>
      if N.eqb x c then [] :: split_on c r
      else match split_on c r with
           | w :: ws => (x :: w) :: ws
           | [] => [[x]]
           end
  end.

(** [a.includes(x)] on an array of strings *)
Definition includes (a : list jsstring) (x : jsstring) : bool :=
  existsb (jseq x) a.

(** ** Data model *)

(** A talent document of the profile store.  The array attributes may be
    missing (the code guards them with [|| []] and [?.]). *)
Record Profile : Type := {
  talent_id : jsstring;
  fullname : jsstring;
  careerStage : jsstring;
  skills : option (list jsstring);
  degrees : option (list jsstring);
  certifications : option (list jsstring);
  interests : option (list jsstring);
  selectedPath : option jsstring
}.

(** A career path document. *)
Record CareerPath : Type := {
  path_id : jsstring;
  title : jsstring;
  requiredSkills : option (list jsstring);
  requiredCertifications : option (list jsstring);
  suggestedDegrees : option (list jsstring);
  toolsAndTechnologies : option (list jsstring)
}.

(** The outcome of decoding the request body: the decoder raises; the value
    is [null] or [undefined], on which the destructuring raises a TypeError;
    or a payload whose three fields are each missing or a string. *)
Inductive Body : Type :=
| BodyInvalid
| BodyNull
| BodyFields (talentId fileData fileName : option jsstring).

Definition destructure_msg : jsstring :=
  lit "Cannot destructure property 'talentId' of 'requestData' as it is null.".

Record TalentInfo : Type := {
  ti_id : jsstring;
  ti_fullname : jsstring;
  ti_careerStage : jsstring
}.

Record PathInfo : Type := {
  pi_id : jsstring;
  pi_title : jsstring
}.

(** [analyzedAt] and [executionTime] are clock readings and are left out. *)
Record Metadata : Type := {
  md_talent : TalentInfo;
  md_careerPath : option PathInfo;
  md_fileName : jsstring;
  usedFallback : bool
}.

(** The object given to [res.json] and the HTTP status given with it. *)
Record Response : Type := {
  success : bool;
  statusCode : Z;
  error : option jsstring;
  analysis : option JSValue;
  metadata : option Metadata;
  httpStatus : Z
}.

Definition failure (msg : string) (code : Z) : Response :=
  {| success := false; statusCode := code; error := Some (lit msg);
     analysis := None; metadata := None; httpStatus := code |}.

(** ** Collaborators and effects *)

(** The outcome of each external call of one invocation. *)
Record Env : Type := {
  (** [process.env.GEMINI_API_KEY] is set and not empty *)
  gemini_api_key : bool;
  (** [databases.listDocuments] with the query on [talentId]: the documents *)
  listDocuments : jsstring -> result (list Profile);
  (** [databases.getDocument] on the career path collection *)
  getDocument : jsstring -> result CareerPath;
  (** [storage.createFile]: the [$id] of the created file *)
  createFile : result jsstring;
  (** [storage.deleteFile] *)
  deleteFile : jsstring -> result unit;
  (** [model.generateContent] with the file: [result.response.text()] *)
  generateFromFile : result jsstring;
  (** [model.generateContent] with the analysis prompt *)
  generateFromText : result jsstring
}.

(** The external calls, in the order they are made. *)
Inductive Call : Type :=
| CallListDocuments (talentId : jsstring)
| CallGetDocument (id : jsstring)
| CallCreateFile
| CallDeleteFile (id : jsstring)
| CallGenerateFromFile
| CallGenerateFromText.

(** The mutable state of one invocation: the variable [uploadedFileId] of
    the handler and the calls made so far. *)
Record St : Type := {
  uploadedFileId : option jsstring;
  calls : list Call
}.

Definition st0 : St := {| uploadedFileId := None; calls := [] |}.

Definition M (A : Type) : Type := St -> result A * St.

Definition ret {A} (a : A) : M A := fun st => (Ok a, st).
Definition throw {A} (msg : jsstring) : M A := fun st => (Throw msg, st).
Definition bind {A B} (c : M A) (k : A -> M B) : M B := fun st =>
  match c st with
  | (Ok a, st') => k a st'
  | (Throw m, st') => (Throw m, st')
  end.
Definition lift {A} (r : result A) : M A := fun st => (r, st).

Notation "'let!' x ':=' c 'in' k" := (bind c (fun x => k))
  (at level 10, x pattern, c at level 100, k at level 200).

(** [try { body } catch (e) { handler(e.message) }] *)
Definition try_catch {A} (body : M A) (handler : jsstring -> M A) : M A := fun st =>
  match body st with
  | (Ok a, st') => (Ok a, st')
  | (Throw m, st') => handler m st'
  end.

(** [try { body } finally { fin }] *)
Definition try_finally {A} (body : M A) (fin : M unit) : M A := fun st =>
  match body st with
  | (r, st') =>
      match fin st' with
      | (Ok _, st'') => (r, st'')
      | (Throw m, st'') => (Throw m, st'')
      end
  end.

Definition call {A} (c : Call) (outcome : result A) : M A := fun st =>
  (outcome, {| uploadedFileId := uploadedFileId st; calls := calls st ++ [c] |}).

Definition set_uploadedFileId (id : jsstring) : M unit := fun st =>
  (Ok tt, {| uploadedFileId := Some id; calls := calls st |}).

Definition get_uploadedFileId : M (option jsstring) := fun st =>
  (Ok (uploadedFileId st), st).

(** The truth value of a variable that is [null] or a string. *)
Definition nonempty (o : option jsstring) : bool :=
  match o with
  | Some (_ :: _) => true
  | _ => false
  end.

Definition run {A} (c : M A) : result A * St := c st0.

(** ** Pieces shared by the three files *)

(** [held?.filter(x => required?.includes(x)) || []] *)
Definition matchingItems (held required : option (list jsstring)) : list jsstring :=
  match held with
  | None => []
  | Some h =>
      List.filter
        (fun x => match required with None => false | Some r => includes r x end) h
  end.

(** [required?.filter(x => !held?.includes(x)) || []] *)
Definition missingItems (held required : option (list jsstring)) : list jsstring :=
  match required with
  | None => []
  | Some r =>
      List.filter
        (fun x => negb (match held with None => false | Some h => includes h x end)) r
  end.

(** The loop over [requiredFields]: the first field whose value is falsy
    raises.  Reading a property of [null] or [undefined] raises a TypeError. *)
Definition type_error_msg : jsstring := lit "Cannot read properties of null".

Fixpoint checkRequired (prefix : jsstring) (fields : list jsstring) (analysis : JSValue)
  : result unit :=
  match fields with
  | [] => Ok tt
  | field :: rest =>
      match analysis with
      | JNull | JUndefined => Throw type_error_msg
      | _ =>
          if negb (truthy (get analysis field))
          then Throw (prefix ++ field)
          else checkRequired prefix rest analysis
      end
  end.

(** The [careerPathAlignment] field of the fallback report of [src/main.js]
    and of the plain variant (the same text in both). *)
Definition careerPathAlignment (talent : Profile) (careerPath : option CareerPath)
  : JSValue :=
  match careerPath with
  | Some cp =>
      JObj [(lit "alignmentScore", num 50);
            (lit "matchingSkills",
               strs (matchingItems (skills talent) (requiredSkills cp)));
            (lit "missingSkills",
               strs (missingItems (skills talent) (requiredSkills cp)));
            (lit "matchingCertifications",
               strs (matchingItems (certifications talent) (requiredCertifications cp)));
            (lit "missingCertifications",
               strs (missingItems (certifications talent) (requiredCertifications cp)));
            (lit "relevantExperience",
               strs [lit "Analysis based on profile information only"]);
            (lit "additionalRequirements",
               strs [lit "Complete detailed CV analysis for comprehensive insights"])]
  | None =>
      JObj [(lit "alignmentScore", num 0);
            (lit "matchingSkills", strs []);
            (lit "missingSkills", strs []);
            (lit "matchingCertifications", strs []);
            (lit "missingCertifications", strs []);
            (lit "relevantExperience",
               strs [lit "No career path selected for comparison"]);
            (lit "additionalRequirements",
               strs [lit "Select a career path for targeted guidance"])]
  end.

Definition allowedExtensions : list jsstring :=
  [lit ".pdf"; lit ".jpg"; lit ".jpeg"; lit ".png"; lit ".doc"; lit ".docx"].

(** [fileName.toLowerCase().substring(fileName.lastIndexOf('.'))] *)
Definition fileExtension `{Host} (fileName : jsstring) : jsstring :=
  substring_from (toLowerCase fileName) (lastIndexOf 46 fileName).

(** [(fileData.length * 3) / 4 > 5 * 1024 * 1024]; the division by four is
    exact on doubles *)
Definition maxSizeBytes : Q := inject_Z (5 * 1024 * 1024).
Definition fileSizeBytes (fileData : jsstring) : Q :=
  (Z.of_nat (length fileData) * 3) # 4.
Definition tooLarge (fileData : jsstring) : bool :=
  negb (Qle_bool (fileSizeBytes fileData) maxSizeBytes).

(** [if (uploadedFileId) { try { await storage.deleteFile(...) } catch { } }] *)
Definition cleanup (env : Env) : M unit :=
  let! uploaded := get_uploadedFileId in
  match uploaded with
  | Some id =>
      if nonempty uploaded
      then try_catch (call (CallDeleteFile id) (deleteFile env id)) (fun _ => ret tt)
      else ret tt
  | None => ret tt
  end.

Definition talentInfo (talent : Profile) : TalentInfo :=
  {| ti_id := talent_id talent; ti_fullname := fullname talent;
     ti_careerStage := careerStage talent |}.

Definition pathInfo (careerPath : option CareerPath) : option PathInfo :=
  match careerPath with
  | Some cp => Some {| pi_id := path_id cp; pi_title := title cp |}
  | None => None
  end.

(** The response of a completed analysis ([res.json(response)]). *)
Definition completed (talent : Profile) (careerPath : option CareerPath)
    (fileName : jsstring) (report : JSValue) (fallback : bool) : Response :=
  {| success := true; statusCode := 200; error := None;
     analysis := Some report;
     metadata := Some {| md_talent := talentInfo talent;
                         md_careerPath := pathInfo careerPath;
                         md_fileName := fileName;
                         usedFallback := fallback |};
     httpStatus := 200 |}.

(** Fetching the talent: no document is 404, a store error is 500. *)
Definition fetchTalent (env : Env) (notFound : string) (talentId : jsstring)
  : M (Response + Profile) :=
  try_catch
    (let! documents := call (CallListDocuments talentId) (listDocuments env talentId) in
     match documents with
     | [] => ret (inl (failure notFound 404))
     | talent :: _ => ret (inr talent)
     end)
    (fun _ => ret (inl (failure "Failed to fetch talent information" 500))).

(** Fetching the career path when one is selected; a failure is not fatal. *)
Definition fetchCareerPath (env : Env) (talent : Profile) : M (option CareerPath) :=
  match selectedPath talent with
  | Some id =>
      if nonempty (selectedPath talent)
      then try_catch
             (let! cp := call (CallGetDocument id) (getDocument env id) in ret (Some cp))
             (fun _ => ret None)
      else ret None
  | None => ret None
  end.

(** ** The handler of [src/main.js] and of its plain variant

    The two files have the same [extractTextFromCV] and the same exported
    handler; they differ in [analyzeCVContent] and
    [generateFallbackAnalysis], which are the parameters of this section.
    The prompts are only sent to the model, whose answer is a field of [Env];
    the media type chosen for the file is part of that request. *)

Section Pipeline.
Context `{Host} (env : Env).
Variable analyzeCVContent : jsstring -> Profile -> option CareerPath -> M JSValue.
Variable generateFallbackAnalysis : Profile -> option CareerPath -> result JSValue.

Definition extractTextFromCV (fileData fileName : jsstring) : M jsstring :=
  try_catch
    (let! extractedText := call CallGenerateFromFile (generateFromFile env) in
     if negb (truthy (JStr extractedText))
        || (Z.of_nat (length (trim extractedText)) <? 50)
     then throw (lit "Insufficient text extracted from document")
     else ret extractedText)
    (fun message => throw (lit "Failed to extract text from CV: " ++ message)).

(** The body of the inner [try]: staging (its failure is only logged),
    extraction, analysis. *)
Definition aiPath (talent : Profile) (careerPath : option CareerPath)
    (fileData fileName : jsstring) : M JSValue :=
  let! _ := try_catch
              (let! id := call CallCreateFile (createFile env) in
               set_uploadedFileId id)
              (fun _ => ret tt) in
  let! cvText := extractTextFromCV fileData fileName in
  analyzeCVContent cvText talent careerPath.

(** The inner [try / catch / finally]: the report and [usedFallback]. *)
Definition analysisStep (talent : Profile) (careerPath : option CareerPath)
    (fileData fileName : jsstring) : M (JSValue * bool) :=
  try_finally
    (try_catch
       (let! analysis := aiPath talent careerPath fileData fileName in
        ret (analysis, false))
       (fun _ =>
          let! analysis := lift (generateFallbackAnalysis talent careerPath) in
          ret (analysis, true)))
    (cleanup env).

Definition pipeline (body : Body) : M Response :=
  try_catch
    (if negb (gemini_api_key env)
     then ret (failure "Server configuration error" 500)
     else
       match body with
       | BodyInvalid => ret (failure "Invalid JSON input" 400)
       | BodyNull => throw destructure_msg
       | BodyFields talentId fileData fileName =>
           match talentId, fileData, fileName with
           | Some talentId', Some fileData', Some fileName' =>
               if negb (nonempty talentId) || negb (nonempty fileData)
                  || negb (nonempty fileName)
               then ret (failure
                 "Missing required parameters: talentId, fileData, fileName" 400)
               else if negb (includes allowedExtensions (fileExtension fileName'))
               then ret (failure
                 "Unsupported file type. Please upload PDF, DOC, DOCX, JPG, or PNG files."
                 400)
               else if tooLarge fileData'
               then ret (failure
                 "File size too large. Please upload files smaller than 5MB." 400)
               else
                 let! fetched := fetchTalent env "Talent profile not found" talentId' in
                 match fetched with
                 | inl response => ret response
                 | inr talent =>
                     let! careerPath := fetchCareerPath env talent in
                     let! outcome :=
                       analysisStep talent careerPath fileData' fileName' in
                     ret (completed talent careerPath fileName'
                            (fst outcome) (snd outcome))
                 end
           | _, _, _ =>
               ret (failure
                 "Missing required parameters: talentId, fileData, fileName" 400)
           end
       end)
    (fun _ =>
       let! _ := cleanup env in
       ret (failure "Internal server error occurred during analysis" 500)).
End Pipeline.

(** ** [src/main.js] *)

Module Main.

Definition requiredFields : list jsstring :=
  [lit "overallScore"; lit "careerStageAlignment"; lit "strengths"; lit "weaknesses";
   lit "profileVsCvGaps"; lit "recommendations"; lit "nextSteps"; lit "marketability"].

Definition scoreFields : list (jsstring * JSNumber * JSNumber) :=
  [(lit "overallScore", Fin 0, Fin 100);
   (lit "careerStageAlignment.alignmentScore", Fin 0, Fin 100);
   (lit "careerPathAlignment.alignmentScore", Fin 0, Fin 100);
   (lit "marketability.score", Fin 0, Fin 100)].

Section WithHost.
Context `{Host}.

(** The body of [scoreFields.forEach]: walk down the keys but the last,
    creating an empty object where the value is falsy, then clamp the
    last key when it is defined. *)
Fixpoint clampAt (keys : list jsstring) (min max : JSNumber) (obj : JSValue)
  : result JSValue :=
  match obj with
  | JNull | JUndefined => Throw type_error_msg
  | _ =>
      match keys with
      | [] => Ok obj
      | key :: rest =>
          match rest with
          | [] =>
              match get obj key with
              | JUndefined => Ok obj
              | x => Ok (set obj key
                           (JNum (Math_max min (Math_min max (ToNumber x)))))
              end
          | _ :: _ =>
              let obj1 :=
                if negb (truthy (get obj key)) then set obj key (JObj []) else obj in
              rbind (clampAt rest min max (get obj1 key))
                    (fun child => Ok (set obj1 key child))
          end
      end
  end.

Fixpoint clampScores (fields : list (jsstring * JSNumber * JSNumber))
    (analysis : JSValue) : result JSValue :=
  match fields with
  | [] => Ok analysis
  | (path, min, max) :: rest =>
      rbind (clampAt (split_on 46 path) min max analysis) (clampScores rest)
  end.

(** What [analyzeCVContent] does with the parsed answer. *)
Definition validate (analysis : JSValue) : result JSValue :=
  rbind (checkRequired (lit "Missing required field in analysis: ")
                       requiredFields analysis)
        (fun _ => clampScores scoreFields analysis).

Definition analyzeCVContent (env : Env) (cvText : jsstring) (talent : Profile)
    (careerPath : option CareerPath) : M JSValue :=
  try_catch
    (let! responseText := call CallGenerateFromText (generateFromText env) in
     let! analysis := lift (sanitizeAndParse responseText) in
     lift (validate analysis))
    (fun message => throw (lit "Failed to analyze CV content: " ++ message)).
End WithHost.

(** The value of a stage table at a key.  The tables are object literals:
    besides their three own keys, a key that names a property inherited
    from [Object.prototype] yields that property (a function or the
    prototype itself), which is truthy and has none of the fields of a
    stage entry. *)
Record StageContent : Type := {
  sc_strengths : list jsstring;
  sc_recommendations : list jsstring;
  sc_alignmentScore : Z
}.

Definition object_prototype_keys : list jsstring :=
  [lit "constructor"; lit "hasOwnProperty"; lit "isPrototypeOf";
   lit "propertyIsEnumerable"; lit "toLocaleString"; lit "toString";
   lit "valueOf"; lit "__proto__"; lit "__defineGetter__";
   lit "__defineSetter__"; lit "__lookupGetter__"; lit "__lookupSetter__"].

Definition pathfinder : StageContent :=
  {| sc_strengths :=
       [lit "Clear career direction as a Pathfinder seeking initial experience";
        lit "Appropriate stage for skill development and learning";
        lit "Good foundation for entry-level positions"];
     sc_recommendations :=
       [lit "Focus on building foundational skills for your chosen field";
        lit "Seek internships or entry-level positions to gain experience";
        lit "Consider online courses or certifications to strengthen your profile"];
     sc_alignmentScore := 70 |}.

Definition trailblazer : StageContent :=
  {| sc_strengths :=
       [lit "Career progression mindset appropriate for skill advancement";
        lit "Ready for mid-level challenges and leadership opportunities";
        lit "Good foundation for specialization and expertise development"];
     sc_recommendations :=
       [lit "Focus on advanced skills and specialization in your field";
        lit "Seek leadership or mentoring opportunities";
        lit "Consider advanced certifications to demonstrate expertise"];
     sc_alignmentScore := 60 |}.

Definition horizonChanger : StageContent :=
  {| sc_strengths :=
       [lit "Valuable experience from previous career to leverage";
        lit "Mature approach to career transition and change";
        lit "Transferable skills that can benefit new field"];
     sc_recommendations :=
       [lit "Highlight transferable skills from your previous career";
        lit "Identify skill gaps specific to your new chosen field";
        lit "Consider bridge training or certifications for career transition"];
     sc_alignmentScore := 55 |}.

(** [stageSpecificContent[stage] || stageSpecificContent['Pathfinder']]:
    [None] stands for an inherited property. *)
Definition stageContentFor (stage : jsstring) : option StageContent :=
  if jseq stage (lit "Pathfinder") then Some pathfinder
  else if jseq stage (lit "Trailblazer") then Some trailblazer
  else if jseq stage (lit "Horizon Changer") then Some horizonChanger
  else if includes object_prototype_keys stage then None
  else Some pathfinder.

Definition not_iterable_msg : jsstring :=
  lit "stageContent.recommendations is not iterable".

(** On an inherited property the entry has no [recommendations], and
    spreading [undefined] into the array raises a TypeError. *)
Definition generateFallbackAnalysis (talent : Profile) (careerPath : option CareerPath)
  : result JSValue :=
  let baseScore := 65 in
  match stageContentFor (careerStage talent) with
  | None => Throw not_iterable_msg
  | Some stageContent =>
      Ok (JObj
        [(lit "overallScore", num baseScore);
         (lit "careerStageAlignment",
            JObj [(lit "alignmentScore", num (sc_alignmentScore stageContent));
                  (lit "isAppropriateForStage", JBool true);
                  (lit "experienceLevel",
                     JStr (lit "Analysis limited - declared as " ++ careerStage talent));
                  (lit "stageJustification",
                     str "Could not perform detailed experience validation at this time");
                  (lit "recommendations",
                     strs [lit "Complete CV analysis needed to validate career stage alignment";
                           lit "Ensure CV clearly shows experience level appropriate for your stage"]);
                  (lit "redFlags",
                     strs [lit "Unable to verify experience level against declared career stage"])]);
         (lit "strengths", strs (sc_strengths stageContent));
         (lit "weaknesses",
            strs [lit "Unable to fully analyze CV content due to technical limitations";
                  lit "Limited visibility into detailed work experience";
                  lit "Cannot verify consistency between profile and CV"]);
         (lit "profileVsCvGaps",
            JObj [(lit "missingFromCV", strs [lit "Analysis temporarily unavailable"]);
                  (lit "missingFromProfile", strs [lit "Analysis temporarily unavailable"]);
                  (lit "inconsistencies",
                     strs [lit "Could not perform detailed comparison at this time"])]);
         (lit "careerPathAlignment", careerPathAlignment talent careerPath);
         (lit "recommendations",
            strs (sc_recommendations stageContent ++
                  [lit "Ensure CV is in a clear, readable format (PDF recommended)";
                   lit "Update your profile with complete and accurate information";
                   lit "Try re-uploading your CV if the format may have caused issues"]));
         (lit "nextSteps",
            strs [lit "Re-attempt CV upload with optimized file format";
                  lit "Complete all sections of your professional profile";
                  lit "Review and update your skills and certifications list";
                  match careerPath with
                  | Some cp => lit "Focus development on " ++ title cp ++ lit " requirements"
                  | None => lit "Consider career path selection for personalized guidance"
                  end]);
         (lit "marketability",
            JObj [(lit "score", num 55);
                  (lit "summary",
                     JStr (lit "Basic assessment for " ++ careerStage talent ++
                           lit " stage - complete CV analysis needed for detailed insights"));
                  (lit "competitiveAdvantages",
                     strs [lit "Professional profile information available";
                           lit "Clear " ++ careerStage talent ++
                             lit " career stage identification";
                           lit "Structured approach to career development"]);
                  (lit "improvementAreas",
                     strs [lit "Need comprehensive CV analysis";
                           lit "Profile optimization required";
                           lit "Detailed skill verification needed"])])])
  end.

Definition handler `{Host} (env : Env) (body : Body) : M Response :=
  pipeline env (analyzeCVContent env) generateFallbackAnalysis body.

End Main.

(** ** The plain variant (no career-stage content) *)

Module Part000.

Definition requiredFields : list jsstring :=
  [lit "overallScore"; lit "strengths"; lit "weaknesses"; lit "profileVsCvGaps";
   lit "recommendations"; lit "nextSteps"; lit "marketability"].

Section WithHost.
Context `{Host}.

(** [x < 0 || x > 100] *)
Definition outOfRange (x : JSValue) : bool :=
  num_lt (ToNumber x) (Fin 0) || num_lt (Fin 100) (ToNumber x).

Definition clamp100 (x : JSValue) : JSValue :=
  JNum (Math_max (Fin 0) (Math_min (Fin 100) (ToNumber x))).

(** The three range checks that follow the field validation. *)
Definition clampScores (analysis : JSValue) : JSValue :=
  let a1 :=
    if outOfRange (get analysis (lit "overallScore"))
    then set analysis (lit "overallScore")
             (clamp100 (get analysis (lit "overallScore")))
    else analysis in
  let marketability := get a1 (lit "marketability") in
  let a2 :=
    if outOfRange (get marketability (lit "score"))
    then set a1 (lit "marketability")
           (set marketability (lit "score")
              (clamp100 (if truthy (get marketability (lit "score"))
                         then get marketability (lit "score") else num 50)))
    else a1 in
  let alignment := get a2 (lit "careerPathAlignment") in
  if outOfRange (get alignment (lit "alignmentScore"))
  then if truthy alignment
       then set a2 (lit "careerPathAlignment")
              (set alignment (lit "alignmentScore")
                 (clamp100 (get alignment (lit "alignmentScore"))))
       else a2
  else a2.

Definition validate (analysis : JSValue) : result JSValue :=
  rbind (checkRequired (lit "Missing required field in analysis: ")
                       requiredFields analysis)
        (fun _ => Ok (clampScores analysis)).

Definition analyzeCVContent (env : Env) (cvText : jsstring) (talent : Profile)
    (careerPath : option CareerPath) : M JSValue :=
  try_catch
    (let! responseText := call CallGenerateFromText (generateFromText env) in
     let! analysis := lift (sanitizeAndParse responseText) in
     lift (validate analysis))
    (fun message => throw (lit "Failed to analyze CV content: " ++ message)).
End WithHost.

Definition generateFallbackAnalysis (talent : Profile) (careerPath : option CareerPath)
  : JSValue :=
  let baseScore := 65 in
  JObj
    [(lit "overallScore", num baseScore);
     (lit "strengths",
        strs [lit "Profile shows clear career direction and purpose";
              lit "Appropriate skill set for " ++ careerStage talent ++ lit " career stage";
              lit "Demonstrates commitment to professional development"]);
     (lit "weaknesses",
        strs [lit "Unable to fully analyze CV content due to technical limitations";
              lit "Limited visibility into detailed work experience";
              lit "Cannot verify consistency between profile and CV"]);
     (lit "profileVsCvGaps",
        JObj [(lit "missingFromCV", strs [lit "Analysis temporarily unavailable"]);
              (lit "missingFromProfile", strs [lit "Analysis temporarily unavailable"]);
              (lit "inconsistencies",
                 strs [lit "Could not perform detailed comparison at this time"])]);
     (lit "careerPathAlignment", careerPathAlignment talent careerPath);
     (lit "recommendations",
        strs [lit "Ensure CV is in a clear, readable format (PDF recommended)";
              lit "Update your profile with complete and accurate information";
              match careerPath with
              | Some cp => lit "Focus on developing required skills for " ++ title cp
              | None => lit "Consider selecting a career path for targeted recommendations"
              end;
              lit "Try re-uploading your CV if the format may have caused issues"]);
     (lit "nextSteps",
        strs [lit "Re-attempt CV upload with optimized file format";
              lit "Complete all sections of your professional profile";
              lit "Review and update your skills and certifications list";
              lit "Consider career path selection for personalized guidance"]);
     (lit "marketability",
        JObj [(lit "score", num 55);
              (lit "summary",
                 str "Basic assessment available - complete CV analysis needed for detailed insights");
              (lit "competitiveAdvantages",
                 strs [lit "Professional profile information available";
                       lit "Clear career stage identification"]);
              (lit "improvementAreas",
                 strs [lit "Need comprehensive CV analysis";
                       lit "Profile optimization required";
                       lit "Detailed skill verification needed"])])].

Definition handler `{Host} (env : Env) (body : Body) : M Response :=
  pipeline env (analyzeCVContent env)
    (fun talent careerPath => Ok (generateFallbackAnalysis talent careerPath)) body.

End Part000.

(** ** The third variant (ES module) *)

Module Part001.

Definition requiredFields : list jsstring :=
  [lit "overallScore"; lit "strengths"; lit "weaknesses"; lit "profileVsCvGPs";
   lit "recommendations"].

Section WithHost.
Context `{Host}.

Definition validate (analysis : JSValue) : result JSValue :=
  rbind (checkRequired (lit "Missing required field: ") requiredFields analysis)
        (fun _ => Ok analysis).

Definition analyzeCVContent (env : Env) (cvText : jsstring) (talent : Profile)
    (careerPath : option CareerPath) : M JSValue :=
  try_catch
    (let! responseText := call CallGenerateFromText (generateFromText env) in
     let! analysis := lift (sanitizeAndParse responseText) in
     lift (validate analysis))
    (fun message => throw (lit "Failed to analyze CV: " ++ message)).
End WithHost.

Definition extractTextFromCV (env : Env) (fileData fileName : jsstring) : M jsstring :=
  try_catch
    (call CallGenerateFromFile (generateFromFile env))
    (fun message => throw (lit "Failed to extract text from CV: " ++ message)).

Definition careerPathAlignment (talent : Profile) (careerPath : option CareerPath)
  : JSValue :=
  match careerPath with
  | Some cp =>
      JObj [(lit "alignmentScore", num 50);
            (lit "matchingSkills",
               strs (matchingItems (skills talent) (requiredSkills cp)));
            (lit "missingSkills",
               strs (missingItems (skills talent) (requiredSkills cp)));
            (lit "matchingCertifications",
               strs (matchingItems (certifications talent) (requiredCertifications cp)));
            (lit "missingCertifications",
               strs (missingItems (certifications talent) (requiredCertifications cp)));
            (lit "relevantExperience", strs [lit "Based on profile information only"]);
            (lit "additionalRequirements",
               strs [lit "Complete CV analysis for detailed insights"])]
  | None =>
      JObj [(lit "alignmentScore", num 0);
            (lit "message", str "No career path selected for comparison")]
  end.

Definition generateFallbackAnalysis (talent : Profile) (careerPath : option CareerPath)
  : JSValue :=
  JObj
    [(lit "overallScore", num 65);
     (lit "strengths",
        strs [lit "Profile shows clear career direction";
              lit "Strong foundation for " ++ careerStage talent ++ lit " level";
              lit "Diverse interests and background"]);
     (lit "weaknesses",
        strs [lit "Unable to fully analyze CV content";
              lit "Limited visibility into actual experience";
              lit "Cannot verify skill claims"]);
     (lit "profileVsCvGaps",
        JObj [(lit "missingFromCV", strs [lit "Analysis unavailable"]);
              (lit "missingFromProfile", strs [lit "Analysis unavailable"]);
              (lit "inconsistencies", strs [lit "Could not perform comparison"])]);
     (lit "careerPathAlignment", careerPathAlignment talent careerPath);
     (lit "recommendations",
        strs [lit "Ensure CV is readable and properly formatted";
              lit "Update your profile with accurate information";
              match careerPath with
              | Some cp => lit "Focus on developing skills for " ++ title cp
              | None => lit "Select a career path for targeted advice"
              end]);
     (lit "nextSteps",
        strs [lit "Try uploading CV again with better quality";
              lit "Complete your profile information";
              lit "Consider selecting a career path for guidance"]);
     (lit "marketability",
        JObj [(lit "score", num 55);
              (lit "summary",
                 str "Basic analysis available - upload a clear CV for detailed insights");
              (lit "competitiveAdvantages", strs [lit "Profile information available"]);
              (lit "improvementAreas",
                 strs [lit "Need complete CV analysis"; lit "Profile optimization"])])].

Section Handler.
Context `{Host} (env : Env).

(** The body of the inner [try]: here a staging failure is not caught
    on the spot and the text length is checked by the handler. *)
Definition aiPath (talent : Profile) (careerPath : option CareerPath)
    (fileData fileName : jsstring) : M JSValue :=
  let! id := call CallCreateFile (createFile env) in
  let! _ := set_uploadedFileId id in
  let! cvText := extractTextFromCV env fileData fileName in
  if negb (truthy (JStr cvText)) || (Z.of_nat (length (trim cvText)) <? 50)
  then throw (lit "Could not extract sufficient text from CV")
  else analyzeCVContent env cvText talent careerPath.

Definition analysisStep (talent : Profile) (careerPath : option CareerPath)
    (fileData fileName : jsstring) : M (JSValue * bool) :=
  try_finally
    (try_catch
       (let! analysis := aiPath talent careerPath fileData fileName in
        ret (analysis, false))
       (fun _ => ret (generateFallbackAnalysis talent careerPath, true)))
    (cleanup env).

Definition handler (body : Body) : M Response :=
  try_catch
    (match body with
     | BodyInvalid => ret (failure "Invalid JSON input" 400)
     | BodyNull => throw destructure_msg
     | BodyFields talentId fileData fileName =>
         match talentId, fileData, fileName with
         | Some talentId', Some fileData', Some fileName' =>
             if negb (nonempty talentId) || negb (nonempty fileData)
                || negb (nonempty fileName)
             then ret (failure
               "Missing required parameters: talentId, fileData, fileName" 400)
             else if negb (includes allowedExtensions (fileExtension fileName'))
             then ret (failure
               "Unsupported file type. Please upload PDF, DOC, DOCX, or image files."
               400)
             else
               let! fetched := fetchTalent env "Talent not found" talentId' in
               match fetched with
               | inl response => ret response
               | inr talent =>
                   let! careerPath := fetchCareerPath env talent in
                   let! outcome :=
                     analysisStep talent careerPath fileData' fileName' in
                   ret (completed talent careerPath fileName'
                          (fst outcome) (snd outcome))
               end
         | _, _, _ =>
             ret (failure
               "Missing required parameters: talentId, fileData, fileName" 400)
         end
     end)
    (fun _ =>
       let! _ := cleanup env in
       ret (failure "Internal server error" 500)).
End Handler.

End Part001.

(** ** The media type sent with the file *)

Module Media.
Section WithHost.
Context `{Host}.

(** [parts.pop()] on the answer of [split], which is never empty *)
Definition pop (parts : list jsstring) : jsstring := List.last parts [].

(** [s.endsWith(suffix)] *)
Definition endsWith (s suffix : jsstring) : bool :=
  match strip_prefix (rev suffix) (rev s) with
  | Some _ => true
  | None => false
  end.

(** The [switch] on the extension in [extractTextFromCV] of [src/main.js]
    and of the plain variant. *)
Definition mimeType (fileName : jsstring) : jsstring :=
  let extension := pop (split_on 46 (toLowerCase fileName)) in
  if jseq extension (lit "pdf") then lit "application/pdf"
  else if jseq extension (lit "jpg") || jseq extension (lit "jpeg") then lit "image/jpeg"
  else if jseq extension (lit "png") then lit "image/png"
  else if jseq extension (lit "doc") then lit "application/msword"
  else if jseq extension (lit "docx")
  then lit "application/vnd.openxmlformats-officedocument.wordprocessingml.document"
  else lit "application/octet-stream".

(** The conditional expression of the third variant: a name that ends with
    .pdf, then a name that ends with .jpg, .jpeg or .png (the expression is
    anchored at the end of the lower-cased name), whose type is built from
    the last part of the name as it was given. *)
Definition mimeType001 (fileName : jsstring) : jsstring :=
  if endsWith (toLowerCase fileName) (lit ".pdf") then lit "application/pdf"
  else if endsWith (toLowerCase fileName) (lit ".jpg")
          || endsWith (toLowerCase fileName) (lit ".jpeg")
          || endsWith (toLowerCase fileName) (lit ".png")
  then lit "image/" ++ pop (split_on 46 fileName)
  else lit "application/octet-stream".
End WithHost.
End Media.

(** ** A reference host

    A reader of the JSON grammar whose number literals are taken exactly, an
    ASCII [toLowerCase], and coercions that know decimal literals and the
    empty array only.  It is used to run the closed examples, whose texts are
    ASCII and whose numbers are doubles. *)

Module Ref.

Definition json_ws (c : N) : bool :=
  ((c =? 32) || (c =? 9) || (c =? 10) || (c =? 13))%N.

Definition is_digit (c : N) : bool := ((48 <=? c) && (c <=? 57))%N.

Definition digits_val (ds : jsstring) : Z :=
  fold_left (fun acc c => acc * 10 + Z.of_N (c - 48)) ds 0.

Definition hex_val (c : N) : option N :=
  if is_digit c then Some (c - 48)%N
  else if ((97 <=? c) && (c <=? 102))%N then Some (c - 87)%N
  else if ((65 <=? c) && (c <=? 70))%N then Some (c - 55)%N
  else None.

(** The characters of a string after its opening quote. *)
Fixpoint parse_chars (fuel : nat) (s acc : jsstring) : option (jsstring * jsstring) :=
  match fuel with
  | O => None
  | S f =>
      match s with
      | [] => None
      | 34%N :: r => Some (rev acc, r)
      | 92%N :: 117%N :: a :: b :: c :: d :: r =>
          match hex_val a, hex_val b, hex_val c, hex_val d with
          | Some a', Some b', Some c', Some d' =>
              parse_chars f r ((((a' * 16 + b') * 16 + c') * 16 + d')%N :: acc)
          | _, _, _, _ => None
          end
      | 92%N :: e :: r =>
          match
            (if N.eqb e 34 then Some 34 else if N.eqb e 92 then Some 92
             else if N.eqb e 47 then Some 47 else if N.eqb e 98 then Some 8
             else if N.eqb e 102 then Some 12 else if N.eqb e 110 then Some 10
             else if N.eqb e 114 then Some 13 else if N.eqb e 116 then Some 9
             else None)%N
          with
          | Some c => parse_chars f r (c :: acc)
          | None => None
          end
      | c :: r => if (c <? 32)%N then None else parse_chars f r (c :: acc)
      end
  end.

Definition decimal (mantissa exponent : Z) : Q :=
  if 0 <=? exponent then inject_Z (mantissa * 10 ^ exponent)
  else Qred (mantissa # Z.to_pos (10 ^ (- exponent))).

(** A number literal: sign, integer part, fraction, exponent. *)
Definition parse_number (s : jsstring) : option (Q * jsstring) :=
  let (negative, s1) :=
    match s with 45%N :: r => (true, r) | _ => (false, s) end in
  let int_part :=
    match s1 with
    | 48%N :: _ => [48%N]
    | _ => takeWhile is_digit s1
    end in
  match int_part with
  | [] => None
  | _ =>
      let s2 := skipn (length int_part) s1 in
      let frac_rest :=
        match s2 with
        | 46%N :: r =>
            match takeWhile is_digit r with
            | [] => None
            | ds => Some (ds, dropWhile is_digit r)
            end
        | _ => Some ([], s2)
        end in
      match frac_rest with
      | None => None
      | Some (frac, s3) =>
          let exp_rest :=
            match s3 with
            | c :: r =>
                if (N.eqb c 101 || N.eqb c 69)%bool then
                  let (eneg, r') :=
                    match r with
                    | 45%N :: r' => (true, r')
                    | 43%N :: r' => (false, r')
                    | _ => (false, r)
                    end in
                  match takeWhile is_digit r' with
                  | [] => None
                  | ds => Some ((if eneg then - digits_val ds else digits_val ds),
                                dropWhile is_digit r')
                  end
                else Some (0, s3)
            | [] => Some (0, s3)
            end in
          match exp_rest with
          | None => None
          | Some (e, s4) =>
              let mantissa := digits_val (int_part ++ frac) in
              let mantissa := if negative then - mantissa else mantissa in
              Some (decimal mantissa (e - Z.of_nat (length frac)), s4)
          end
      end
  end.

Fixpoint parse_value (fuel : nat) (s : jsstring) : option (JSValue * jsstring) :=
  match fuel with
  | O => None
  | S f =>
      match dropWhile json_ws s with
      | 123%N :: r =>
          match dropWhile json_ws r with
          | 125%N :: r' => Some (JObj [], r')
          | _ => parse_members f r []
          end
      | 91%N :: r =>
          match dropWhile json_ws r with
          | 93%N :: r' => Some (JArr [], r')
          | _ => parse_elements f r []
          end
      | 34%N :: r =>
          match parse_chars (S (length r)) r [] with
          | Some (str, r') => Some (JStr str, r')
          | None => None
          end
      | 116%N :: 114%N :: 117%N :: 101%N :: r => Some (JBool true, r)
      | 102%N :: 97%N :: 108%N :: 115%N :: 101%N :: r => Some (JBool false, r)
      | 110%N :: 117%N :: 108%N :: 108%N :: r => Some (JNull, r)
      | s' =>
          match parse_number s' with
          | Some (q, r) => Some (JNum (Fin q), r)
          | None => None
          end
      end
  end
with parse_members (fuel : nat) (s : jsstring) (acc : list (jsstring * JSValue))
  : option (JSValue * jsstring) :=
  match fuel with
  | O => None
  | S f =>
      match dropWhile json_ws s with
      | 34%N :: r =>
          match parse_chars (S (length r)) r [] with
          | Some (key, r1) =>
              match dropWhile json_ws r1 with
              | 58%N :: r2 =>
                  match parse_value f r2 with
                  | Some (v, r3) =>
                      let acc' := assoc_set key v acc in
                      match dropWhile json_ws r3 with
                      | 44%N :: r4 => parse_members f r4 acc'
                      | 125%N :: r4 => Some (JObj acc', r4)
                      | _ => None
                      end
                  | None => None
                  end
              | _ => None
              end
          | None => None
          end
      | _ => None
      end
  end
with parse_elements (fuel : nat) (s : jsstring) (acc : list JSValue)
  : option (JSValue * jsstring) :=
  match fuel with
  | O => None
  | S f =>
      match parse_value f s with
      | Some (v, r) =>
          match dropWhile json_ws r with
          | 44%N :: r' => parse_elements f r' (acc ++ [v])
          | 93%N :: r' => Some (JArr (acc ++ [v]), r')
          | _ => None
          end
      | None => None
      end
  end.

Definition json_parse (s : jsstring) : result JSValue :=
  match parse_value (S (length s)) s with
  | Some (v, rest) =>
      match dropWhile json_ws rest with
      | [] => Ok v
      | _ => Throw (lit "Unexpected non-whitespace character after JSON")
      end
  | None => Throw (lit "Unexpected token in JSON")
  end.

Definition ascii_lower (s : jsstring) : jsstring :=
  List.map (fun c => if ((65 <=? c) && (c <=? 90))%N then (c + 32)%N else c) s.

Definition string_to_number (s : jsstring) : JSNumber :=
  match trim s with
  | [] => Fin 0
  | t =>
      match parse_number t with
      | Some (q, []) => Fin q
      | _ => NaN
      end
  end.

Definition object_to_number (v : JSValue) : JSNumber :=
  match v with
  | JArr [] => Fin 0
  | _ => NaN
  end.

End Ref.

#[export] Instance refHost : Host := {|
  JSON_parse := Ref.json_parse;
  toLowerCase := Ref.ascii_lower;
  StringToNumber := Ref.string_to_number;
  ObjectToNumber := Ref.object_to_number
|}.

(** ** Example data *)

Module Ex.

Definition alice : Profile :=
  {| talent_id := lit "doc-1"; fullname := lit "Alice"; careerStage := lit "Trailblazer";
     skills := Some [lit "React"; lit "SQL"]; degrees := None;
     certifications := Some [lit "AWS Developer"]; interests := None;
     selectedPath := None |}.

Definition webdev : CareerPath :=
  {| path_id := lit "path-1"; title := lit "Web Developer";
     requiredSkills := Some [lit "React"; lit "Docker"];
     requiredCertifications := Some [lit "AWS Developer"; lit "CKA"];
     suggestedDegrees := None; toolsAndTechnologies := None |}.

(** The same profile with a stage label that names an inherited property. *)
Definition mallory : Profile :=
  {| talent_id := lit "doc-2"; fullname := lit "Mallory"; careerStage := lit "constructor";
     skills := None; degrees := None; certifications := None; interests := None;
     selectedPath := None |}.

Definition cvText : jsstring :=
  lit "Alice Example. Software engineer, five years of React and SQL. BSc.".

(** An answer of the model that carries every field of the three lists. *)
Definition answer (overallScore : string) : jsstring :=
  jlit "Here is the analysis: ```json
{ 'overallScore': " ++ lit overallScore ++ jlit ",
'careerStageAlignment': { 'alignmentScore': 120 },
'strengths': ['s'], 'weaknesses': ['w'],
'profileVsCvGaps': { 'missingFromCV': [] },
'profileVsCvGPs': { 'missingFromCV': [] },
'careerPathAlignment': { 'alignmentScore': -5 },
'recommendations': ['r'], 'nextSteps': ['n'],
'marketability': { 'score': 78, 'summary': 'ok' } }
```".

Definition env (talent : Profile) (staged fromFile fromText : result jsstring) : Env :=
  {| gemini_api_key := true;
     listDocuments := fun _ => Ok [talent];
     getDocument := fun _ => Ok webdev;
     createFile := staged;
     deleteFile := fun _ => Ok tt;
     generateFromFile := fromFile;
     generateFromText := fromText |}.

Definition request (fileName : string) : Body :=
  BodyFields (Some (lit "t1")) (Some (lit "JVBERi0xLjQK")) (Some (lit fileName)).

(** An answer with every field that [src/main.js] requires and no
    [careerPathAlignment]. *)
Definition answerWithoutAlignment : jsstring :=
  jlit "{ 'overallScore': 80, 'careerStageAlignment': { 'alignmentScore': 90 },
'strengths': ['s'], 'weaknesses': ['w'],
'profileVsCvGaps': { 'missingFromCV': [] },
'recommendations': ['r'], 'nextSteps': ['n'],
'marketability': { 'score': 78 } }".

(** A file of seven million characters: more than 5 MiB once decoded. *)
Definition bigData : jsstring := repeat 65%N (N.to_nat 7000000).

(** The answer as the sanitizer and the reference parser read it, and what
    [src/main.js] makes of it. *)
Definition parsed (overallScore : string) : JSValue :=
  match sanitizeAndParse (answer overallScore) with
  | Ok v => v
  | Throw _ => JUndefined
  end.

Definition clamped (overallScore : string) : JSValue :=
  match Main.validate (parsed overallScore) with
  | Ok v => v
  | Throw _ => JUndefined
  end.

End Ex.

(** The report carried by the response of a run ([undefined] when there is
    none) and the calls the run made. *)
Definition reported (out : result Response * St) : JSValue :=
  match fst out with
  | Ok response => default JUndefined (analysis response)
  | Throw _ => JUndefined
  end.

Definition usedFallbackOf (out : result Response * St) : option bool :=
  match fst out with
  | Ok response => usedFallback <$> metadata response
  | Throw _ => None
  end.

Definition statusOf (out : result Response * St) : option (bool * Z * Z) :=
  match fst out with
  | Ok response => Some (success response, statusCode response, httpStatus response)
  | Throw _ => None
  end.

Definition callsOf (out : result Response * St) : list Call := calls (snd out).

(** The number of attempts to release the staged file. *)
Definition releases (cs : list Call) : nat :=
  length (List.filter (fun c => match c with CallDeleteFile _ => true | _ => false end) cs).

(** * Vocabulary of the properties *)

(** A decidable closed proposition, settled by evaluation. *)
Ltac decide_now := apply (bool_decide_unpack _); vm_compute; exact I.

Definition is_brace (c : N) : Prop := c = lbrace \/ c = rbrace.

(** A matcher that deletes its matches and never looks beyond a brace. *)
Record fence_like (m : Matcher) : Prop := {
  fl_local : forall X c Y, is_brace c -> m (X ++ c :: Y) = m X;
  fl_bound : forall X k rep, m X = Some (k, rep) -> (k <= length X)%nat /\ rep = []
}.

(** The position of the first opening and of the last closing brace: no
    opening brace, an opening brace with no closing brace after it, or a
    pair around [M]. *)
Inductive framed : jsstring -> option jsstring -> Prop :=
| framed_none s : lbrace ∉ s -> framed s None
| framed_open X Y : lbrace ∉ X -> rbrace ∉ Y -> framed (X ++ lbrace :: Y) None
| framed_pair X M Y :
    lbrace ∉ X -> rbrace ∉ Y -> framed (X ++ lbrace :: M ++ rbrace :: Y) (Some M).

(** The test of [extractAndCleanJSON] on the stripped text. *)
Definition no_object (s : jsstring) : bool :=
  (indexOf lbrace s =? -1) || (lastIndexOf rbrace s =? -1)
  || (indexOf lbrace s >=? lastIndexOf rbrace s).

(** What [extractAndCleanJSON] answers, from the framing of its input. *)
Definition cleaned_of (o : option jsstring) : result jsstring :=
  match o with
  | None => Throw (lit "Failed to clean JSON: " ++ no_json_object_msg)
  | Some M =>
      Ok (repair (lbrace :: replace_g re_fence (replace_g re_fence_json M) ++ [rbrace]))
  end.

(** An array attribute as a set; a missing attribute is the empty set. *)
Definition as_set (o : option (list jsstring)) : gset jsstring :=
  list_to_set (default [] o).

(** The stage labels on which the stage tables of [src/main.js] answer a
    stage entry: every label but the names inherited from [Object.prototype]. *)
Definition plain_stage (talent : Profile) : Prop :=
  Main.stageContentFor (careerStage talent) <> None.

(** The four comparison sequences of a [careerPathAlignment] record, read as
    sets of strings. *)
Definition compares (alignment : JSValue) (talent : Profile) (cp : CareerPath) : Prop :=
  exists matchingSkills missingSkills matchingCertifications missingCertifications,
    get alignment (lit "matchingSkills") = strs matchingSkills /\
    get alignment (lit "missingSkills") = strs missingSkills /\
    get alignment (lit "matchingCertifications") = strs matchingCertifications /\
    get alignment (lit "missingCertifications") = strs missingCertifications /\
    list_to_set matchingSkills = as_set (skills talent) ∩ as_set (requiredSkills cp) /\
    list_to_set missingSkills = as_set (requiredSkills cp) ∖ as_set (skills talent) /\
    list_to_set matchingCertifications
      = as_set (certifications talent) ∩ as_set (requiredCertifications cp) /\
    list_to_set missingCertifications
      = as_set (requiredCertifications cp) ∖ as_set (certifications talent).

Definition keys_of (v : JSValue) : list jsstring :=
  match v with
  | JObj fs => List.map fst fs
  | _ => []
  end.

(** The [careerPathAlignment] record of a report built without a career
    target: score zero, four empty sequences, and the field names of the
    record built with a target. *)
Definition zeroed (alignment : JSValue) (talent : Profile) : Prop :=
  get alignment (lit "alignmentScore") = num 0 /\
  get alignment (lit "matchingSkills") = JArr [] /\
  get alignment (lit "missingSkills") = JArr [] /\
  get alignment (lit "matchingCertifications") = JArr [] /\
  get alignment (lit "missingCertifications") = JArr [] /\
  forall cp, keys_of alignment = keys_of (careerPathAlignment talent (Some cp)).

Definition is_nullish (v : JSValue) : bool :=
  match v with
  | JNull | JUndefined => true
  | _ => false
  end.

(** The value a score field has after the clamping loop. *)
Definition clampv `{Host} (x : JSValue) : JSValue :=
  match x with
  | JUndefined => JUndefined
  | _ => JNum (Math_max (Fin 0) (Math_min (Fin 100) (ToNumber x)))
  end.

(** The four score fields, as paths. *)
Definition score_paths : list (list jsstring) :=
  [[lit "overallScore"];
   [lit "careerStageAlignment"; lit "alignmentScore"];
   [lit "careerPathAlignment"; lit "alignmentScore"];
   [lit "marketability"; lit "score"]].

Definition read (v : JSValue) (path : list jsstring) : JSValue :=
  fold_left get path v.

(** A score that is absent, not a number, or a number within bounds. *)
Definition within_bounds (v : JSValue) : Prop :=
  v = JUndefined \/
  exists n, v = JNum n /\ (n = NaN \/ exists q, n = Fin q /\ (0 <= q /\ q <= 100)%Q).

(** An integer score within bounds. *)
Definition integer_score (v : JSValue) : Prop :=
  exists z, v = num z /\ 0 <= z <= 100.

(** A computation that leaves [uploadedFileId] alone, answers [r] and makes
    the calls [cs], whatever the state it starts from. *)
Definition effect {A} (c : M A) (r : result A) (cs : list Call) : Prop :=
  forall st, c st = (r, {| uploadedFileId := uploadedFileId st; calls := calls st ++ cs |}).

Ltac unfold_monad :=
  unfold try_catch, try_finally, bind, ret, throw, lift, call,
         set_uploadedFileId, get_uploadedFileId.

(** The career path the handler works with: the selected one when its fetch
    succeeds. *)
Definition careerPathOf (env : Env) (talent : Profile) : option CareerPath :=
  match selectedPath talent with
  | Some (c :: id) =>
      match getDocument env (c :: id) with
      | Ok cp => Some cp
      | Throw _ => None
      end
  | _ => None
  end.

(** The releases owed for the staged file: one when staging gave a handle. *)
Definition staged (env : Env) : nat :=
  match createFile env with
  | Ok (_ :: _) => 1
  | _ => 0
  end.

(** A request that passes the checks of [src/main.js] and whose profile is
    found. *)
Record accepted `{Host} (env : Env) (talentId fileData fileName : jsstring)
    (talent : Profile) : Prop := {
  acc_key : gemini_api_key env = true;
  acc_talentId : talentId <> [];
  acc_fileData : fileData <> [];
  acc_fileName : fileName <> [];
  acc_extension : includes allowedExtensions (fileExtension fileName) = true;
  acc_size : tooLarge fileData = false;
  acc_profile : exists others, listDocuments env talentId = Ok (talent :: others)
}.

(** The outcome of extraction followed by analysis ([analysed] is what the
    analysis stage answers on an extracted text). *)
Definition aiOutcome `{Host} (env : Env) (fileData fileName : jsstring)
    (analysed : jsstring -> result JSValue) : result JSValue :=
  rbind (fst (run (extractTextFromCV env fileData fileName))) analysed.

(** A request that passes the checks of the third variant (which has no
    configuration and no size check) and whose profile is found. *)
Record accepted001 `{Host} (env : Env) (talentId fileData fileName : jsstring)
    (talent : Profile) : Prop := {
  acc1_talentId : talentId <> [];
  acc1_fileData : fileData <> [];
  acc1_fileName : fileName <> [];
  acc1_extension : includes allowedExtensions (fileExtension fileName) = true;
  acc1_profile : exists others, listDocuments env talentId = Ok (talent :: others)
}.

(** The outcome of the inner [try] of the third variant. *)
Definition aiOutcome001 `{Host} (env : Env) (fileData fileName : jsstring)
    (talent : Profile) (careerPath : option CareerPath) : result JSValue :=
  fst (run (Part001.aiPath env talent careerPath fileData fileName)).

(** What the analysis stage of a variant answers on an extracted text. *)
Definition analysisOutcome
    (analyze : jsstring -> Profile -> option CareerPath -> M JSValue)
    (talent : Profile) (cvText : jsstring) : result JSValue :=
  fst (run (analyze cvText talent None)).

(** The response of [src/main.js] to an accepted request: the report of the
    model, the report of the fallback builder, or the answer of the outer
    [catch] when the fallback builder raises. *)
Definition Main_response `{Host} (env : Env) (fileData fileName : jsstring)
    (talent : Profile) : Response :=
  let careerPath := careerPathOf env talent in
  match aiOutcome env fileData fileName
          (analysisOutcome (Main.analyzeCVContent env) talent) with
  | Ok report => completed talent careerPath fileName report false
  | Throw _ =>
      match Main.generateFallbackAnalysis talent careerPath with
      | Ok fallback => completed talent careerPath fileName fallback true
      | Throw _ => failure "Internal server error occurred during analysis" 500
      end
  end.

(** The same collaborators with another outcome of [storage.deleteFile]. *)
Definition with_deleteFile (env : Env) (outcome : jsstring -> result unit) : Env :=
  {| gemini_api_key := gemini_api_key env;
     listDocuments := listDocuments env;
     getDocument := getDocument env;
     createFile := createFile env;
     deleteFile := outcome;
     generateFromFile := generateFromFile env;
     generateFromText := generateFromText env |}.

(** A response with [success:false], status 400 and no report, given before
    any call to a collaborator. *)
Definition rejected (out : result Response * St) : Prop :=
  statusOf out = Some (false, 400, 400)
  /\ (exists response, fst out = Ok response /\ analysis response = None)
  /\ callsOf out = [].

Definition unsupported `{Host} (fileName : option jsstring) : Prop :=
  exists name, fileName = Some name
               /\ includes allowedExtensions (fileExtension name) = false.

Definition oversized (fileData : option jsstring) : Prop :=
  exists data, fileData = Some data /\ tooLarge data = true.

(** What the analysis stage owes for a list of required fields: it fails
    when the model call raises, when the sanitizer or the parser raises and
    when a field of the list is absent from the parsed object; it succeeds
    when every field of the list is present with a truthy value. *)
Definition analysis_contract `{Host} (env : Env) (analyze : M JSValue)
    (fields : list jsstring) : Prop :=
  let outcome := fst (run analyze) in
  (is_throw (generateFromText env) = true -> is_throw outcome = true)
  /\ (forall text, generateFromText env = Ok text ->
        is_throw (sanitizeAndParse text) = true -> is_throw outcome = true)
  /\ (forall text analysis field,
        generateFromText env = Ok text -> sanitizeAndParse text = Ok analysis ->
        field ∈ fields -> get analysis field = JUndefined -> is_throw outcome = true)
  /\ (forall text fs,
        generateFromText env = Ok text -> sanitizeAndParse text = Ok (JObj fs) ->
        (forall field, field ∈ fields -> truthy (assoc_get field fs) = true) ->
        is_throw outcome = false).

(** ** Vocabulary of the further properties *)

(** White space in normal form: every white-space character is a space and
    the character after it, if any, is not white space. *)
Fixpoint normal_ws (s : jsstring) : bool :=
  match s with
  | [] => true
  | c :: r =>
      (negb (is_space c)
       || (N.eqb c 32 && match r with d :: _ => negb (is_space d) | [] => true end))
      && normal_ws r
  end.

(** A text between an opening and a closing brace. *)
Definition braced (s : jsstring) : Prop :=
  exists M, s = lbrace :: M ++ [rbrace].

(** A matcher under which a text between braces stays between braces: a
    match at the opening brace puts a brace first, and a match that takes the
    last character of a text that ends with a closing brace puts a closing
    brace last. *)
Record brace_safe (m : Matcher) : Prop := {
  bs_head : forall s k rep, m (lbrace :: s) = Some (k, rep) -> exists rep', rep = lbrace :: rep';
  bs_tail : forall Y k rep, m (Y ++ [rbrace]) = Some (k, rep) ->
            (k <= length Y)%nat \/ exists rep', rep = rep' ++ [rbrace]
}.

(** ** Runs of the handlers *)

(** The envelope of a response: a report with its metadata and status 200,
    or an error message with status 400, 404 or 500 and nothing else; the
    HTTP status is the status of the body. *)
Definition well_formed (r : Response) : Prop :=
  httpStatus r = statusCode r
  /\ ((success r = true /\ statusCode r = 200 /\ error r = None
       /\ is_Some (analysis r) /\ is_Some (metadata r))
      \/ (success r = false
          /\ (statusCode r = 400 \/ statusCode r = 404 \/ statusCode r = 500)
          /\ is_Some (error r) /\ analysis r = None /\ metadata r = None)).

(** The call that fetches the selected career path, when one is selected. *)
Definition path_calls (talent : Profile) : list Call :=
  match selectedPath talent with
  | Some (c :: id) => [CallGetDocument (c :: id)]
  | _ => []
  end.

(** The call that releases the staged file, when staging gave a handle. *)
Definition release_calls (env : Env) : list Call :=
  match createFile env with
  | Ok (c :: id) => [CallDeleteFile (c :: id)]
  | _ => []
  end.

(** An answer of the extraction model that is a text of fifty characters or
    more once trimmed. *)
Definition sufficient (extraction : result jsstring) : bool :=
  match extraction with
  | Ok text => truthy (JStr text) && (50 <=? Z.of_nat (length (trim text)))
  | Throw _ => false
  end.

(** The calls of an accepted request in [src/main.js] and in the plain
    variant. *)
Definition trace (env : Env) (talentId : jsstring) (talent : Profile) (crash : bool)
  : list Call :=
  CallListDocuments talentId :: path_calls talent
  ++ [CallCreateFile; CallGenerateFromFile]
  ++ (if sufficient (generateFromFile env) then [CallGenerateFromText] else [])
  ++ release_calls env
  ++ (if crash then release_calls env else []).

(** The calls of an accepted request in the third variant. *)
Definition trace001 (env : Env) (talentId : jsstring) (talent : Profile) : list Call :=
  CallListDocuments talentId :: path_calls talent
  ++ CallCreateFile
     :: (if is_throw (createFile env) then []
         else CallGenerateFromFile
              :: (if sufficient (generateFromFile env) then [CallGenerateFromText] else []))
  ++ release_calls env.

(** The requests that do not reach the analysis: an answer without any
    call, or an answer after the query for the profile alone. *)
Inductive early (notFound : string) (env : Env) : Body -> result Response * St -> Prop :=
| early_refused body msg code :
    code = 400 \/ code = 500 ->
    early notFound env body (Ok (failure msg code), st0)
| early_not_found talentId fileData fileName :
    listDocuments env talentId = Ok [] ->
    early notFound env (BodyFields (Some talentId) fileData fileName)
      (Ok (failure notFound 404),
       {| uploadedFileId := None; calls := [CallListDocuments talentId] |})
| early_store_error talentId fileData fileName :
    is_throw (listDocuments env talentId) = true ->
    early notFound env (BodyFields (Some talentId) fileData fileName)
      (Ok (failure "Failed to fetch talent information" 500),
       {| uploadedFileId := None; calls := [CallListDocuments talentId] |}).

(** A run whose refusals are made without side effects: status 400 comes
    with no call at all, and status 404 with the query that found no profile
    and nothing else. *)
Definition quiet_refusals (env : Env) (out : result Response * St) : Prop :=
  (statusOf out = Some (false, 400, 400) -> callsOf out = [])
  /\ (statusOf out = Some (false, 404, 404) ->
      exists talentId,
        listDocuments env talentId = Ok [] /\ callsOf out = [CallListDocuments talentId]).

(** The three score fields of the plain variant, as paths. *)
Definition score_paths000 : list (list jsstring) :=
  [[lit "overallScore"];
   [lit "marketability"; lit "score"];
   [lit "careerPathAlignment"; lit "alignmentScore"]].

(** The number of times a string occurs in a list. *)
Definition occurrences (x : jsstring) (l : list jsstring) : nat :=
  length (filter (fun y => y = x) l).

(** The number of fetches of a career path. *)
Definition fetches (cs : list Call) : nat :=
  length (List.filter (fun c => match c with CallGetDocument _ => true | _ => false end) cs).

(** The response to an accepted request, from the outcome of the AI path
    and the outcome of the fallback builder. *)
Definition response_of (talent : Profile) (careerPath : option CareerPath)
    (fileName : jsstring) (ai fallback : result JSValue) : Response :=
  match ai with
  | Ok report => completed talent careerPath fileName report false
  | Throw _ =>
      match fallback with
      | Ok report => completed talent careerPath fileName report true
      | Throw _ => failure "Internal server error occurred during analysis" 500
      end
  end.

(** * Properties *)

(** ** The sanitizer *)

Lemma takeWhile_app_stop p X c Y :
  p c = false -> takeWhile p (X ++ c :: Y) = takeWhile p X.
Proof.
  intros Hc. induction X as [|x X IH]; simpl.
  - now rewrite Hc.
  - destruct (p x); [now rewrite IH | reflexivity].
Qed.

Lemma takeWhile_length p s : (length (takeWhile p s) <= length s)%nat.
Proof.
  induction s as [|x s IH]; simpl; [lia|]. destruct (p x); simpl; lia.
Qed.

Lemma dropWhile_app_stop p X c Y :
  p c = false -> dropWhile p (X ++ c :: Y) = dropWhile p X ++ c :: Y.
Proof.
  intros Hc. induction X as [|x X IH]; simpl.
  - now rewrite Hc.
  - destruct (p x); [apply IH | reflexivity].
Qed.

Lemma dropWhile_elem p s x : x ∈ dropWhile p s -> x ∈ s.
Proof.
  induction s as [|y s IH]; simpl; [easy|].
  destruct (p y); [|easy]. intros Hx. apply elem_of_cons. right. now apply IH.
Qed.

Lemma strip_prefix_app p X c Y :
  c ∉ p ->
  strip_prefix p (X ++ c :: Y) = (fun r => r ++ c :: Y) <$> strip_prefix p X.
Proof.
  revert X. induction p as [|a p IH]; intros X Hc; [reflexivity|].
  apply not_elem_of_cons in Hc as [Hca Hcp].
  destruct X as [|x X]; simpl.
  - destruct (N.eqb_spec a c); [congruence | reflexivity].
  - destruct (N.eqb a x); [now apply IH | reflexivity].
Qed.

Lemma strip_prefix_length p s r :
  strip_prefix p s = Some r -> length s = (length p + length r)%nat.
Proof.
  revert s. induction p as [|a p IH]; intros s; simpl.
  - intros [= ->]. reflexivity.
  - destruct s as [|x s]; [discriminate|].
    destruct (N.eqb a x); [|discriminate].
    intros Hr. simpl. now rewrite (IH _ Hr).
Qed.

Lemma fence_matcher_like (p : jsstring) :
  lbrace ∉ p -> rbrace ∉ p ->
  fence_like (fun s =>
    match strip_prefix p s with
    | Some rest => Some (length p + length (takeWhile is_space rest), [])%nat
    | None => None
    end).
Proof.
  intros Hl Hr. split.
  - intros X c Y Hc.
    assert (c ∉ p) by (destruct Hc as [-> | ->]; assumption).
    assert (is_space c = false) by (destruct Hc as [-> | ->]; reflexivity).
    rewrite strip_prefix_app by assumption.
    destruct (strip_prefix p X) as [rest|]; simpl; [|reflexivity].
    now rewrite takeWhile_app_stop.
  - intros X k rep. destruct (strip_prefix p X) as [rest|] eqn:E; [|discriminate].
    intros [= <- <-]. split; [|reflexivity].
    apply strip_prefix_length in E. pose proof (takeWhile_length is_space rest). lia.
Qed.

Lemma re_fence_json_like : fence_like re_fence_json.
Proof. apply (fence_matcher_like (lit "```json")); decide_now. Qed.

Lemma re_fence_like : fence_like re_fence.
Proof. apply (fence_matcher_like (lit "```")); decide_now. Qed.

Section FenceLike.
Variable m : Matcher.
Hypothesis Hm : fence_like m.

Lemma replaceAll_app_brace X c Y skip :
  is_brace c -> (skip <= length X)%nat ->
  replaceAll m skip (X ++ c :: Y) = replaceAll m skip X ++ c :: replaceAll m 0 Y.
Proof.
  intros Hc. revert skip. induction X as [|x X IH]; intros skip Hs.
  - simpl in Hs. assert (skip = 0)%nat as -> by lia. simpl.
    pose proof (fl_local m Hm [] c Y Hc) as E0. simpl in E0. rewrite E0.
    destruct (m []) as [[k rep]|] eqn:E; [|reflexivity].
    apply (fl_bound m Hm) in E as [Hk _]. simpl in Hk.
    assert (k = 0)%nat as -> by lia. reflexivity.
  - simpl in Hs. destruct skip as [|skip].
    + change ((x :: X) ++ c :: Y) with (x :: (X ++ c :: Y)).
      cbn [replaceAll].
      change (x :: (X ++ c :: Y)) with ((x :: X) ++ c :: Y).
      rewrite (fl_local m Hm (x :: X) c Y Hc).
      destruct (m (x :: X)) as [[k rep]|] eqn:E.
      * destruct k as [|k].
        -- simpl. now rewrite IH by lia.
        -- apply (fl_bound m Hm) in E as [Hk _]. simpl in Hk.
           rewrite IH by lia. now rewrite app_assoc.
      * simpl. now rewrite IH by lia.
    + simpl. apply IH. lia.
Qed.

Lemma replaceAll_elem X skip x : x ∈ replaceAll m skip X -> x ∈ X.
Proof.
  revert skip. induction X as [|y X IH]; intros skip; [easy|].
  destruct skip as [|skip]; cbn [replaceAll].
  - destruct (m (y :: X)) as [[k rep]|] eqn:E.
    + destruct k as [|k].
      * rewrite !elem_of_cons. intros [->|Hx]; [now left | right; eauto].
      * apply (fl_bound m Hm) in E as [_ ->]. simpl.
        intros Hx. apply elem_of_cons. right. eauto.
    + rewrite !elem_of_cons. intros [->|Hx]; [now left | right; eauto].
  - intros Hx. apply elem_of_cons. right. eauto.
Qed.

Lemma replace_g_app_brace X c Y :
  is_brace c -> replace_g m (X ++ c :: Y) = replace_g m X ++ c :: replace_g m Y.
Proof. intros Hc. unfold replace_g. apply replaceAll_app_brace; [assumption | lia]. Qed.

Lemma replace_g_notin X c : c ∉ X -> c ∉ replace_g m X.
Proof. intros Hc Hx. apply Hc. eapply replaceAll_elem, Hx. Qed.
End FenceLike.

Lemma framed_total s : exists o, framed s o.
Proof.
  destruct (decide (lbrace ∈ s)) as [Hin|Hout].
  - apply list_elem_of_split_l in Hin as (X & R & -> & HX).
    destruct (decide (rbrace ∈ R)) as [Hr|Hr].
    + apply list_elem_of_split_r in Hr as (M & Y & -> & HY).
      exists (Some M). now constructor.
    + exists None. now constructor.
  - exists None. now constructor.
Qed.

Lemma framed_decorate t o pre post :
  framed t o ->
  lbrace ∉ pre -> rbrace ∉ pre -> lbrace ∉ post -> rbrace ∉ post ->
  framed (pre ++ t ++ post) o.
Proof.
  intros Hf Hl1 Hr1 Hl2 Hr2. destruct Hf as [s Hs | X Y HX HY | X M Y HX HY].
  - constructor. rewrite !elem_of_app. tauto.
  - replace (pre ++ (X ++ lbrace :: Y) ++ post)
      with ((pre ++ X) ++ lbrace :: (Y ++ post))
      by (rewrite <- !app_assoc; reflexivity).
    constructor; rewrite elem_of_app; tauto.
  - replace (pre ++ (X ++ lbrace :: M ++ rbrace :: Y) ++ post)
      with ((pre ++ X) ++ lbrace :: M ++ rbrace :: (Y ++ post))
      by (rewrite <- !app_assoc; simpl; rewrite <- !app_assoc; reflexivity).
    constructor; rewrite elem_of_app; tauto.
Qed.

Lemma framed_replace m s o :
  fence_like m -> framed s o -> framed (replace_g m s) (replace_g m <$> o).
Proof.
  intros Hm Hf. destruct Hf as [s Hs | X Y HX HY | X M Y HX HY]; simpl.
  - constructor. now apply replace_g_notin.
  - rewrite (replace_g_app_brace m Hm) by now left.
    constructor; now apply replace_g_notin.
  - rewrite (replace_g_app_brace m Hm) by now left.
    rewrite (replace_g_app_brace m Hm) by now right.
    constructor; now apply replace_g_notin.
Qed.

Lemma trimEnd_app_stop L c Y :
  is_space c = false -> trimEnd (L ++ c :: Y) = L ++ c :: trimEnd Y.
Proof.
  intros Hc. unfold trimEnd.
  rewrite rev_app_distr. simpl. rewrite <- app_assoc. simpl.
  rewrite dropWhile_app_stop by assumption.
  rewrite rev_app_distr. simpl. rewrite rev_involutive, <- app_assoc. reflexivity.
Qed.

Lemma trimEnd_elem s x : x ∈ trimEnd s -> x ∈ s.
Proof.
  unfold trimEnd. rewrite !list_elem_of_In, <- in_rev, <- !list_elem_of_In.
  intros Hx. apply dropWhile_elem in Hx.
  now rewrite list_elem_of_In, <- in_rev, <- list_elem_of_In in Hx.
Qed.

Lemma trim_elem s x : x ∈ trim s -> x ∈ s.
Proof. intros Hx. eapply dropWhile_elem, trimEnd_elem, Hx. Qed.

Lemma framed_trim s o : framed s o -> framed (trim s) o.
Proof.
  intros Hf. destruct Hf as [s Hs | X Y HX HY | X M Y HX HY]; unfold trim, trimStart.
  - constructor. intros Hx. apply Hs. now apply trim_elem.
  - rewrite dropWhile_app_stop by reflexivity.
    rewrite trimEnd_app_stop by reflexivity.
    constructor; intros Hx; [apply HX | apply HY].
    + eapply dropWhile_elem, Hx.
    + eapply trimEnd_elem, Hx.
  - rewrite dropWhile_app_stop by reflexivity.
    change (dropWhile is_space X ++ lbrace :: M ++ rbrace :: Y)
      with (dropWhile is_space X ++ (lbrace :: M) ++ rbrace :: Y).
    rewrite app_assoc, trimEnd_app_stop by reflexivity.
    rewrite <- app_assoc.
    constructor; intros Hx; [apply HX | apply HY].
    + eapply dropWhile_elem, Hx.
    + eapply trimEnd_elem, Hx.
Qed.

Lemma indexOf_from_notin c s i : c ∉ s -> indexOf_from c s i = -1.
Proof.
  revert i. induction s as [|x s IH]; intros i Hc; [reflexivity|].
  apply not_elem_of_cons in Hc as [Hx Hs]. simpl.
  destruct (N.eqb_spec x c); [congruence | now apply IH].
Qed.

Lemma indexOf_from_first c X R i :
  c ∉ X -> indexOf_from c (X ++ c :: R) i = i + Z.of_nat (length X).
Proof.
  revert i. induction X as [|x X IH]; intros i Hc; simpl.
  - rewrite N.eqb_refl. lia.
  - apply not_elem_of_cons in Hc as [Hx HX].
    destruct (N.eqb_spec x c); [congruence|]. rewrite IH by assumption. lia.
Qed.

Lemma lastIndexOf_from_notin c s i acc : c ∉ s -> lastIndexOf_from c s i acc = acc.
Proof.
  revert i acc. induction s as [|x s IH]; intros i acc Hc; [reflexivity|].
  apply not_elem_of_cons in Hc as [Hx Hs]. simpl.
  destruct (N.eqb_spec x c); [congruence | now apply IH].
Qed.

Lemma lastIndexOf_from_app c X Y i acc :
  lastIndexOf_from c (X ++ Y) i acc =
  lastIndexOf_from c Y (i + Z.of_nat (length X)) (lastIndexOf_from c X i acc).
Proof.
  revert i acc. induction X as [|x X IH]; intros i acc; simpl.
  - now rewrite Z.add_0_r.
  - rewrite IH. f_equal. lia.
Qed.

Lemma lastIndexOf_from_lt c s i acc :
  acc < i -> lastIndexOf_from c s i acc < i + Z.of_nat (length s).
Proof.
  revert i acc. induction s as [|x s IH]; intros i acc Hlt; simpl; [lia|].
  destruct (N.eqb x c).
  - specialize (IH (i + 1) i). lia.
  - specialize (IH (i + 1) acc). lia.
Qed.

Lemma framed_none_check s : framed s None -> no_object s = true.
Proof.
  intros Hf. unfold no_object, indexOf, lastIndexOf. inversion Hf; subst.
  - rewrite indexOf_from_notin by assumption. reflexivity.
  - rewrite indexOf_from_first by assumption.
    rewrite lastIndexOf_from_app. simpl.
    rewrite lastIndexOf_from_notin by assumption.
    pose proof (lastIndexOf_from_lt rbrace X 0 (-1) ltac:(lia)) as Hlt.
    apply orb_true_iff. right. apply Z.geb_le. lia.
Qed.

Lemma framed_pair_check X M Y :
  lbrace ∉ X -> rbrace ∉ Y ->
  let s := X ++ lbrace :: M ++ rbrace :: Y in
  no_object s = false /\
  substring s (indexOf lbrace s) (lastIndexOf rbrace s + 1) = lbrace :: M ++ [rbrace].
Proof.
  intros HX HY s.
  assert (Hi : indexOf lbrace s = Z.of_nat (length X)).
  { unfold indexOf, s. rewrite indexOf_from_first by assumption. lia. }
  assert (Hl : lastIndexOf rbrace s = Z.of_nat (length X) + 1 + Z.of_nat (length M)).
  { unfold lastIndexOf, s.
    change (X ++ lbrace :: M ++ rbrace :: Y) with (X ++ (lbrace :: M) ++ rbrace :: Y).
    rewrite app_assoc, lastIndexOf_from_app. simpl.
    rewrite lastIndexOf_from_notin by assumption.
    rewrite length_app. simpl. lia. }
  split.
  - unfold no_object. rewrite Hi, Hl.
    apply orb_false_iff. split; [apply orb_false_iff; split|].
    + apply Z.eqb_neq. lia.
    + apply Z.eqb_neq. lia.
    + rewrite Z.geb_leb. apply Z.leb_gt. lia.
  - rewrite Hi, Hl. unfold substring.
    assert (Hlen : length s = (length X + (1 + (length M + (1 + length Y))))%nat).
    { unfold s. rewrite length_app. simpl. rewrite length_app. simpl. lia. }
    rewrite Hlen.
    replace (Z.to_nat _) with (length M + 2)%nat by lia.
    replace (Z.to_nat _) with (length X) by lia.
    unfold s. rewrite drop_app_length.
    replace (lbrace :: M ++ rbrace :: Y) with ((lbrace :: M ++ [rbrace]) ++ Y)
      by (simpl; rewrite <- app_assoc; reflexivity).
    apply take_app_length'. simpl. rewrite length_app. simpl. lia.
Qed.

Lemma no_object_framed s : no_object s = true -> framed s None.
Proof.
  intros Hc. destruct (framed_total s) as [[M|] Hf]; [|assumption].
  inversion Hf; subst.
  destruct (framed_pair_check X M Y) as [Hn _]; try assumption. congruence.
Qed.

Lemma extractAndCleanJSON_framed text o :
  framed text o -> extractAndCleanJSON text = cleaned_of o.
Proof.
  intros Hf.
  apply (framed_replace re_fence_json _ _ re_fence_json_like) in Hf.
  apply (framed_replace re_fence _ _ re_fence_like) in Hf.
  apply framed_trim in Hf.
  unfold extractAndCleanJSON. fold (strip_fences text) in Hf.
  fold (no_object (strip_fences text)).
  destruct o as [M|]; simpl in Hf.
  - inversion Hf as [ | | X M' Y HX HY Hs]; subst.
    destruct (framed_pair_check X (replace_g re_fence (replace_g re_fence_json M)) Y
                HX HY) as [Hn Hsub].
    rewrite Hn. simpl. rewrite Hsub. reflexivity.
  - rewrite (framed_none_check _ Hf). reflexivity.
Qed.

(** The repairs at work: a trailing comma, a bare key, a text between
    apostrophes, a line break. *)
Example repair_trailing_comma :
  extractAndCleanJSON (jlit "{'a': [1, 2, ], }") = Ok (jlit "{'a': [1, 2 ] }").
Proof. reflexivity. Qed.

Example repair_bare_key_and_apostrophes :
  extractAndCleanJSON (lit "{name: 'Ada', age:36}")
  = Ok (jlit "{'name': 'Ada', 'age':36}").
Proof. reflexivity. Qed.

Example repair_line_breaks :
  extractAndCleanJSON (lit "note {a:" ++ [10%N; 9%N] ++ lit " 1 }" ++ [10%N] ++ lit "bye")
  = Ok (jlit "{'a': 1 }").
Proof. reflexivity. Qed.

Example parse_after_repair :
  sanitizeAndParse (lit "```json" ++ [10%N] ++ lit "{score: 7, tags: [1.5,], by: 'x',}"
                    ++ [10%N] ++ lit "```")
  = Ok (JObj [(lit "score", num 7); (lit "tags", JArr [JNum (Fin (3 # 2))]);
              (lit "by", JStr (lit "x"))]).
Proof. reflexivity. Qed.

(** Only a text between apostrophes that follows a colon is requoted: inside
    an array it is left as it is, and the parser rejects it. *)
Example apostrophes_in_array_are_kept :
  extractAndCleanJSON (lit "{tags: ['x']}") = Ok (jlit "{'tags': [" ++ lit "'x']}")
  /\ is_throw (sanitizeAndParse (lit "{tags: ['x']}")) = true.
Proof. split; reflexivity. Qed.

Lemma sanitize_decorated `{Host} (t pre post : jsstring) :
  lbrace ∉ pre -> rbrace ∉ pre -> lbrace ∉ post -> rbrace ∉ post ->
  sanitizeAndParse (pre ++ t ++ post) = sanitizeAndParse t.
Proof.
  intros Hl1 Hr1 Hl2 Hr2. destruct (framed_total t) as [o Hf].
  unfold sanitizeAndParse.
  rewrite (extractAndCleanJSON_framed _ o) by now apply framed_decorate.
  now rewrite (extractAndCleanJSON_framed _ o).
Qed.

(** C7.  A text with no brace pair (no opening brace, no closing brace, or
    the first opening brace not before the last closing brace) makes the
    sanitizer fail with the error of the missing object, whatever the host's
    parser: no other error is raised. *)
Theorem C7_no_brace_pair_is_malformed `{Host} (text : jsstring) :
  indexOf lbrace text = -1 \/ lastIndexOf rbrace text = -1
  \/ indexOf lbrace text >= lastIndexOf rbrace text ->
  sanitizeAndParse text
  = Throw (lit "Failed to clean JSON: No valid JSON object found in response").
Proof.
  intros Hno.
  assert (Hc : no_object text = true).
  { unfold no_object. destruct Hno as [-> | [-> | Hge]].
    - reflexivity.
    - apply orb_true_iff. left. apply orb_true_r.
    - apply orb_true_iff. right. rewrite Z.geb_leb. apply Z.leb_le. lia. }
  unfold sanitizeAndParse.
  rewrite (extractAndCleanJSON_framed text None) by now apply no_object_framed.
  reflexivity.
Qed.

Lemma C7_witness :
  (indexOf lbrace (lit "} sorry, no object {") = -1
   \/ lastIndexOf rbrace (lit "} sorry, no object {") = -1
   \/ indexOf lbrace (lit "} sorry, no object {")
      >= lastIndexOf rbrace (lit "} sorry, no object {"))
  /\ sanitizeAndParse (lit "} sorry, no object {")
     = Throw (lit "Failed to clean JSON: No valid JSON object found in response").
Proof.
  assert (Hpre : indexOf lbrace (lit "} sorry, no object {") = -1
   \/ lastIndexOf rbrace (lit "} sorry, no object {") = -1
   \/ indexOf lbrace (lit "} sorry, no object {")
      >= lastIndexOf rbrace (lit "} sorry, no object {")).
  { right. right. vm_compute. discriminate. }
  split; [exact Hpre | exact (C7_no_brace_pair_is_malformed _ Hpre)].
Defined.

(** C8.  A text wrapped in fence markers and surrounded by prose that holds
    no brace is sanitized and parsed to the same result as the bare text. *)
Theorem C8_decoration_is_transparent `{Host} (t before after : jsstring) :
  lbrace ∉ before -> rbrace ∉ before -> lbrace ∉ after -> rbrace ∉ after ->
  sanitizeAndParse (before ++ lit "```json" ++ [10%N] ++ t ++ [10%N] ++ lit "```" ++ after)
  = sanitizeAndParse t.
Proof.
  intros Hl1 Hr1 Hl2 Hr2.
  replace (before ++ lit "```json" ++ [10%N] ++ t ++ [10%N] ++ lit "```" ++ after)
    with ((before ++ lit "```json" ++ [10%N]) ++ t ++ ([10%N] ++ lit "```" ++ after))
    by (rewrite <- !app_assoc; reflexivity).
  apply sanitize_decorated; rewrite !elem_of_app; intros [?|[?|?]];
    try contradiction; revert select (_ ∈ _); decide_now.
Qed.

Lemma C8_witness :
  sanitizeAndParse
    (lit "Sure, here it is: " ++ lit "```json" ++ [10%N] ++ jlit "{'overallScore': 85}"
     ++ [10%N] ++ lit "```" ++ lit " Let me know.")
  = sanitizeAndParse (jlit "{'overallScore': 85}")
  /\ sanitizeAndParse (jlit "{'overallScore': 85}")
     = Ok (JObj [(lit "overallScore", num 85)]).
Proof.
  split; [|reflexivity].
  apply C8_decoration_is_transparent; decide_now.
Defined.

(** ** The fallback report *)

Lemma includes_elem (a : list jsstring) (x : jsstring) : includes a x = true <-> x ∈ a.
Proof.
  unfold includes. rewrite existsb_exists. split.
  - intros (y & Hy & Heq). apply bool_decide_eq_true in Heq as ->.
    now apply list_elem_of_In.
  - intros Hx. exists x. split; [now apply list_elem_of_In |].
    now apply bool_decide_eq_true.
Qed.

Lemma matchingItems_set held required :
  list_to_set (matchingItems held required) = as_set held ∩ as_set required.
Proof.
  apply set_eq. intros x. unfold as_set, matchingItems.
  rewrite elem_of_intersection, !elem_of_list_to_set.
  destruct held as [h|]; simpl; [|rewrite elem_of_nil; tauto].
  rewrite list_elem_of_In, filter_In, <- list_elem_of_In.
  destruct required as [r|]; simpl.
  - rewrite includes_elem. tauto.
  - split; [intros [_ [=]] | intros [_ Hx]; inversion Hx].
Qed.

Lemma missingItems_set held required :
  list_to_set (missingItems held required) = as_set required ∖ as_set held.
Proof.
  apply set_eq. intros x. unfold as_set, missingItems.
  rewrite elem_of_difference, !elem_of_list_to_set.
  destruct required as [r|]; simpl; [|rewrite elem_of_nil; tauto].
  rewrite list_elem_of_In, filter_In, <- list_elem_of_In, negb_true_iff.
  destruct held as [h|]; simpl.
  - rewrite <- not_true_iff_false, includes_elem. tauto.
  - split; [intros [Hx _]; split; [assumption | inversion 1] | tauto].
Qed.

Lemma plain_stage_returns talent careerPath :
  plain_stage talent ->
  exists report, Main.generateFallbackAnalysis talent careerPath = Ok report /\
    get report (lit "careerPathAlignment") = careerPathAlignment talent careerPath /\
    get report (lit "overallScore") = num 65 /\
    get (get report (lit "marketability")) (lit "score") = num 55 /\
    exists n, get (get report (lit "careerStageAlignment")) (lit "alignmentScore") = num n
              /\ 0 <= n <= 100.
Proof.
  unfold plain_stage, Main.generateFallbackAnalysis. intros Hp.
  destruct (Main.stageContentFor (careerStage talent)) as [sc|] eqn:E; [|congruence].
  eexists. split; [reflexivity|]. repeat split.
  exists (Main.sc_alignmentScore sc). split; [reflexivity|].
  unfold Main.stageContentFor in E.
  repeat match type of E with
         | (if ?b then _ else _) = _ => destruct b
         end; inversion E; subst; simpl; lia.
Qed.

Lemma careerPathAlignment_compares talent cp :
  compares (careerPathAlignment talent (Some cp)) talent cp.
Proof.
  do 4 eexists. repeat split;
    try apply matchingItems_set; try apply missingItems_set.
Qed.

Lemma careerPathAlignment001_compares talent cp :
  compares (Part001.careerPathAlignment talent (Some cp)) talent cp.
Proof.
  do 4 eexists. repeat split;
    try apply matchingItems_set; try apply missingItems_set.
Qed.

Lemma Main_fallback_plain talent careerPath report :
  Main.generateFallbackAnalysis talent careerPath = Ok report -> plain_stage talent.
Proof.
  unfold plain_stage, Main.generateFallbackAnalysis.
  destruct (Main.stageContentFor (careerStage talent)); [discriminate|].
  intros Hr. discriminate Hr.
Qed.

(** X24.  With a career target, whenever the fallback builder returns a
    report, the [careerPathAlignment] of the report lists as matching skills
    the intersection of the profile's skills with the required skills and as
    missing skills the required skills the profile lacks, and likewise for
    the certifications.  The builders of the plain and of the third variant
    return for every profile; the builder of [src/main.js] returns for every
    profile whose stage label the stage tables answer with a stage entry. *)
Theorem fallback_alignment_sets (talent : Profile) (cp : CareerPath) :
  compares (get (Part000.generateFallbackAnalysis talent (Some cp))
                (lit "careerPathAlignment")) talent cp
  /\ compares (get (Part001.generateFallbackAnalysis talent (Some cp))
                   (lit "careerPathAlignment")) talent cp
  /\ (forall report,
        Main.generateFallbackAnalysis talent (Some cp) = Ok report ->
        compares (get report (lit "careerPathAlignment")) talent cp)
  /\ (plain_stage talent ->
      exists report, Main.generateFallbackAnalysis talent (Some cp) = Ok report).
Proof.
  split; [apply careerPathAlignment_compares|].
  split; [apply careerPathAlignment001_compares|]. split.
  - intros report Hr.
    destruct (plain_stage_returns talent (Some cp) (Main_fallback_plain _ _ _ Hr))
      as (r & Hr' & Ha & _).
    rewrite Hr in Hr'. injection Hr' as <-. rewrite Ha.
    apply careerPathAlignment_compares.
  - intros Hp. destruct (plain_stage_returns talent (Some cp) Hp) as (r & Hr & _).
    now exists r.
Qed.

Lemma fallback_alignment_sets_witness :
  plain_stage Ex.alice /\
  exists report, Main.generateFallbackAnalysis Ex.alice (Some Ex.webdev) = Ok report /\
    compares (get report (lit "careerPathAlignment")) Ex.alice Ex.webdev /\
    get (get report (lit "careerPathAlignment")) (lit "matchingSkills") = strs [lit "React"] /\
    get (get report (lit "careerPathAlignment")) (lit "missingSkills") = strs [lit "Docker"].
Proof.
  assert (Hp : plain_stage Ex.alice) by (vm_compute; discriminate).
  split; [exact Hp|].
  destruct (fallback_alignment_sets Ex.alice Ex.webdev) as (_ & _ & Hc & Hex).
  destruct (Hex Hp) as (r & Hr).
  exists r. split; [exact Hr|]. split; [exact (Hc r Hr)|].
  vm_compute in Hr. injection Hr as <-. split; reflexivity.
Defined.

(** C6.  On a profile whose stage label is [constructor], with a career
    target, the fallback builder of [src/main.js] raises and returns no
    [careerPathAlignment] at all: an invocation whose AI path fails is
    answered 500 without a report.  The builder of the plain variant, on the
    same profile and target, returns the intersections and the differences
    the claim states, and its handler answers 200. *)
Theorem C6_fallback_raises_on_inherited_stage :
  let talent :=
    {| talent_id := lit "doc-3"; fullname := lit "Mallory";
       careerStage := lit "constructor";
       skills := Some [lit "React"; lit "SQL"]; degrees := None;
       certifications := Some [lit "AWS Developer"]; interests := None;
       selectedPath := Some (lit "path-1") |} in
  let env := Ex.env talent (Ok (lit "file-1")) (Throw (lit "model unavailable"))
                    (Ok (Ex.answer "85")) in
  let alignment :=
    get (Part000.generateFallbackAnalysis talent (Some Ex.webdev))
        (lit "careerPathAlignment") in
  Main.generateFallbackAnalysis talent (Some Ex.webdev) = Throw Main.not_iterable_msg
  /\ statusOf (run (Main.handler env (Ex.request "cv.pdf"))) = Some (false, 500, 500)
  /\ reported (run (Main.handler env (Ex.request "cv.pdf"))) = JUndefined
  /\ get alignment (lit "matchingSkills") = strs [lit "React"]
  /\ get alignment (lit "missingSkills") = strs [lit "Docker"]
  /\ get alignment (lit "matchingCertifications") = strs [lit "AWS Developer"]
  /\ get alignment (lit "missingCertifications") = strs [lit "CKA"]
  /\ statusOf (run (Part000.handler env (Ex.request "cv.pdf"))) = Some (true, 200, 200)
  /\ get (reported (run (Part000.handler env (Ex.request "cv.pdf"))))
         (lit "careerPathAlignment") = alignment.
Proof. repeat split; vm_compute; reflexivity. Qed.

(** C5, as stated, fails on the third variant: without a career target its
    record has a score and a message, and none of the four sequences. *)
Lemma C5_third_variant_has_no_sequences :
  let alignment :=
    get (Part001.generateFallbackAnalysis Ex.alice None) (lit "careerPathAlignment") in
  get alignment (lit "matchingSkills") = JUndefined /\
  get alignment (lit "missingSkills") = JUndefined /\
  keys_of alignment = [lit "alignmentScore"; lit "message"] /\
  keys_of alignment
  <> keys_of (get (Part001.generateFallbackAnalysis Ex.alice (Some Ex.webdev))
                  (lit "careerPathAlignment")).
Proof. repeat split. vm_compute. discriminate. Qed.

(** C5 (amended).  Without a career target the [careerPathAlignment] record
    of the fallback report is present with score zero in the three variants.
    In the plain variant, for every profile, and in [src/main.js], for every
    profile whose stage label the stage tables answer with a stage entry, it
    has in addition empty matching and missing sequences and the field names
    of the record built with a target. *)
Theorem C5_fallback_without_target (talent : Profile) :
  zeroed (get (Part000.generateFallbackAnalysis talent None) (lit "careerPathAlignment"))
         talent /\
  (plain_stage talent ->
   exists report, Main.generateFallbackAnalysis talent None = Ok report /\
                  zeroed (get report (lit "careerPathAlignment")) talent) /\
  (exists fields,
     get (Part001.generateFallbackAnalysis talent None) (lit "careerPathAlignment")
     = JObj fields /\ assoc_get (lit "alignmentScore") fields = num 0).
Proof.
  assert (Hz : zeroed (careerPathAlignment talent None) talent)
    by (repeat split).
  split; [exact Hz | split].
  - intros Hp. destruct (plain_stage_returns talent None Hp) as (r & Hr & Ha & _).
    exists r. split; [assumption|]. now rewrite Ha.
  - eexists. split; reflexivity.
Qed.

Lemma C5_witness :
  plain_stage Ex.alice /\
  exists report, Main.generateFallbackAnalysis Ex.alice None = Ok report /\
    get (get report (lit "careerPathAlignment")) (lit "alignmentScore") = num 0.
Proof.
  assert (Hp : plain_stage Ex.alice) by (vm_compute; discriminate).
  split; [exact Hp|].
  destruct (proj1 (proj2 (C5_fallback_without_target Ex.alice)) Hp) as (r & Hr & Hz & _).
  exists r. split; [exact Hr | exact Hz].
Defined.

(** ** Scores *)

Lemma jseq_refl k : jseq k k = true.
Proof. unfold jseq. now apply bool_decide_eq_true. Qed.

Lemma jseq_ne k k' : k <> k' -> jseq k k' = false.
Proof. unfold jseq. intros Hne. now apply bool_decide_eq_false. Qed.

Lemma jseq_true k k' : jseq k k' = true -> k = k'.
Proof. unfold jseq. now intros E%bool_decide_eq_true. Qed.

Lemma assoc_get_set_same k v fs : assoc_get k (assoc_set k v fs) = v.
Proof.
  induction fs as [|[k' v'] fs IH]; simpl.
  - now rewrite jseq_refl.
  - destruct (jseq k k') eqn:E; simpl; rewrite E; [reflexivity | exact IH].
Qed.

Lemma assoc_get_set_other k k' v fs :
  k' <> k -> assoc_get k' (assoc_set k v fs) = assoc_get k' fs.
Proof.
  intros Hne. induction fs as [|[k2 v2] fs IH]; simpl.
  - now rewrite jseq_ne.
  - destruct (jseq k k2) eqn:E; simpl.
    + apply jseq_true in E as <-. now rewrite jseq_ne.
    + now rewrite IH.
Qed.

Lemma get_set_other v k k' x : k' <> k -> get (set v k x) k' = get v k'.
Proof.
  intros Hne. destruct v; try reflexivity. simpl. now apply assoc_get_set_other.
Qed.

Lemma truthy_not_nullish v : truthy v = true -> is_nullish v = false.
Proof. destruct v; simpl; congruence. Qed.

Lemma falsy_get v k : truthy v = false -> get v k = JUndefined.
Proof. destruct v; simpl; congruence. Qed.

Section Clamp.
Context `{Host}.

Lemma clampAt_last key v :
  is_nullish v = false ->
  exists v', Main.clampAt [key] (Fin 0) (Fin 100) v = Ok v' /\
             get v' key = clampv (get v key) /\
             is_nullish v' = false /\
             (forall k', k' <> key -> get v' k' = get v k') /\
             (forall fs, v = JObj fs -> exists fs', v' = JObj fs').
Proof.
  intros Hv.
  assert (Hstep : Main.clampAt [key] (Fin 0) (Fin 100) v
                  = match get v key with
                    | JUndefined => Ok v
                    | x => Ok (set v key
                           (JNum (Math_max (Fin 0) (Math_min (Fin 100) (ToNumber x)))))
                    end)
    by (destruct v; try discriminate; reflexivity).
  rewrite Hstep. clear Hstep.
  destruct (get v key) eqn:E;
    try (eexists; split; [reflexivity|]; repeat split;
         [ destruct v; simpl in E |- *; try discriminate; apply assoc_get_set_same
         | destruct v; simpl in Hv |- *; congruence
         | intros; now apply get_set_other
         | intros fs ->; simpl; eauto ]).
  exists v. split; [reflexivity|]. rewrite E. repeat split; eauto.
Qed.

Lemma clampAt_nested key1 key2 fs :
  exists fs', Main.clampAt [key1; key2] (Fin 0) (Fin 100) (JObj fs) = Ok (JObj fs') /\
    get (assoc_get key1 fs') key2 = clampv (get (assoc_get key1 fs) key2) /\
    (forall k', k' <> key1 -> assoc_get k' fs' = assoc_get k' fs).
Proof.
  set (obj1 := if negb (truthy (get (JObj fs) key1))
               then set (JObj fs) key1 (JObj []) else JObj fs).
  assert (Hstep : Main.clampAt [key1; key2] (Fin 0) (Fin 100) (JObj fs)
                  = rbind (Main.clampAt [key2] (Fin 0) (Fin 100) (get obj1 key1))
                          (fun child => Ok (set obj1 key1 child))) by reflexivity.
  rewrite Hstep. clear Hstep.
  assert (Hobj1 : exists fs1, obj1 = JObj fs1 /\
            is_nullish (assoc_get key1 fs1) = false /\
            get (assoc_get key1 fs1) key2 = get (assoc_get key1 fs) key2 /\
            (forall k', k' <> key1 -> assoc_get k' fs1 = assoc_get k' fs)).
  { unfold obj1. simpl. destruct (truthy (assoc_get key1 fs)) eqn:Et; simpl.
    - exists fs. repeat split. now apply truthy_not_nullish.
    - eexists. split; [reflexivity|]. rewrite assoc_get_set_same.
      repeat split.
      + now rewrite (falsy_get _ key2 Et).
      + intros. now apply assoc_get_set_other. }
  destruct Hobj1 as (fs1 & -> & Hn & Hsame & Hframe).
  change (get (JObj fs1) key1) with (assoc_get key1 fs1).
  destruct (clampAt_last key2 _ Hn) as (child & -> & Hc & _ & _ & _).
  simpl. eexists. split; [reflexivity|].
  rewrite assoc_get_set_same. split.
  - now rewrite Hc, Hsame.
  - intros k' Hk. rewrite assoc_get_set_other by assumption. now apply Hframe.
Qed.

Lemma checkRequired_object prefix field fields analysis :
  checkRequired prefix (field :: fields) analysis = Ok tt ->
  exists fs, analysis = JObj fs.
Proof.
  simpl. destruct analysis; try discriminate; simpl; eauto.
Qed.

Lemma clampScores_run fs :
  exists fs', Main.clampScores Main.scoreFields (JObj fs) = Ok (JObj fs') /\
    forall path, path ∈ score_paths ->
                 read (JObj fs') path = clampv (read (JObj fs) path).
Proof.
  assert (Hs : Main.clampScores Main.scoreFields (JObj fs)
    = rbind (Main.clampAt [lit "overallScore"] (Fin 0) (Fin 100) (JObj fs)) (fun a1 =>
      rbind (Main.clampAt [lit "careerStageAlignment"; lit "alignmentScore"]
               (Fin 0) (Fin 100) a1) (fun a2 =>
      rbind (Main.clampAt [lit "careerPathAlignment"; lit "alignmentScore"]
               (Fin 0) (Fin 100) a2) (fun a3 =>
      rbind (Main.clampAt [lit "marketability"; lit "score"] (Fin 0) (Fin 100) a3)
            (fun a4 => Ok a4))))) by reflexivity.
  rewrite Hs. clear Hs.
  destruct (clampAt_last (lit "overallScore") (JObj fs) eq_refl)
    as (v1 & -> & H1 & _ & F1 & O1).
  destruct (O1 fs eq_refl) as (fs1 & ->). cbn [rbind].
  destruct (clampAt_nested (lit "careerStageAlignment") (lit "alignmentScore") fs1)
    as (fs2 & -> & H2 & F2). cbn [rbind].
  destruct (clampAt_nested (lit "careerPathAlignment") (lit "alignmentScore") fs2)
    as (fs3 & -> & H3 & F3). cbn [rbind].
  destruct (clampAt_nested (lit "marketability") (lit "score") fs3)
    as (fs4 & -> & H4 & F4). cbn [rbind].
  exists fs4. split; [reflexivity|].
  intros path Hin. cbn [get] in H1, F1.
  unfold score_paths in Hin.
  repeat (apply elem_of_cons in Hin as [-> | Hin]); [ | | | | inversion Hin];
    unfold read; cbn [fold_left get].
  - rewrite F4, F3, F2 by (vm_compute; discriminate). exact H1.
  - rewrite F4, F3 by (vm_compute; discriminate). rewrite H2.
    now rewrite F1 by (vm_compute; discriminate).
  - rewrite F4 by (vm_compute; discriminate). rewrite H3.
    rewrite F2, F1 by (vm_compute; discriminate). reflexivity.
  - rewrite H4. rewrite F3, F2, F1 by (vm_compute; discriminate). reflexivity.
Qed.

Lemma validate_clamps analysis report :
  Main.validate analysis = Ok report ->
  forall path, path ∈ score_paths -> read report path = clampv (read analysis path).
Proof.
  unfold Main.validate.
  destruct (checkRequired _ Main.requiredFields analysis) as [[]|] eqn:Ec;
    [|discriminate].
  destruct (checkRequired_object _ _ _ _ Ec) as (fs & ->). cbn [rbind].
  destruct (clampScores_run fs) as (fs' & -> & Hread).
  intros [= <-]. exact Hread.
Qed.

Lemma checkRequired_missing prefix fields analysis field :
  field ∈ fields -> truthy (get analysis field) = false ->
  is_throw (checkRequired prefix fields analysis) = true.
Proof.
  intros Hin Hf. induction fields as [|f fields IH]; [inversion Hin|].
  cbn [checkRequired].
  destruct (is_nullish analysis) eqn:En; [destruct analysis; try discriminate; reflexivity|].
  assert (Hstep : is_throw (match analysis with
            | JNull | JUndefined => Throw type_error_msg
            | _ => if negb (truthy (get analysis f)) then Throw (prefix ++ f)
                   else checkRequired prefix fields analysis
            end)
          = is_throw (if negb (truthy (get analysis f)) then Throw (prefix ++ f)
                      else checkRequired prefix fields analysis))
    by (destruct analysis; try discriminate; reflexivity).
  rewrite Hstep.
  destruct (truthy (get analysis f)) eqn:Et; [|reflexivity]. cbn [negb].
  apply elem_of_cons in Hin as [-> | Hin]; [congruence | now apply IH].
Qed.

Lemma checkRequired_present prefix fields fs :
  (forall field, field ∈ fields -> truthy (assoc_get field fs) = true) ->
  checkRequired prefix fields (JObj fs) = Ok tt.
Proof.
  induction fields as [|f fields IH]; intros Hall; [reflexivity|].
  cbn [checkRequired get]. rewrite Hall by (apply elem_of_cons; now left). cbn [negb].
  apply IH. intros field Hin. apply Hall. apply elem_of_cons. now right.
Qed.
End Clamp.

Lemma clamp_bounds (q : Q) : (0 <= Qmax 0 (Qmin 100 q) /\ Qmax 0 (Qmin 100 q) <= 100)%Q.
Proof.
  split.
  - apply Q.le_max_l.
  - apply Q.max_lub; [discriminate | apply Q.le_min_l].
Qed.

Lemma clamp_integer (z : Z) :
  Qmax 0 (Qmin 100 (inject_Z z)) = inject_Z (Z.max 0 (Z.min 100 z)).
Proof.
  unfold Qmax, Qmin, GenericMinMax.gmax, GenericMinMax.gmin.
  destruct (100 ?= inject_Z z)%Q eqn:E1.
  - apply Qeq_alt in E1. unfold Qeq in E1. simpl in E1.
    replace z with 100 by lia. reflexivity.
  - apply Qlt_alt in E1. unfold Qlt in E1. simpl in E1.
    replace (Z.min 100 z) with 100 by lia. reflexivity.
  - apply Qgt_alt in E1. unfold Qlt in E1. simpl in E1.
    replace (Z.min 100 z) with z by lia.
    destruct (0 ?= inject_Z z)%Q eqn:E2.
    + apply Qeq_alt in E2. unfold Qeq in E2. simpl in E2.
      replace z with 0 by lia. reflexivity.
    + apply Qlt_alt in E2. unfold Qlt in E2. simpl in E2.
      replace (Z.max 0 z) with z by lia. reflexivity.
    + apply Qgt_alt in E2. unfold Qlt in E2. simpl in E2.
      replace (Z.max 0 z) with 0 by lia. reflexivity.
Qed.

Lemma clampv_within_bounds `{Host} (x : JSValue) : within_bounds (clampv x).
Proof.
  assert (Hn : forall n, exists m, Math_max (Fin 0) (Math_min (Fin 100) n) = m /\
                 (m = NaN \/ exists q, m = Fin q /\ (0 <= q /\ q <= 100)%Q)).
  { intros [| | |q]; eexists; (split; [reflexivity|]); simpl.
    - now left.
    - right. eexists. split; [reflexivity|]. split; discriminate.
    - right. eexists. split; [reflexivity|]. split; discriminate.
    - right. eexists. split; [reflexivity|]. apply clamp_bounds. }
  unfold within_bounds, clampv.
  destruct x; [now left | right ..];
    match goal with
    | |- exists n, JNum (Math_max _ (Math_min _ ?v)) = JNum n /\ _ =>
        destruct (Hn v) as (m & -> & Hm); exists m; split; [reflexivity | exact Hm]
    end.
Qed.

(** C2, as stated, fails: [src/main.js] lets a fractional score through, and
    the third variant does not clamp at all. *)
Lemma C2_fractional_and_unclamped_scores :
  read (reported (run (Main.handler
          (Ex.env Ex.alice (Ok (lit "file-1")) (Ok Ex.cvText) (Ok (Ex.answer "85.5")))
          (Ex.request "cv.pdf"))))
       [lit "overallScore"] = JNum (Fin (171 # 2))
  /\ ~ (exists z, (171 # 2 == inject_Z z)%Q)
  /\ read (reported (run (Part001.handler
          (Ex.env Ex.alice (Ok (lit "file-1")) (Ok Ex.cvText) (Ok (Ex.answer "150")))
          (Ex.request "cv.pdf"))))
       [lit "overallScore"] = num 150
  /\ ~ integer_score (num 150).
Proof.
  split; [vm_compute; reflexivity|]. split.
  - intros (z & Hz). unfold Qeq in Hz. simpl in Hz. lia.
  - split; [vm_compute; reflexivity|].
    intros (z & Hz & Hr). injection Hz as Hz. lia.
Qed.

(** C2 (amended).  In [src/main.js] every score field of a report that
    passes the validation holds what the clamp makes of the model's value: a
    number is clipped into the bounds (an integer stays an integer, a
    fraction stays a fraction), and whatever the value, the field ends
    absent, not a number, or within the bounds.  Every report of a fallback
    builder has integer scores within the bounds. *)
Theorem C2_scores_after_clamp `{Host} (path : list jsstring) :
  path ∈ score_paths ->
  (forall analysis report,
     Main.validate analysis = Ok report ->
     (forall q, read analysis path = JNum (Fin q) ->
        read report path = JNum (Fin (Qmax 0 (Qmin 100 q)))
        /\ (0 <= Qmax 0 (Qmin 100 q) /\ Qmax 0 (Qmin 100 q) <= 100)%Q)
     /\ (forall z, read analysis path = num z ->
           read report path = num (Z.max 0 (Z.min 100 z))
           /\ integer_score (read report path))
     /\ within_bounds (read report path))
  /\ (forall talent careerPath fallback,
        fallback = Part000.generateFallbackAnalysis talent careerPath
        \/ fallback = Part001.generateFallbackAnalysis talent careerPath
        \/ Main.generateFallbackAnalysis talent careerPath = Ok fallback ->
        read fallback path = JUndefined \/ integer_score (read fallback path)).
Proof.
  intros Hin. split.
  - intros analysis report Hv.
    pose proof (validate_clamps _ _ Hv path Hin) as Hr.
    split; [|split].
    + intros q Hq. rewrite Hr, Hq. split; [reflexivity | apply clamp_bounds].
    + intros z Hz. rewrite Hr, Hz. unfold num, clampv.
      cbn [ToNumber Math_min Math_max]. rewrite clamp_integer.
      split; [reflexivity|]. eexists. split; [reflexivity | lia].
    + rewrite Hr. apply clampv_within_bounds.
  - intros talent careerPath fallback Hf.
    assert (Hcpa : forall k, k = lit "alignmentScore" ->
              integer_score (get (careerPathAlignment talent careerPath) k)).
    { intros k ->. destruct careerPath; eexists; (split; [reflexivity | lia]). }
    unfold score_paths in Hin.
    destruct Hf as [-> | [-> | Hf]].
    + repeat (apply elem_of_cons in Hin as [-> | Hin]); [ | | | | inversion Hin].
      * right. eexists. split; [reflexivity | lia].
      * now left.
      * right. now apply Hcpa.
      * right. eexists. split; [reflexivity | lia].
    + repeat (apply elem_of_cons in Hin as [-> | Hin]); [ | | | | inversion Hin].
      * right. eexists. split; [reflexivity | lia].
      * now left.
      * right. destruct careerPath; eexists; (split; [reflexivity | lia]).
      * right. eexists. split; [reflexivity | lia].
    + assert (Hp : plain_stage talent).
      { unfold plain_stage. unfold Main.generateFallbackAnalysis in Hf.
        destruct (Main.stageContentFor (careerStage talent)); [discriminate | discriminate Hf]. }
      destruct (plain_stage_returns talent careerPath Hp)
        as (r & Hr' & Ha & Ho & Hm & (n & Hn & Hrange)).
      rewrite Hr' in Hf. injection Hf as <-.
      repeat (apply elem_of_cons in Hin as [-> | Hin]); [ | | | | inversion Hin];
        right; unfold read; cbn [fold_left].
      * rewrite Ho. eexists. split; [reflexivity | lia].
      * rewrite Hn. eexists. split; [reflexivity | lia].
      * rewrite Ha. now apply Hcpa.
      * rewrite Hm. eexists. split; [reflexivity | lia].
Qed.

Lemma C2_witness :
  Main.validate (Ex.parsed "150") = Ok (Ex.clamped "150")
  /\ [lit "overallScore"] ∈ score_paths
  /\ read (Ex.clamped "150") [lit "overallScore"] = num 100.
Proof.
  assert (Hv : Main.validate (Ex.parsed "150") = Ok (Ex.clamped "150"))
    by (vm_compute; reflexivity).
  assert (Hin : [lit "overallScore"] ∈ score_paths) by decide_now.
  split; [exact Hv | split; [exact Hin|]].
  destruct (proj1 (C2_scores_after_clamp _ Hin) _ _ Hv) as (_ & Hz & _).
  exact (proj1 (Hz 150 ltac:(vm_compute; reflexivity))).
Defined.

(** ** Runs of the pipeline *)

Lemma effect_run {A} (c : M A) r cs : effect c r cs -> fst (run c) = r.
Proof. intros He. unfold run. now rewrite He. Qed.

Lemma extractTextFromCV_effect `{Host} env fileData fileName :
  effect (extractTextFromCV env fileData fileName)
         (fst (run (extractTextFromCV env fileData fileName))) [CallGenerateFromFile].
Proof.
  intros st. unfold run, extractTextFromCV. unfold_monad.
  destruct (generateFromFile env) as [text|m]; cbn [fst calls uploadedFileId st0]; [|reflexivity].
  destruct (negb (truthy (JStr text)) || (Z.of_nat (length (trim text)) <? 50));
    reflexivity.
Qed.

Lemma Main_analyze_effect `{Host} env cvText talent careerPath :
  effect (Main.analyzeCVContent env cvText talent careerPath)
         (fst (run (Main.analyzeCVContent env cvText talent careerPath)))
         [CallGenerateFromText].
Proof.
  intros st. unfold run, Main.analyzeCVContent. unfold_monad.
  destruct (generateFromText env) as [text|m]; cbn [fst calls uploadedFileId st0]; [|reflexivity].
  destruct (sanitizeAndParse text) as [a|m]; [|reflexivity].
  destruct (Main.validate a); reflexivity.
Qed.

Lemma Part001_analyze_effect `{Host} env cvText talent careerPath :
  effect (Part001.analyzeCVContent env cvText talent careerPath)
         (fst (run (Part001.analyzeCVContent env cvText talent careerPath)))
         [CallGenerateFromText].
Proof.
  intros st. unfold run, Part001.analyzeCVContent. unfold_monad.
  destruct (generateFromText env) as [text|m]; cbn [fst calls uploadedFileId st0]; [|reflexivity].
  destruct (sanitizeAndParse text) as [a|m]; [|reflexivity].
  destruct (Part001.validate a); reflexivity.
Qed.

Section PipelineRun.
Context `{Host} (env : Env) (talentId fileData fileName : jsstring) (talent : Profile).
Variable analyzeCVContent : jsstring -> Profile -> option CareerPath -> M JSValue.
Variable generateFallbackAnalysis : Profile -> option CareerPath -> result JSValue.
Variable analysed : jsstring -> result JSValue.
Hypothesis Hacc : accepted env talentId fileData fileName talent.
Hypothesis Heffect : forall cvText careerPath,
  effect (analyzeCVContent cvText talent careerPath) (analysed cvText) [CallGenerateFromText].

Let body := BodyFields (Some talentId) (Some fileData) (Some fileName).
Let careerPath := careerPathOf env talent.

Ltac start :=
  destruct Hacc as [Hkey Htid Hfd Hfn Hext Hsize (others & Hdocs)];
  unfold aiOutcome, careerPath, body, pipeline, fetchTalent,
    fetchCareerPath, careerPathOf, analysisStep, aiPath, staged, cleanup in *;
  unfold run at 1;
  unfold_monad;
  rewrite Hkey, Hext, Hsize;
  destruct talentId as [|t0 tid']; [congruence|];
  destruct fileData as [|d0 fd']; [congruence|];
  destruct fileName as [|n0 fn']; [congruence|];
  cbn [negb nonempty orb calls uploadedFileId st0];
  rewrite Hdocs.

Ltac cases :=
  destruct (selectedPath talent) as [[|p0 pid]|]; cbn [nonempty];
  try destruct (getDocument env _) as [cp|];
  destruct (createFile env) as [[|i0 id]|];
  cbn [fst snd calls uploadedFileId nonempty];
  rewrite extractTextFromCV_effect.

Ltac finish :=
  repeat (cbn [fst snd rbind is_throw calls uploadedFileId nonempty];
          match goal with
          | |- context [deleteFile env (?c :: ?i)] => destruct (deleteFile env (c :: i))
          end);
  cbn [fst snd rbind is_throw calls uploadedFileId nonempty];
  eexists; split; reflexivity.

Lemma pipeline_ai_report report :
  aiOutcome env fileData fileName analysed = Ok report ->
  exists st, run (pipeline env analyzeCVContent generateFallbackAnalysis body)
             = (Ok (completed talent careerPath fileName report false), st)
             /\ releases (calls st) = staged env.
Proof.
  intros Hai. start.
  destruct (fst (run (extractTextFromCV env (d0 :: fd') (n0 :: fn')))) as [cv|m] eqn:Ex;
    [|discriminate].
  cbn [rbind] in Hai.
  cases; rewrite Ex; cbn [fst snd calls uploadedFileId]; rewrite Heffect, Hai; finish.
Qed.

Lemma pipeline_fallback_report fallback :
  is_throw (aiOutcome env fileData fileName analysed) = true ->
  generateFallbackAnalysis talent careerPath = Ok fallback ->
  exists st, run (pipeline env analyzeCVContent generateFallbackAnalysis body)
             = (Ok (completed talent careerPath fileName fallback true), st)
             /\ releases (calls st) = staged env.
Proof.
  intros Hai Hfb. start.
  destruct (fst (run (extractTextFromCV env (d0 :: fd') (n0 :: fn')))) as [cv|m] eqn:Ex;
    cbn [rbind] in Hai.
  - destruct (analysed cv) as [r|m] eqn:Ea; [discriminate|].
    cases; rewrite Ex; cbn [fst snd calls uploadedFileId]; rewrite Heffect, Ea;
      cbn [fst snd]; rewrite Hfb; finish.
  - cases; rewrite Ex; cbn [fst snd calls uploadedFileId]; rewrite Hfb; finish.
Qed.

Lemma pipeline_fallback_crash msg :
  is_throw (aiOutcome env fileData fileName analysed) = true ->
  generateFallbackAnalysis talent careerPath = Throw msg ->
  exists st, run (pipeline env analyzeCVContent generateFallbackAnalysis body)
             = (Ok (failure "Internal server error occurred during analysis" 500), st)
             /\ releases (calls st) = (2 * staged env)%nat.
Proof.
  intros Hai Hfb. start.
  destruct (fst (run (extractTextFromCV env (d0 :: fd') (n0 :: fn')))) as [cv|m] eqn:Ex;
    cbn [rbind] in Hai.
  - destruct (analysed cv) as [r|m] eqn:Ea; [discriminate|].
    cases; rewrite Ex; cbn [fst snd calls uploadedFileId]; rewrite Heffect, Ea;
      cbn [fst snd]; rewrite Hfb; finish.
  - cases; rewrite Ex; cbn [fst snd calls uploadedFileId]; rewrite Hfb; finish.
Qed.
End PipelineRun.

Lemma releases_app cs1 cs2 : releases (cs1 ++ cs2) = (releases cs1 + releases cs2)%nat.
Proof. unfold releases. now rewrite List.filter_app, length_app. Qed.

Lemma nonempty_Some (s : jsstring) : s <> [] -> nonempty (Some s) = true.
Proof. destruct s; [congruence | reflexivity]. Qed.

Lemma fetchCareerPath_run env talent st :
  exists cs,
    fetchCareerPath env talent st
    = (Ok (careerPathOf env talent),
       {| uploadedFileId := uploadedFileId st; calls := calls st ++ cs |})
    /\ releases cs = 0%nat.
Proof.
  unfold fetchCareerPath, careerPathOf. unfold_monad.
  destruct (selectedPath talent) as [[|p0 pid]|]; cbn [nonempty].
  - exists []. rewrite app_nil_r. destruct st. split; reflexivity.
  - destruct (getDocument env (p0 :: pid)); exists [CallGetDocument (p0 :: pid)];
      split; reflexivity.
  - exists []. rewrite app_nil_r. destruct st. split; reflexivity.
Qed.

Section Part001Run.
Context `{Host} (env : Env) (talentId fileData fileName : jsstring) (talent : Profile).
Hypothesis Hacc : accepted001 env talentId fileData fileName talent.

Lemma Part001_aiPath_run careerPath st :
  exists cs,
    Part001.aiPath env talent careerPath fileData fileName st
    = (aiOutcome001 env fileData fileName talent careerPath,
       {| uploadedFileId := match createFile env with
                            | Ok id => Some id
                            | Throw _ => uploadedFileId st
                            end;
          calls := calls st ++ CallCreateFile :: cs |})
    /\ releases cs = 0%nat.
Proof.
  unfold aiOutcome001, run, Part001.aiPath, Part001.extractTextFromCV. unfold_monad.
  destruct (createFile env) as [id|m]; cbn [fst snd calls uploadedFileId st0].
  - destruct (generateFromFile env) as [text|m]; cbn [fst snd calls uploadedFileId].
    + destruct (negb (truthy (JStr text)) || (Z.of_nat (length (trim text)) <? 50)).
      * exists [CallGenerateFromFile]. rewrite <- app_assoc. split; reflexivity.
      * rewrite !Part001_analyze_effect. cbn [fst snd calls uploadedFileId].
        exists [CallGenerateFromFile; CallGenerateFromText].
        rewrite <- !app_assoc. split; reflexivity.
    + exists [CallGenerateFromFile]. rewrite <- app_assoc. split; reflexivity.
  - exists []. split; reflexivity.
Qed.

Lemma Part001_run :
  exists st,
    run (Part001.handler env
           (BodyFields (Some talentId) (Some fileData) (Some fileName)))
    = (Ok (match aiOutcome001 env fileData fileName talent (careerPathOf env talent) with
           | Ok report => completed talent (careerPathOf env talent) fileName report false
           | Throw _ =>
               completed talent (careerPathOf env talent) fileName
                 (Part001.generateFallbackAnalysis talent (careerPathOf env talent)) true
           end), st)
    /\ releases (calls st) = staged env
    /\ CallListDocuments talentId ∈ calls st.
Proof.
  destruct Hacc as [Htid Hfd Hfn Hext (others & Hdocs)].
  unfold run, Part001.handler, fetchTalent, Part001.analysisStep, staged, cleanup.
  unfold_monad.
  rewrite Hext, !nonempty_Some by assumption.
  cbn [negb orb calls uploadedFileId st0]. rewrite Hdocs.
  match goal with
  | |- context [fetchCareerPath env talent ?s] =>
      destruct (fetchCareerPath_run env talent s) as (cs1 & -> & Hcs1)
  end.
  match goal with
  | |- context [Part001.aiPath env talent ?c ?d ?n ?s] =>
      destruct (Part001_aiPath_run c s) as (cs2 & -> & Hcs2)
  end.
  destruct (aiOutcome001 env fileData fileName talent (careerPathOf env talent));
    destruct (createFile env) as [[|i0 id]|];
    repeat (cbn [fst snd calls uploadedFileId nonempty];
            match goal with
            | |- context [deleteFile env (?c :: ?i)] => destruct (deleteFile env (c :: i))
            end);
    cbn [fst snd calls uploadedFileId nonempty];
    (eexists; split; [reflexivity|]); cbn [calls];
    (split; [ rewrite ?releases_app, Hcs1; cbn [releases List.filter length app];
              fold (releases cs2); rewrite ?Hcs2; reflexivity
            | rewrite !elem_of_app, !elem_of_cons; tauto ]).
Qed.
End Part001Run.

(** ** Errors of the AI path *)

(** C1, as stated, fails on [src/main.js] for an error of the file staging:
    the error is caught on the spot, extraction and analysis go on with the
    buffer, and the response carries the report of the model with
    [usedFallback] false. *)
Lemma C1_staging_error_keeps_ai_report :
  let env := Ex.env Ex.alice (Throw (lit "storage unavailable")) (Ok Ex.cvText)
                    (Ok (Ex.answer "85")) in
  let out := run (Main.handler env (Ex.request "cv.pdf")) in
  is_throw (createFile env) = true
  /\ statusOf out = Some (true, 200, 200)
  /\ usedFallbackOf out = Some false
  /\ reported out = Ex.clamped "85"
  /\ Ok (reported out) <> Main.generateFallbackAnalysis Ex.alice None.
Proof. vm_compute. repeat split; discriminate. Qed.

(** C1 (amended).  Once the request is accepted and the profile fetched:
    in [src/main.js], for a profile whose stage label the stage tables answer
    with a stage entry, the response is always the successful one (no error
    of staging, extraction, analysis or sanitizing fails the request), and an
    error of extraction or analysis gives the report of the fallback builder
    with [usedFallback] true; in the third variant an error of staging does
    so as well. *)
Theorem C1_ai_errors_are_absorbed `{Host} (env : Env)
    (talentId fileData fileName : jsstring) (talent : Profile) :
  let body := BodyFields (Some talentId) (Some fileData) (Some fileName) in
  let careerPath := careerPathOf env talent in
  (accepted env talentId fileData fileName talent -> plain_stage talent ->
   (exists report flag st,
      run (Main.handler env body)
      = (Ok (completed talent careerPath fileName report flag), st))
   /\ (is_throw (aiOutcome env fileData fileName
                   (analysisOutcome (Main.analyzeCVContent env) talent)) = true ->
       exists fallback st,
         Main.generateFallbackAnalysis talent careerPath = Ok fallback
         /\ run (Main.handler env body)
            = (Ok (completed talent careerPath fileName fallback true), st)))
  /\ (accepted001 env talentId fileData fileName talent ->
      is_throw (createFile env) = true
      \/ is_throw (aiOutcome001 env fileData fileName talent careerPath) = true ->
      exists st,
        run (Part001.handler env body)
        = (Ok (completed talent careerPath fileName
                 (Part001.generateFallbackAnalysis talent careerPath) true), st)).
Proof.
  intros body careerPath. split.
  - intros Hacc Hp.
    destruct (plain_stage_returns talent careerPath Hp) as (fb & Hfb & _).
    assert (Heff : forall cvText cp,
      effect (Main.analyzeCVContent env cvText talent cp)
             (analysisOutcome (Main.analyzeCVContent env) talent cvText)
             [CallGenerateFromText])
      by (intros cvText cp st; exact (Main_analyze_effect env cvText talent cp st)).
    assert (Hfall : is_throw (aiOutcome env fileData fileName
                      (analysisOutcome (Main.analyzeCVContent env) talent)) = true ->
                    exists st, run (Main.handler env body)
                      = (Ok (completed talent careerPath fileName fb true), st)).
    { intros Hai.
      destruct (pipeline_fallback_report env talentId fileData fileName talent
                  _ Main.generateFallbackAnalysis _ Hacc Heff fb Hai Hfb) as (st & Hrun & _).
      now exists st. }
    split.
    + destruct (aiOutcome env fileData fileName
                  (analysisOutcome (Main.analyzeCVContent env) talent)) as [report|m] eqn:Eai.
      * destruct (pipeline_ai_report env talentId fileData fileName talent
                    _ Main.generateFallbackAnalysis _ Hacc Heff report Eai) as (st & Hrun & _).
        now exists report, false, st.
      * destruct (Hfall eq_refl) as (st & Hrun). now exists fb, true, st.
    + intros Hai. destruct (Hfall Hai) as (st & Hrun). now exists fb, st.
  - intros Hacc Herr.
    assert (Hai : is_throw (aiOutcome001 env fileData fileName talent careerPath) = true).
    { destruct Herr as [Hst | Hai]; [|assumption].
      unfold aiOutcome001, run, Part001.aiPath. unfold_monad.
      destruct (createFile env); [discriminate | reflexivity]. }
    destruct (Part001_run env talentId fileData fileName talent Hacc) as (st & Hrun & _).
    fold body careerPath in Hrun.
    destruct (aiOutcome001 env fileData fileName talent careerPath); [discriminate|].
    now exists st.
Qed.

Lemma C1_witness :
  let env := Ex.env Ex.alice (Ok (lit "file-1")) (Throw (lit "model unavailable"))
                    (Ok (Ex.answer "85")) in
  accepted env (lit "t1") (lit "JVBERi0xLjQK") (lit "cv.pdf") Ex.alice
  /\ plain_stage Ex.alice
  /\ exists fallback st,
       Main.generateFallbackAnalysis Ex.alice None = Ok fallback
       /\ run (Main.handler env (Ex.request "cv.pdf"))
          = (Ok (completed Ex.alice None (lit "cv.pdf") fallback true), st).
Proof.
  intros env.
  assert (Hacc : accepted env (lit "t1") (lit "JVBERi0xLjQK") (lit "cv.pdf") Ex.alice).
  { split; try (vm_compute; congruence). now exists []. }
  assert (Hp : plain_stage Ex.alice) by (vm_compute; discriminate).
  split; [exact Hacc | split; [exact Hp|]].
  exact (proj2 (proj1 (C1_ai_errors_are_absorbed env (lit "t1") (lit "JVBERi0xLjQK")
                         (lit "cv.pdf") Ex.alice) Hacc Hp) eq_refl).
Defined.

(** ** Release of the staged file *)

(** C3: the run of [src/main.js] where the release is attempted twice.  The
    profile's stage label names an inherited property, the staging gives a
    handle and the extraction raises; the fallback builder raises in the
    [catch] block, the [finally] block releases the file, and the outer
    [catch], which finds [uploadedFileId] still set, releases it again. *)
Theorem C3_release_attempted_twice :
  let env := Ex.env Ex.mallory (Ok (lit "file-1")) (Throw (lit "model unavailable"))
                    (Ok (Ex.answer "85")) in
  let out := run (Main.handler env (Ex.request "cv.pdf")) in
  Main.generateFallbackAnalysis Ex.mallory None = Throw Main.not_iterable_msg
  /\ statusOf out = Some (false, 500, 500)
  /\ callsOf out = [CallListDocuments (lit "t1"); CallCreateFile; CallGenerateFromFile;
                    CallDeleteFile (lit "file-1"); CallDeleteFile (lit "file-1")]
  /\ releases (callsOf out) = 2%nat.
Proof. vm_compute. repeat split. Qed.

(** The response and the count of releases on every exit of an accepted
    request in [src/main.js]: one release per staged file when a report is
    returned, two when the fallback builder raises. *)
Lemma Main_accepted_run `{Host} (env : Env)
    (talentId fileData fileName : jsstring) (talent : Profile) :
  accepted env talentId fileData fileName talent ->
  exists st,
    run (Main.handler env (BodyFields (Some talentId) (Some fileData) (Some fileName)))
    = (Ok (Main_response env fileData fileName talent), st)
    /\ releases (calls st)
       = if is_throw (aiOutcome env fileData fileName
                        (analysisOutcome (Main.analyzeCVContent env) talent))
            && is_throw (Main.generateFallbackAnalysis talent (careerPathOf env talent))
         then (2 * staged env)%nat else staged env.
Proof.
  intros Hacc. unfold Main_response. cbv zeta.
  assert (Heff : forall cvText cp,
    effect (Main.analyzeCVContent env cvText talent cp)
           (analysisOutcome (Main.analyzeCVContent env) talent cvText)
           [CallGenerateFromText])
    by (intros cvText cp st; exact (Main_analyze_effect env cvText talent cp st)).
  destruct (aiOutcome env fileData fileName
              (analysisOutcome (Main.analyzeCVContent env) talent)) as [report|m] eqn:Eai.
  - destruct (pipeline_ai_report env talentId fileData fileName talent
                _ Main.generateFallbackAnalysis _ Hacc Heff report Eai) as (st & Hrun & Hrel).
    exists st. split; [exact Hrun | exact Hrel].
  - destruct (Main.generateFallbackAnalysis talent (careerPathOf env talent))
      as [fb|msg] eqn:Efb.
    + destruct (pipeline_fallback_report env talentId fileData fileName talent
                  _ Main.generateFallbackAnalysis _ Hacc Heff fb
                  ltac:(now rewrite Eai) Efb) as (st & Hrun & Hrel).
      exists st. split; [exact Hrun | exact Hrel].
    + destruct (pipeline_fallback_crash env talentId fileData fileName talent
                  _ Main.generateFallbackAnalysis _ Hacc Heff msg
                  ltac:(now rewrite Eai) Efb) as (st & Hrun & Hrel).
      exists st. split; [exact Hrun | exact Hrel].
Qed.

(** A failure of the release does not change the response of an accepted
    request. *)
Lemma release_outcome_is_masked `{Host} (env : Env) (outcome : jsstring -> result unit)
    (talentId fileData fileName : jsstring) (talent : Profile) :
  accepted env talentId fileData fileName talent ->
  let body := BodyFields (Some talentId) (Some fileData) (Some fileName) in
  fst (run (Main.handler (with_deleteFile env outcome) body))
  = fst (run (Main.handler env body)).
Proof.
  intros Hacc body. subst body.
  assert (Hacc' : accepted (with_deleteFile env outcome) talentId fileData fileName talent)
    by (destruct Hacc; split; assumption).
  destruct (Main_accepted_run env _ _ _ _ Hacc) as (st & -> & _).
  destruct (Main_accepted_run _ _ _ _ _ Hacc') as (st' & -> & _).
  reflexivity.
Qed.

(** ** Rejected requests *)

Lemma bigData_length : Z.of_nat (length Ex.bigData) = 7000000.
Proof. unfold Ex.bigData. rewrite repeat_length. now rewrite N_nat_Z. Qed.

Lemma bigData_tooLarge : tooLarge Ex.bigData = true.
Proof. unfold tooLarge, fileSizeBytes. rewrite bigData_length. reflexivity. Qed.

Lemma bigData_nonempty : Ex.bigData <> [].
Proof.
  intros E. pose proof bigData_length as Hl. rewrite E in Hl. discriminate Hl.
Qed.

(** C9, as stated, fails.  [src/main.js] checks the configuration before
    the request and answers 500 to a request with an unsupported extension
    when the model key is missing; and the third variant, which has no size
    check, sends a file of seven million characters with an allowed
    extension on to the profile store and analyses it. *)
Lemma C9_not_always_rejected_with_400 :
  let env := Ex.env Ex.alice (Ok (lit "file-1")) (Ok Ex.cvText) (Ok (Ex.answer "85")) in
  let unconfigured :=
    {| gemini_api_key := false; listDocuments := listDocuments env;
       getDocument := getDocument env; createFile := createFile env;
       deleteFile := deleteFile env; generateFromFile := generateFromFile env;
       generateFromText := generateFromText env |} in
  let out := run (Part001.handler env
                    (BodyFields (Some (lit "t1")) (Some Ex.bigData) (Some (lit "cv.pdf")))) in
  (unsupported (Some (lit "resume.exe"))
   /\ statusOf (run (Main.handler unconfigured (Ex.request "resume.exe")))
      = Some (false, 500, 500))
  /\ (oversized (Some Ex.bigData)
      /\ statusOf out = Some (true, 200, 200)
      /\ CallListDocuments (lit "t1") ∈ callsOf out).
Proof.
  intros env unconfigured out. split.
  - split; [exists (lit "resume.exe"); split; reflexivity | reflexivity].
  - assert (Hacc : accepted001 env (lit "t1") Ex.bigData (lit "cv.pdf") Ex.alice).
    { split.
      - vm_compute. congruence.
      - apply bigData_nonempty.
      - vm_compute. congruence.
      - vm_compute. reflexivity.
      - now exists []. }
    destruct (Part001_run env _ _ _ _ Hacc) as (st & Hrun & _ & Hcall).
    split; [exists Ex.bigData; split; [reflexivity | apply bigData_tooLarge]|].
    unfold out, statusOf, callsOf. rewrite Hrun. cbn [fst snd]. split; [|exact Hcall].
    destruct (aiOutcome001 env Ex.bigData (lit "cv.pdf") Ex.alice (careerPathOf env Ex.alice));
      reflexivity.
Qed.

(** C9 (amended).  A request whose file name has an extension outside the
    allow-list is answered with [success:false], status 400 and no report
    before any call to a collaborator: by the third variant always, by
    [src/main.js] and the plain variant when the model key is configured.
    These two answer an oversized file the same way. *)
Theorem C9_rejected_before_any_call `{Host} (env : Env)
    (talentId fileData fileName : option jsstring) :
  let body := BodyFields talentId fileData fileName in
  (gemini_api_key env = true -> unsupported fileName \/ oversized fileData ->
   rejected (run (Main.handler env body)) /\ rejected (run (Part000.handler env body)))
  /\ (unsupported fileName -> rejected (run (Part001.handler env body))).
Proof.
  intros body. split.
  - intros Hkey Hbad.
    assert (Hp : forall analyze fallback,
               rejected (run (pipeline env analyze fallback body))).
    { intros analyze fallback. unfold body, run, pipeline. unfold_monad. rewrite Hkey.
      cbn [negb].
      destruct talentId as [[|t0 tid]|], fileData as [[|d0 fd]|], fileName as [[|n0 fn]|];
        cbn [nonempty negb orb];
        try (repeat split; eexists; split; reflexivity).
      destruct (includes allowedExtensions (fileExtension (n0 :: fn))) eqn:Eext;
        cbn [negb]; [|repeat split; eexists; split; reflexivity].
      destruct (tooLarge (d0 :: fd)) eqn:Esize;
        [repeat split; eexists; split; reflexivity|].
      destruct Hbad as [(name & [= <-] & Hext) | (data & [= <-] & Hsize)]; congruence. }
    split; apply Hp.
  - intros (name & -> & Hext).
    unfold body, run, Part001.handler. unfold_monad.
    destruct talentId as [[|t0 tid]|], fileData as [[|d0 fd]|], name as [|n0 fn];
      cbn [nonempty negb orb];
      try (repeat split; eexists; split; reflexivity).
    rewrite Hext. cbn [negb]. repeat split; eexists; split; reflexivity.
Qed.

Lemma C9_witness :
  let env := Ex.env Ex.alice (Ok (lit "file-1")) (Ok Ex.cvText) (Ok (Ex.answer "85")) in
  gemini_api_key env = true
  /\ unsupported (Some (lit "resume.exe"))
  /\ rejected (run (Main.handler env (Ex.request "resume.exe")))
  /\ rejected (run (Part001.handler env (Ex.request "resume.exe"))).
Proof.
  intros env.
  assert (Hbad : unsupported (Some (lit "resume.exe")))
    by (exists (lit "resume.exe"); split; reflexivity).
  split; [reflexivity | split; [exact Hbad|]].
  pose proof (C9_rejected_before_any_call env (Some (lit "t1")) (Some (lit "JVBERi0xLjQK"))
                (Some (lit "resume.exe"))) as [Hmain Hthird].
  split; [exact (proj1 (Hmain eq_refl (or_introl Hbad))) | exact (Hthird Hbad)].
Defined.

(** ** Failures of the analysis stage *)


Lemma analysis_contract_of `{Host} env prefix failure fields
    (post : JSValue -> result JSValue) :
  (forall fs, exists report, post (JObj fs) = Ok report) ->
  analysis_contract env
    (try_catch
       (let! responseText := call CallGenerateFromText (generateFromText env) in
        let! analysis := lift (sanitizeAndParse responseText) in
        lift (rbind (checkRequired prefix fields analysis) (fun _ => post analysis)))
       (fun message => throw (failure ++ message)))
    fields.
Proof.
  intros Hpost. unfold analysis_contract, run. unfold_monad.
  repeat split.
  - destruct (generateFromText env); [discriminate | reflexivity].
  - intros text -> Hs. cbn [fst snd].
    destruct (sanitizeAndParse text); [discriminate | reflexivity].
  - intros text analysis field -> -> Hin Hget. cbn [fst snd].
    pose proof (checkRequired_missing prefix fields analysis field Hin) as Hm.
    rewrite Hget in Hm. specialize (Hm eq_refl).
    destruct (checkRequired prefix fields analysis); [discriminate | reflexivity].
  - intros text fs -> -> Hall. cbn [fst snd].
    rewrite (checkRequired_present prefix fields fs Hall). cbn [rbind].
    destruct (Hpost fs) as (report & ->). reflexivity.
Qed.


(** The third variant keeps the same contract for its own list, in which the
    gaps field is spelled profileVsCvGPs. *)
Lemma Part001_analysis_contract `{Host} (env : Env) (cvText : jsstring)
    (talent : Profile) (careerPath : option CareerPath) :
  analysis_contract env (Part001.analyzeCVContent env cvText talent careerPath)
    [lit "overallScore"; lit "strengths"; lit "weaknesses"; lit "profileVsCvGPs";
     lit "recommendations"].
Proof.
  apply (analysis_contract_of env _ _ Part001.requiredFields (fun analysis => Ok analysis)).
  intros fs. eauto.
Qed.


(** ** A score of zero *)


(** C10.  There is an answer of the model that holds every mandatory field,
    with [overallScore] equal to zero, on which the analysis stage of
    [src/main.js] and of the plain variant raises the missing-field error for
    overallScore, and the invocation ends with the fallback report and
    [usedFallback] true. *)
Theorem C10_zero_score_takes_the_fallback :
  exists responseText analysis,
    let env := Ex.env Ex.alice (Ok (lit "file-1")) (Ok Ex.cvText) (Ok responseText) in
    sanitizeAndParse responseText = Ok analysis
    /\ Forall (fun field => get analysis field <> JUndefined)
         [lit "overallScore"; lit "strengths"; lit "weaknesses"; lit "profileVsCvGaps";
          lit "careerPathAlignment"; lit "careerStageAlignment"; lit "recommendations";
          lit "nextSteps"; lit "marketability"]
    /\ get analysis (lit "overallScore") = num 0
    /\ fst (run (Main.analyzeCVContent env Ex.cvText Ex.alice None))
       = Throw (lit "Failed to analyze CV content: Missing required field in analysis: overallScore")
    /\ fst (run (Part000.analyzeCVContent env Ex.cvText Ex.alice None))
       = Throw (lit "Failed to analyze CV content: Missing required field in analysis: overallScore")
    /\ usedFallbackOf (run (Main.handler env (Ex.request "cv.pdf"))) = Some true
    /\ Ok (reported (run (Main.handler env (Ex.request "cv.pdf"))))
       = Main.generateFallbackAnalysis Ex.alice None
    /\ usedFallbackOf (run (Part000.handler env (Ex.request "cv.pdf"))) = Some true.
Proof.
  exists (Ex.answer "0"), (Ex.parsed "0"). cbv zeta.
  split; [vm_compute; reflexivity|].
  split; [repeat constructor; vm_compute; discriminate|].
  repeat split; vm_compute; reflexivity.
Qed.

(** * Further properties *)

(** ** The shape of the cleaned text *)

Lemma takeWhile_dropWhile p s : s = takeWhile p s ++ dropWhile p s.
Proof.
  induction s as [|c r IH]; simpl; [reflexivity|].
  destruct (p c); simpl; [now f_equal|reflexivity].
Qed.

Lemma replaceAll_skip_all m k s : (length s <= k)%nat -> replaceAll m k s = [].
Proof.
  revert k. induction s as [|c r IH]; intros k Hk; simpl; [reflexivity|].
  destruct k as [|k]; simpl in Hk; [lia|]. apply IH. lia.
Qed.

(** A match whose last character is not a closing brace leaves the last
    character of a text that ends with a closing brace alone. *)
Lemma match_before_last (P T Y : jsstring) (c : N) :
  P ++ c :: T = Y ++ [rbrace] -> c <> rbrace -> (length P + 1 <= length Y)%nat.
Proof.
  intros E Hc.
  assert (Hl : (length P + 1 + length T = length Y + 1)%nat).
  { apply (f_equal (@length N)) in E. rewrite !length_app in E. simpl in E. lia. }
  destruct T as [|t T'] using rev_ind.
  - exfalso. apply Hc.
    assert (E' : P ++ [c] = Y ++ [rbrace]) by exact E.
    apply app_inj_tail in E'. tauto.
  - rewrite length_app in Hl. simpl in Hl. lia.
Qed.

Section BraceSafe.
Variable m : Matcher.
Hypothesis Hm : brace_safe m.

Lemma replaceAll_keeps_last Y skip :
  (skip <= length Y)%nat ->
  exists O, replaceAll m skip (Y ++ [rbrace]) = O ++ [rbrace].
Proof.
  revert skip. induction Y as [|y Y IH]; intros skip Hs.
  - assert (skip = 0%nat) as -> by (simpl in Hs; lia).
    simpl. destruct (m [rbrace]) as [[[|k] rep]|] eqn:E.
    + now exists [].
    + destruct (bs_tail m Hm [] _ _ E) as [Hk|[rep' ->]]; [simpl in Hk; lia|].
      exists rep'. now rewrite app_nil_r.
    + now exists [].
  - destruct skip as [|j].
    + cbn [app replaceAll].
      destruct (m (y :: Y ++ [rbrace])) as [[[|k] rep]|] eqn:E.
      * destruct (IH 0%nat) as [O HO]; [lia|]. exists (y :: O). now rewrite HO.
      * destruct (bs_tail m Hm (y :: Y) _ _ E) as [Hk|[rep' ->]].
        -- destruct (IH k) as [O HO]; [simpl in Hk; lia|].
           exists (rep ++ O). now rewrite HO, app_assoc.
        -- destruct (le_lt_dec k (length Y)) as [Hk|Hk].
           ++ destruct (IH k Hk) as [O HO].
              exists ((rep' ++ [rbrace]) ++ O). now rewrite HO, app_assoc.
           ++ rewrite replaceAll_skip_all by (rewrite length_app; simpl; lia).
              exists rep'. now rewrite app_nil_r.
      * destruct (IH 0%nat) as [O HO]; [lia|]. exists (y :: O). now rewrite HO.
    + cbn [app replaceAll]. apply IH. simpl in Hs. lia.
Qed.

Lemma replace_g_braced s : braced s -> braced (replace_g m s).
Proof.
  intros [M ->]. unfold replace_g.
  destruct (replaceAll_keeps_last (lbrace :: M) 0) as [O HO]; [simpl; lia|].
  assert (Hhead : exists O', replaceAll m 0 ((lbrace :: M) ++ [rbrace]) = lbrace :: O').
  { cbn [app replaceAll].
    destruct (m (lbrace :: M ++ [rbrace])) as [[[|k] rep]|] eqn:E; eauto.
    destruct (bs_head m Hm _ _ _ E) as [rep' ->]. simpl. eauto. }
  destruct Hhead as [O' HO'].
  change (lbrace :: M ++ [rbrace]) with ((lbrace :: M) ++ [rbrace]).
  rewrite HO in HO'. rewrite HO.
  destruct O as [|o O1]; simpl in HO'.
  - discriminate HO'.
  - injection HO' as -> _. now exists O1.
Qed.
End BraceSafe.

Lemma re_trailing_comma_safe : brace_safe re_trailing_comma.
Proof.
  split.
  - intros s k rep E. discriminate E.
  - intros Y k rep E.
    destruct (Y ++ [rbrace]) as [|c0 rest] eqn:EY; [discriminate E|].
    unfold re_trailing_comma in E.
    destruct (N.eqb_spec c0 44) as [->|Hne].
    2:{ exfalso. revert E Hne. clear.
        destruct c0 as [|p]; [discriminate|].
        repeat (destruct p as [p|p|]; try discriminate). congruence. }
    cbv zeta in E.
    pose proof (takeWhile_dropWhile is_space rest) as Hsplit.
    destruct (dropWhile is_space rest) as [|c t]; [discriminate E|].
    destruct (N.eqb_spec c 125) as [->|Hc]; simpl in E.
    + injection E as <- <-. right. now exists (takeWhile is_space rest).
    + destruct (N.eqb c 93); [|discriminate E].
      injection E as <- <-. left.
      assert (H1 : (44%N :: takeWhile is_space rest) ++ c :: t = Y ++ [rbrace]).
      { simpl. rewrite <- Hsplit. now rewrite EY. }
      apply match_before_last in H1; [|exact Hc]. simpl in H1. lia.
Qed.

Lemma re_bare_key_safe : brace_safe re_bare_key.
Proof.
  split.
  - intros s k rep E. unfold re_bare_key in E. cbv zeta in E.
    change (N.eqb lbrace 123 || N.eqb lbrace 44)%bool with true in E. cbv iota in E.
    destruct (takeWhile is_word (dropWhile is_space s)); [discriminate E|].
    destruct (dropWhile is_word (dropWhile is_space s)) as [|c t]; [discriminate E|].
    destruct (N.eqb_spec c 58) as [->|Hne].
    + injection E as _ <-. eauto.
    + exfalso. revert E Hne. clear.
      destruct c as [|p]; [discriminate|].
      repeat (destruct p as [p|p|]; try discriminate). congruence.
  - intros Y k rep E.
    destruct (Y ++ [rbrace]) as [|c0 rest] eqn:EY; [discriminate E|].
    unfold re_bare_key in E. cbv zeta in E.
    destruct (N.eqb c0 123 || N.eqb c0 44)%bool; [|discriminate E].
    pose proof (takeWhile_dropWhile is_space rest) as H1.
    pose proof (takeWhile_dropWhile is_word (dropWhile is_space rest)) as H2.
    destruct (takeWhile is_word (dropWhile is_space rest)) as [|w0 w] eqn:Ew;
      [discriminate E|].
    destruct (dropWhile is_word (dropWhile is_space rest)) as [|c t]; [discriminate E|].
    destruct (N.eqb_spec c 58) as [->|Hne].
    + injection E as <- _. left.
      assert (H3 : (c0 :: takeWhile is_space rest ++ w0 :: w) ++ 58%N :: t
                   = Y ++ [rbrace]).
      { rewrite EY. simpl. f_equal. rewrite <- app_assoc. cbn [app] in *.
        rewrite <- H2. exact (eq_sym H1). }
      apply match_before_last in H3; [|discriminate].
      simpl in H3. rewrite length_app in H3. simpl in *. lia.
    + exfalso. revert E Hne. clear.
      destruct c as [|p]; [discriminate|].
      repeat (destruct p as [p|p|]; try discriminate). congruence.
Qed.

Lemma re_single_quoted_safe : brace_safe re_single_quoted.
Proof.
  split.
  - intros s k rep E. discriminate E.
  - intros Y k rep E.
    destruct (Y ++ [rbrace]) as [|c0 rest] eqn:EY; [discriminate E|].
    unfold re_single_quoted in E.
    destruct (N.eqb_spec c0 58) as [->|Hne].
    2:{ exfalso. revert E Hne. clear.
        destruct c0 as [|p]; [discriminate|].
        repeat (destruct p as [p|p|]; try discriminate). congruence. }
    cbv zeta in E.
    pose proof (takeWhile_dropWhile is_space rest) as H1.
    destruct (dropWhile is_space rest) as [|q r2]; [discriminate E|].
    destruct (N.eqb_spec q 39) as [->|Hne].
    2:{ exfalso. revert E Hne. clear.
        destruct q as [|p]; [discriminate|].
        repeat (destruct p as [p|p|]; try discriminate). congruence. }
    pose proof (takeWhile_dropWhile (fun c => negb (N.eqb c 39)) r2) as H2.
    destruct (dropWhile (fun c => negb (N.eqb c 39)) r2) as [|q' t]; [discriminate E|].
    destruct (N.eqb_spec q' 39) as [->|Hne].
    2:{ exfalso. revert E Hne. clear.
        destruct q' as [|p]; [discriminate|].
        repeat (destruct p as [p|p|]; try discriminate). congruence. }
    injection E as <- _. left.
    set (body := takeWhile (fun c => negb (N.eqb c 39)) r2) in *.
    assert (H3 : (58%N :: takeWhile is_space rest ++ 39%N :: body) ++ 39%N :: t
                 = Y ++ [rbrace]).
    { rewrite EY. simpl. f_equal. rewrite <- app_assoc. cbn [app].
      rewrite <- H2. exact (eq_sym H1). }
    apply match_before_last in H3; [|discriminate].
    simpl in H3. rewrite length_app in H3. simpl in *. lia.
Qed.

Lemma re_newline_safe : brace_safe re_newline.
Proof.
  split.
  - intros s k rep E. discriminate E.
  - intros Y k rep E. destruct Y as [|y Y].
    + discriminate E.
    + left. simpl in E.
      destruct (N.eqb_spec y 10) as [->|Hne].
      * injection E as <- _. simpl. lia.
      * exfalso. revert E Hne. clear.
        destruct y as [|p]; [discriminate|].
        repeat (destruct p as [p|p|]; try discriminate). congruence.
Qed.

Lemma re_spaces_safe : brace_safe re_spaces.
Proof.
  split.
  - intros s k rep E. discriminate E.
  - intros Y k rep E. left. unfold re_spaces in E.
    rewrite (takeWhile_app_stop is_space Y rbrace []) in E by reflexivity.
    pose proof (takeWhile_length is_space Y) as Hl.
    destruct (takeWhile is_space Y); [discriminate E|].
    injection E as <- _. exact Hl.
Qed.

Lemma normal_ws_spaces s skip :
  let o := replaceAll re_spaces skip s in
  (skip = 0%nat -> normal_ws o = true)
  /\ (skip = length (takeWhile is_space s) ->
      normal_ws o = true /\ match o with d :: _ => is_space d = false | [] => True end).
Proof.
  revert skip. induction s as [|c r IH]; intros skip o; subst o.
  - simpl. tauto.
  - assert (Hzero : is_space c = false ->
              replaceAll re_spaces 0 (c :: r) = c :: replaceAll re_spaces 0 r).
    { intros Hc. cbn [replaceAll]. unfold re_spaces. simpl. now rewrite Hc. }
    assert (Hrun : is_space c = true ->
              replaceAll re_spaces 0 (c :: r)
              = 32%N :: replaceAll re_spaces (length (takeWhile is_space r)) r).
    { intros Hc. cbn [replaceAll]. unfold re_spaces. simpl. now rewrite Hc. }
    destruct (is_space c) eqn:Hc.
    + split.
      * intros ->. rewrite Hrun by reflexivity.
        destruct (IH (length (takeWhile is_space r))) as [_ IH2].
        destruct (IH2 eq_refl) as [Hn Hh].
        cbn [normal_ws]. rewrite Hn.
        destruct (replaceAll re_spaces (length (takeWhile is_space r)) r);
          [reflexivity|rewrite Hh; reflexivity].
      * intros ->. simpl. rewrite Hc. simpl.
        destruct (IH (length (takeWhile is_space r))) as [_ IH2]. now apply IH2.
    + assert (Hgoal : normal_ws (replaceAll re_spaces 0 (c :: r)) = true).
      { rewrite Hzero by reflexivity. cbn [normal_ws]. rewrite Hc.
        destruct (IH 0%nat) as [IH1 _]. now rewrite IH1. }
      split.
      * now intros ->.
      * simpl (length _). rewrite Hc. simpl (length _). intros ->. split; [exact Hgoal|].
        now rewrite Hzero.
Qed.

Lemma trim_braced s : braced s -> trim s = s.
Proof.
  intros [M ->]. unfold trim, trimStart. cbn [dropWhile].
  change (is_space lbrace) with false. cbv iota.
  change (lbrace :: M ++ [rbrace]) with ((lbrace :: M) ++ rbrace :: []).
  now rewrite trimEnd_app_stop.
Qed.

Lemma repair_braced s :
  braced s -> braced (repair s) /\ normal_ws (repair s) = true.
Proof.
  intros Hs. unfold repair.
  pose proof (replace_g_braced _ re_spaces_safe _
               (replace_g_braced _ re_newline_safe _
                 (replace_g_braced _ re_single_quoted_safe _
                   (replace_g_braced _ re_bare_key_safe _
                     (replace_g_braced _ re_trailing_comma_safe _ Hs))))) as Hb.
  rewrite (trim_braced _ Hb). split; [exact Hb|].
  unfold replace_g at 1.
  exact (proj1 (normal_ws_spaces _ 0%nat) eq_refl).
Qed.

(** X1.  The sanitizer succeeds exactly on the texts whose first opening brace
    stands before their last closing brace. *)
Theorem sanitizer_succeeds_iff_brace_pair (text : jsstring) :
  (exists cleaned, extractAndCleanJSON text = Ok cleaned)
  <-> indexOf lbrace text <> -1 /\ lastIndexOf rbrace text <> -1
      /\ indexOf lbrace text < lastIndexOf rbrace text.
Proof.
  destruct (framed_total text) as [o Hf].
  rewrite (extractAndCleanJSON_framed _ _ Hf).
  destruct o as [M|].
  - inversion Hf as [| |X M' Y HX HY]; subst.
    destruct (framed_pair_check X M Y HX HY) as [Hno _]. cbv zeta in Hno.
    unfold no_object in Hno.
    split; [intros _|intros _; simpl; eauto]. lia.
  - pose proof (framed_none_check _ Hf) as Hno. unfold no_object in Hno.
    split; [intros [c Hc]; discriminate Hc|]. lia.
Qed.

(** X2.  The text the sanitizer returns stands between an opening and a closing
    brace and its white space is in normal form. *)
Theorem cleaned_text_shape (text cleaned : jsstring) :
  extractAndCleanJSON text = Ok cleaned ->
  braced cleaned /\ normal_ws cleaned = true.
Proof.
  destruct (framed_total text) as [o Hf].
  rewrite (extractAndCleanJSON_framed _ _ Hf).
  destruct o as [M|]; [|discriminate].
  intros [= <-]. apply repair_braced. now eexists.
Qed.

Lemma cleaned_text_shape_witness :
  extractAndCleanJSON (lit "note {a:" ++ [10%N; 9%N] ++ lit " 1 }" ++ [10%N] ++ lit "bye")
  = Ok (jlit "{'a': 1 }")
  /\ braced (jlit "{'a': 1 }") /\ normal_ws (jlit "{'a': 1 }") = true.
Proof.
  split; [vm_compute; reflexivity|].
  apply (cleaned_text_shape
           (lit "note {a:" ++ [10%N; 9%N] ++ lit " 1 }" ++ [10%N] ++ lit "bye")).
  vm_compute; reflexivity.
Defined.

(** ** What the sanitizer keeps and what it rewrites *)

(** X3.  The sanitizer keeps what stands between the first opening brace and the
    last closing brace of the text, prose and further objects included,
    drops what stands before and after, and answers the repair of the kept
    part without its fences. *)
Theorem sanitizer_takes_first_to_last_brace (X M Y : jsstring) :
  lbrace ∉ X -> rbrace ∉ Y ->
  extractAndCleanJSON (X ++ lbrace :: M ++ rbrace :: Y)
  = Ok (repair (lbrace :: replace_g re_fence (replace_g re_fence_json M) ++ [rbrace])).
Proof.
  intros HX HY.
  exact (extractAndCleanJSON_framed _ _ (framed_pair X M Y HX HY)).
Qed.

Lemma sanitizer_takes_first_to_last_brace_witness :
  extractAndCleanJSON (lit "Two answers: {a: 1} or {b: 2}. Pick one.")
  = Ok (jlit "{'a': 1} or {'b': 2}").
Proof.
  etransitivity;
    [exact (sanitizer_takes_first_to_last_brace
              (lit "Two answers: ") (lit "a: 1} or {b: 2") (lit ". Pick one.")
              ltac:(decide_now) ltac:(decide_now))
    |vm_compute; reflexivity].
Defined.

Lemma word_char (c : N) :
  is_word c = true ->
  (48 <= c <= 57 \/ 65 <= c <= 90 \/ 97 <= c <= 122 \/ c = 95)%N.
Proof.
  unfold is_word. rewrite !orb_true_iff, !andb_true_iff, !N.leb_le, N.eqb_eq. tauto.
Qed.

Lemma word_not_space (c : N) : is_word c = true -> is_space c = false.
Proof.
  intros Hw%word_char. unfold is_space.
  repeat (apply orb_false_intro); rewrite ?andb_false_iff, ?N.leb_gt, ?N.eqb_neq; lia.
Qed.

Lemma word_neq (c d : N) :
  is_word c = true -> is_word d = false -> N.eqb c d = false.
Proof. intros Hc Hd. apply N.eqb_neq. congruence. Qed.

Lemma replaceAll_untouched (m : Matcher) (trigger : N -> bool) (X Y : jsstring) :
  (forall c r, trigger c = false -> m (c :: r) = None) ->
  Forall (fun c => trigger c = false) X ->
  replaceAll m 0 (X ++ Y) = X ++ replaceAll m 0 Y.
Proof.
  intros Hm HX. induction HX as [|c X Hc HX IH]; [reflexivity|].
  cbn [app replaceAll]. now rewrite (Hm c _ Hc), IH.
Qed.

Lemma replaceAll_skip (m : Matcher) (X Y : jsstring) :
  replaceAll m (length X) (X ++ Y) = replaceAll m 0 Y.
Proof. induction X as [|c X IH]; [reflexivity|exact IH]. Qed.

Lemma takeWhile_all_stop (p : N -> bool) (X : jsstring) (c : N) (Y : jsstring) :
  Forall (fun x => p x = true) X -> p c = false ->
  takeWhile p (X ++ c :: Y) = X /\ dropWhile p (X ++ c :: Y) = c :: Y.
Proof.
  intros HX Hc. induction HX as [|x X Hx HX [IH1 IH2]]; simpl.
  - now rewrite Hc.
  - rewrite Hx. now rewrite IH1, IH2.
Qed.

Lemma replaceAll_step_none (m : Matcher) (c : N) (r : jsstring) :
  m (c :: r) = None -> replaceAll m 0 (c :: r) = c :: replaceAll m 0 r.
Proof. intros E. cbn [replaceAll]. now rewrite E. Qed.

Lemma replaceAll_step_same (m : Matcher) (c : N) (r : jsstring) :
  m (c :: r) = Some (1%nat, [c]) -> replaceAll m 0 (c :: r) = c :: replaceAll m 0 r.
Proof. intros E. cbn [replaceAll]. now rewrite E. Qed.

Lemma replaceAll_step_match (m : Matcher) (c : N) (r : jsstring) k rep :
  m (c :: r) = Some (S k, rep) -> replaceAll m 0 (c :: r) = rep ++ replaceAll m k r.
Proof. intros E. cbn [replaceAll]. now rewrite E. Qed.

Lemma replace_g_untouched (m : Matcher) (trigger : N -> bool) (s : jsstring) :
  (forall c r, trigger c = false -> m (c :: r) = None) ->
  Forall (fun c => trigger c = false) s ->
  replace_g m s = s.
Proof.
  intros Hm Hs. unfold replace_g.
  rewrite <- (app_nil_r s) at 1. rewrite (replaceAll_untouched m trigger s [] Hm Hs).
  now rewrite app_nil_r.
Qed.

Lemma re_fence_json_trigger c r : N.eqb c 96 = false -> re_fence_json (c :: r) = None.
Proof.
  intros Hc. unfold re_fence_json. cbn [lit list_ascii_of_string List.map strip_prefix].
  change (N_of_ascii "`") with 96%N. now rewrite N.eqb_sym, Hc.
Qed.

Lemma re_fence_trigger c r : N.eqb c 96 = false -> re_fence (c :: r) = None.
Proof.
  intros Hc. unfold re_fence. cbn [lit list_ascii_of_string List.map strip_prefix].
  change (N_of_ascii "`") with 96%N. now rewrite N.eqb_sym, Hc.
Qed.

Lemma re_trailing_comma_trigger c r :
  N.eqb c 44 = false -> re_trailing_comma (c :: r) = None.
Proof.
  intros Hc%N.eqb_neq. unfold re_trailing_comma.
  destruct c as [|p]; [reflexivity|].
  repeat (destruct p as [p|p|]; try reflexivity). congruence.
Qed.

Lemma re_bare_key_trigger c r :
  N.eqb c 123 || N.eqb c 44 = false -> re_bare_key (c :: r) = None.
Proof. intros Hc. unfold re_bare_key. now rewrite Hc. Qed.

Lemma re_single_quoted_trigger c r :
  N.eqb c 58 = false -> re_single_quoted (c :: r) = None.
Proof.
  intros Hc%N.eqb_neq. unfold re_single_quoted.
  destruct c as [|p]; [reflexivity|].
  repeat (destruct p as [p|p|]; try reflexivity). congruence.
Qed.

Lemma re_newline_trigger c r : N.eqb c 10 = false -> re_newline (c :: r) = None.
Proof.
  intros Hc%N.eqb_neq. unfold re_newline.
  destruct c as [|p]; [reflexivity|].
  repeat (destruct p as [p|p|]; try reflexivity). congruence.
Qed.

Lemma re_spaces_trigger c r : is_space c = false -> re_spaces (c :: r) = None.
Proof. intros Hc. unfold re_spaces. cbn [takeWhile]. now rewrite Hc. Qed.

Section InsideStrings.
Variable w : jsstring.
Hypothesis Hne : w <> [].
Hypothesis Hw : Forall (fun c => is_word c = true) w.

Lemma word_free (trigger : N -> bool) :
  (forall c, is_word c = true -> trigger c = false) ->
  Forall (fun c => trigger c = false) w.
Proof. intros Ht. eapply Forall_impl; [exact Hw|exact Ht]. Qed.

Ltac free Ht :=
  repeat match goal with
         | |- Forall _ w => apply (word_free _ Ht)
         | |- Forall _ (_ ++ _) => apply Forall_app; split
         | |- Forall _ (_ :: _) => constructor; [reflexivity|]
         | |- Forall _ [] => constructor
         | |- Forall _ _ => decide_now
         end.

Lemma not_backquote c : is_word c = true -> N.eqb c 96 = false.
Proof. intros Hc. now apply word_neq. Qed.

Lemma not_comma c : is_word c = true -> N.eqb c 44 = false.
Proof. intros Hc. now apply word_neq. Qed.

Lemma not_brace_comma c : is_word c = true -> N.eqb c 123 || N.eqb c 44 = false.
Proof. intros Hc. now rewrite !word_neq. Qed.

Lemma not_colon c : is_word c = true -> N.eqb c 58 = false.
Proof. intros Hc. now apply word_neq. Qed.

Lemma not_newline c : is_word c = true -> N.eqb c 10 = false.
Proof. intros Hc. now apply word_neq. Qed.

(** The text is [P1 ++ w ++ B1]; after the repairs it is [P2 ++ w ++ B2]. *)
Let P0 : jsstring := jlit "{'note': 'first".
Let P1 : jsstring := jlit "{'note': 'first, ".
Let B1 : jsstring := jlit ": second'}".
Let P2 : jsstring := jlit "{'note': 'first, '".
Let B2 : jsstring := jlit "': second'}".

Lemma stage_fences (M : jsstring) :
  Forall (fun c => N.eqb c 96 = false) M ->
  replace_g re_fence (replace_g re_fence_json M) = M.
Proof.
  intros HM.
  rewrite (replace_g_untouched _ _ _ re_fence_json_trigger HM).
  exact (replace_g_untouched _ _ _ re_fence_trigger HM).
Qed.

Lemma word_head : exists w0 w', w = w0 :: w' /\ is_word w0 = true.
Proof.
  destruct w as [|w0 w'] eqn:Ew; [congruence|].
  inversion Hw; subst. eauto.
Qed.

Lemma comma_is_kept (R : jsstring) :
  re_trailing_comma (44%N :: 32%N :: w ++ R) = None.
Proof.
  destruct word_head as (w0 & w' & -> & Hw0).
  unfold re_trailing_comma. cbn [app takeWhile dropWhile].
  change (is_space 32) with true. cbv iota.
  rewrite (word_not_space _ Hw0).
  now rewrite !(word_neq w0) by (assumption || reflexivity).
Qed.

Lemma stage_trailing_comma :
  replace_g re_trailing_comma (P1 ++ w ++ B1) = P1 ++ w ++ B1.
Proof.
  unfold replace_g.
  assert (Hprefix : forall R, replaceAll re_trailing_comma 0 (P0 ++ R)
                              = P0 ++ replaceAll re_trailing_comma 0 R)
    by (intros R; reflexivity).
  change (P1 ++ w ++ B1) with (P0 ++ 44%N :: 32%N :: w ++ B1).
  rewrite Hprefix, (replaceAll_step_none _ _ _ (comma_is_kept B1)).
  do 2 f_equal.
  change (32%N :: w ++ B1) with ((32%N :: w) ++ B1).
  rewrite (replaceAll_untouched _ _ _ _ re_trailing_comma_trigger)
    by (free not_comma).
  reflexivity.
Qed.

Lemma key_is_matched (R : jsstring) :
  re_bare_key (44%N :: 32%N :: w ++ 58%N :: R)
  = Some (S (length (32%N :: w ++ [58%N])), 44%N :: 32%N :: 34%N :: w ++ [34%N; 58%N]).
Proof.
  destruct (takeWhile_all_stop is_word w 58 R Hw eq_refl) as [Htake Hdrop].
  destruct word_head as (w0 & w' & Ew & Hw0).
  assert (Hws : takeWhile is_space (32%N :: w ++ 58%N :: R) = [32%N]).
  { rewrite Ew. cbn [app takeWhile]. change (is_space 32) with true. cbv iota.
    now rewrite (word_not_space _ Hw0). }
  assert (Hr1 : dropWhile is_space (32%N :: w ++ 58%N :: R) = w ++ 58%N :: R).
  { rewrite Ew. cbn [app dropWhile]. change (is_space 32) with true. cbv iota.
    now rewrite (word_not_space _ Hw0). }
  unfold re_bare_key. cbv zeta.
  change (N.eqb 44 123 || N.eqb 44 44) with true. cbv iota.
  rewrite Hws, Hr1, Htake, Hdrop. rewrite Ew at 1.
  do 2 f_equal. cbn [length]. rewrite length_app. cbn [length]. lia.
Qed.

Lemma stage_bare_key :
  replace_g re_bare_key (P1 ++ w ++ B1) = P2 ++ w ++ B2.
Proof.
  unfold replace_g.
  assert (Hprefix : forall R, replaceAll re_bare_key 0 (P0 ++ R)
                              = P0 ++ replaceAll re_bare_key 0 R)
    by (intros R; reflexivity).
  change (P1 ++ w ++ B1) with (P0 ++ 44%N :: 32%N :: w ++ 58%N :: jlit " second'}").
  rewrite Hprefix, (replaceAll_step_match _ _ _ _ _ (key_is_matched _)).
  change (32%N :: w ++ 58%N :: jlit " second'}")
    with (32%N :: w ++ [58%N] ++ jlit " second'}").
  rewrite (app_assoc w), (app_comm_cons (w ++ [58%N])), replaceAll_skip.
  change (P2 ++ w ++ B2)
    with (P0 ++ 44%N :: 32%N :: 34%N :: w ++ 34%N :: 58%N :: jlit " second'}").
  apply (f_equal (app P0)). cbn [app]. do 3 f_equal.
  rewrite <- app_assoc. reflexivity.
Qed.

Lemma stage_single_quoted :
  replace_g re_single_quoted (P2 ++ w ++ B2) = P2 ++ w ++ B2.
Proof.
  unfold replace_g.
  assert (Hprefix : forall R, replaceAll re_single_quoted 0 (P2 ++ R)
                              = P2 ++ replaceAll re_single_quoted 0 R)
    by (intros R; reflexivity).
  rewrite Hprefix, (replaceAll_untouched _ _ _ _ re_single_quoted_trigger)
    by (free not_colon).
  reflexivity.
Qed.

Lemma stage_newline :
  replace_g re_newline (P2 ++ w ++ B2) = P2 ++ w ++ B2.
Proof.
  apply (replace_g_untouched _ _ _ re_newline_trigger). free not_newline.
Qed.

Lemma stage_spaces :
  replace_g re_spaces (P2 ++ w ++ B2) = P2 ++ w ++ B2.
Proof.
  unfold replace_g.
  assert (Hprefix : forall R, replaceAll re_spaces 0 (P2 ++ R)
                              = P2 ++ replaceAll re_spaces 0 R)
    by (intros R; reflexivity).
  rewrite Hprefix, (replaceAll_untouched _ _ _ _ re_spaces_trigger)
    by (free word_not_space).
  reflexivity.
Qed.

Lemma repair_of_the_text : repair (P1 ++ w ++ B1) = P2 ++ w ++ B2.
Proof.
  unfold repair.
  rewrite stage_trailing_comma, stage_bare_key, stage_single_quoted, stage_newline,
    stage_spaces.
  apply trim_braced. exists (jlit "'note': 'first, '" ++ w ++ jlit "': second'").
  change (P2 ++ w ++ B2)
    with (lbrace :: jlit "'note': 'first, '" ++ w ++ jlit "': second'" ++ [rbrace]).
  now rewrite <- !app_assoc.
Qed.
End InsideStrings.

(** X4.  The repairs do not know the string literals of JSON: a comma, a word and
    a colon inside a string value are taken for a key without quotes, and
    the word is put between double quotes, which ends the string value
    early.  A valid answer such as the one below is changed into a text that
    is not JSON any more. *)
Theorem repair_rewrites_inside_strings (w : jsstring) :
  w <> [] -> Forall (fun c => is_word c = true) w ->
  extractAndCleanJSON (jlit "{'note': 'first, " ++ w ++ jlit ": second'}")
  = Ok (jlit "{'note': 'first, '" ++ w ++ jlit "': second'}").
Proof.
  intros Hne Hw.
  set (M := jlit "'note': 'first, " ++ w ++ jlit ": second'").
  assert (HT : jlit "{'note': 'first, " ++ w ++ jlit ": second'}"
               = [] ++ lbrace :: M ++ rbrace :: []).
  { subst M. cbn [app]. rewrite <- !app_assoc. reflexivity. }
  rewrite HT.
  rewrite (extractAndCleanJSON_framed _ _
             (framed_pair [] M [] ltac:(apply not_elem_of_nil)
                ltac:(apply not_elem_of_nil))).
  cbn [cleaned_of]. f_equal.
  rewrite (stage_fences M).
  2:{ subst M. eapply Forall_app. split; [decide_now|].
      eapply Forall_app. split; [|decide_now].
      eapply Forall_impl; [exact Hw|]. intros c Hc. now apply word_neq. }
  cbn [app] in HT. rewrite <- HT.
  exact (repair_of_the_text w Hne Hw).
Qed.

Lemma repair_rewrites_inside_strings_witness :
  JSON_parse (jlit "{'note': 'first, also: second'}")
  = Ok (JObj [(lit "note", JStr (lit "first, also: second"))])
  /\ extractAndCleanJSON (jlit "{'note': 'first, also: second'}")
     = Ok (jlit "{'note': 'first, 'also': second'}")
  /\ is_throw (sanitizeAndParse (jlit "{'note': 'first, also: second'}")) = true.
Proof.
  assert (Hc : extractAndCleanJSON (jlit "{'note': 'first, also: second'}")
               = Ok (jlit "{'note': 'first, 'also': second'}")).
  { refine (repair_rewrites_inside_strings (lit "also") _ _);
      [discriminate|repeat constructor]. }
  split; [vm_compute; reflexivity|]. split; [exact Hc|].
  unfold sanitizeAndParse. rewrite Hc. vm_compute. reflexivity.
Defined.

(** ** The comparison lists *)

(** X5.  Every required item is listed as matching or as missing and never as
    both. *)
Theorem required_items_are_partitioned (held required : option (list jsstring)) :
  list_to_set (matchingItems held required) ∪ list_to_set (missingItems held required)
  = as_set required
  /\ list_to_set (matchingItems held required) ∩ list_to_set (missingItems held required)
     = (∅ : gset jsstring).
Proof.
  rewrite matchingItems_set, missingItems_set.
  split; apply set_eq; intros x;
    rewrite ?elem_of_union, ?elem_of_intersection, ?elem_of_difference,
            ?elem_of_intersection, ?elem_of_empty;
    destruct (decide (x ∈ as_set held)); tauto.
Qed.

Lemma filter_by_test (p : jsstring -> bool) (P : jsstring -> Prop)
    `{forall x, Decision (P x)} (l : list jsstring) :
  (forall x, p x = true <-> P x) -> List.filter p l = filter P l.
Proof.
  intros Hp. induction l as [|x l IH]; [reflexivity|].
  cbn [List.filter]. destruct (p x) eqn:E.
  - rewrite filter_cons_True by now apply Hp. now rewrite IH.
  - rewrite filter_cons_False; [exact IH|]. intros HP. apply Hp in HP. congruence.
Qed.

Lemma matchingItems_filter held required :
  matchingItems held required
  = filter (fun x => x ∈ default [] required) (default [] held).
Proof.
  destruct held as [h|]; [|reflexivity]. cbn [matchingItems default].
  apply filter_by_test. intros x. destruct required as [r|]; cbn [default].
  - apply includes_elem.
  - rewrite elem_of_nil. split; [discriminate|tauto].
Qed.

Lemma missingItems_filter held required :
  missingItems held required
  = filter (fun x => x ∉ default [] held) (default [] required).
Proof.
  destruct required as [r|]; [|reflexivity]. cbn [missingItems default].
  apply filter_by_test. intros x. rewrite negb_true_iff.
  destruct held as [h|]; cbn [default]; cbv iota.
  - split.
    + intros Hx Hin. apply includes_elem in Hin. unfold id in Hin. congruence.
    + intros Hx. destruct (includes h x) eqn:E; [|reflexivity].
      exfalso. apply Hx. now apply includes_elem.
  - rewrite elem_of_nil. tauto.
Qed.

Lemma occurrences_filter (P : jsstring -> Prop) `{forall x, Decision (P x)}
    (x : jsstring) (l : list jsstring) :
  occurrences x (filter P l) = if decide (P x) then occurrences x l else 0%nat.
Proof.
  unfold occurrences. induction l as [|y l IH].
  - now destruct (decide (P x)).
  - destruct (decide (P y)) as [Py|Py].
    + rewrite (filter_cons_True P) by exact Py.
      destruct (decide (y = x)) as [->|Hne].
      * rewrite !(filter_cons_True (fun y => y = x)) by reflexivity.
        cbn [length]. rewrite IH. now destruct (decide (P x)).
      * rewrite !(filter_cons_False (fun y => y = x)) by exact Hne. exact IH.
    + rewrite (filter_cons_False P) by exact Py. rewrite IH.
      destruct (decide (y = x)) as [->|Hne].
      * now destruct (decide (P x)).
      * now rewrite (filter_cons_False (fun y => y = x)) by exact Hne.
Qed.

(** X6.  The matching items are exactly the items of the profile's list
    that the career path requires, in the profile's order and as often as
    the profile repeats them; the missing items are exactly the items of the
    career path's list that the profile does not hold, in the career path's
    order and as often as it repeats them.  A missing attribute counts as the
    empty list: a profile without it misses every required item, and a
    career path without it requires nothing. *)
Theorem comparison_lists_follow_their_source (held required : option (list jsstring)) :
  let h := default [] held in
  let r := default [] required in
  matchingItems held required = filter (fun x => x ∈ r) h
  /\ missingItems held required = filter (fun x => x ∉ h) r
  /\ (forall x, occurrences x (matchingItems held required)
                = if decide (x ∈ r) then occurrences x h else 0%nat)
  /\ (forall x, occurrences x (missingItems held required)
                = if decide (x ∈ h) then 0%nat else occurrences x r)
  /\ (held = None ->
      matchingItems held required = [] /\ missingItems held required = r)
  /\ (required = None ->
      matchingItems held required = [] /\ missingItems held required = []).
Proof.
  intros h r. subst h r.
  split; [apply matchingItems_filter|]. split; [apply missingItems_filter|].
  split; [|split; [|split]].
  - intros x. rewrite matchingItems_filter. apply occurrences_filter.
  - intros x. rewrite missingItems_filter, occurrences_filter.
    destruct (decide (x ∈ default [] held)); destruct (decide (x ∉ default [] held));
      tauto.
  - intros ->. rewrite matchingItems_filter, missingItems_filter. cbn [default].
    split; [reflexivity|].
    induction (default [] required) as [|x l IH]; [reflexivity|].
    rewrite filter_cons_True by apply not_elem_of_nil. now rewrite IH.
  - intros ->. rewrite matchingItems_filter, missingItems_filter. cbn [default].
    split; [|reflexivity].
    induction (default [] held) as [|x l IH]; [reflexivity|].
    rewrite filter_cons_False by apply not_elem_of_nil. exact IH.
Qed.

Lemma comparison_lists_follow_their_source_witness :
  let held := Some [lit "React"; lit "SQL"; lit "React"] in
  let required := Some [lit "Docker"; lit "React"; lit "Docker"] in
  matchingItems held required = [lit "React"; lit "React"]
  /\ missingItems held required = [lit "Docker"; lit "Docker"]
  /\ occurrences (lit "React") (matchingItems held required) = 2%nat
  /\ matchingItems None required = []
  /\ missingItems None required = [lit "Docker"; lit "React"; lit "Docker"].
Proof.
  intros held required.
  destruct (comparison_lists_follow_their_source held required)
    as (Hm & Hx & Hom & _ & _ & _).
  destruct (comparison_lists_follow_their_source None required)
    as (_ & _ & _ & _ & Hnone & _).
  split; [rewrite Hm; vm_compute; reflexivity|].
  split; [rewrite Hx; vm_compute; reflexivity|].
  split; [rewrite Hom; vm_compute; reflexivity|].
  exact (Hnone eq_refl).
Defined.

(** ** The checks on the request *)

Lemma tooLarge_length (fileData : jsstring) :
  tooLarge fileData = true <-> 6990507 <= Z.of_nat (length fileData).
Proof.
  unfold tooLarge, fileSizeBytes, maxSizeBytes, Qle_bool.
  rewrite negb_true_iff, Z.leb_gt. cbn [Qnum Qden inject_Z]. lia.
Qed.

Lemma substring_from_skipn (s : jsstring) (a : Z) :
  substring_from s a = skipn (Z.to_nat (Z.max 0 (Z.min a (Z.of_nat (length s))))) s.
Proof.
  unfold substring_from, substring. cbv zeta.
  set (len := Z.of_nat (length s)).
  set (a' := Z.max 0 (Z.min a len)).
  assert (Hb : Z.max 0 (Z.min len len) = len) by lia. rewrite Hb.
  assert (Ha : 0 <= a' <= len) by lia.
  rewrite Z.min_l, Z.max_r by lia.
  apply firstn_all2. rewrite length_skipn. lia.
Qed.

Lemma extension_is_suffix `{Host} (fileName : jsstring) :
  exists stem, toLowerCase fileName = stem ++ fileExtension fileName.
Proof.
  unfold fileExtension. rewrite substring_from_skipn.
  eexists. symmetry. apply firstn_skipn.
Qed.

Lemma allowed_cases (ext : jsstring) :
  includes allowedExtensions ext = true ->
  ext = lit ".pdf" \/ ext = lit ".jpg" \/ ext = lit ".jpeg" \/ ext = lit ".png"
  \/ ext = lit ".doc" \/ ext = lit ".docx".
Proof.
  intros Hin. apply includes_elem in Hin. unfold allowedExtensions in Hin.
  rewrite !elem_of_cons, elem_of_nil in Hin. tauto.
Qed.

Lemma lastIndexOf_suffix (X e : jsstring) :
  46%N ∉ e -> lastIndexOf 46 (X ++ 46%N :: e) = Z.of_nat (length X).
Proof.
  intros He. unfold lastIndexOf. rewrite lastIndexOf_from_app. cbn [lastIndexOf_from].
  rewrite N.eqb_refl. now rewrite lastIndexOf_from_notin.
Qed.

(** X7.  When lower-casing leaves the last dot of the name where it is, the
    extension check accepts exactly the names whose lower-cased form ends
    with one of the six extensions. *)
Theorem extension_check_is_a_suffix_test `{Host} (fileName : jsstring) :
  lastIndexOf 46 (toLowerCase fileName) = lastIndexOf 46 fileName ->
  (includes allowedExtensions (fileExtension fileName) = true
   <-> exists stem ext, ext ∈ allowedExtensions /\ toLowerCase fileName = stem ++ ext).
Proof.
  intros Hdot. split.
  - intros Hin. destruct (extension_is_suffix fileName) as [stem Hs].
    exists stem, (fileExtension fileName). split; [now apply includes_elem|exact Hs].
  - intros (stem & ext & Hext & Hs).
    assert (Hform : exists e, ext = 46%N :: e /\ 46%N ∉ e).
    { unfold allowedExtensions in Hext. rewrite !elem_of_cons, elem_of_nil in Hext.
      destruct Hext as [->|[->|[->|[->|[->|[->|[]]]]]]];
        (eexists; split; [reflexivity|]; decide_now). }
    destruct Hform as (e & -> & He).
    unfold fileExtension. rewrite <- Hdot, Hs, lastIndexOf_suffix by exact He.
    rewrite substring_from_skipn, length_app.
    replace (Z.to_nat _) with (length stem) by (cbn [length]; lia).
    rewrite drop_app_length. now apply includes_elem.
Qed.

Lemma extension_check_is_a_suffix_test_witness :
  includes allowedExtensions (fileExtension (lit "My.CV.PDF")) = true
  <-> exists stem ext, ext ∈ allowedExtensions /\ toLowerCase (lit "My.CV.PDF") = stem ++ ext.
Proof.
  apply (extension_check_is_a_suffix_test (lit "My.CV.PDF")). vm_compute. reflexivity.
Defined.

(** ** The media type *)

Lemma split_on_notin (c : N) (e : jsstring) : c ∉ e -> split_on c e = [e].
Proof.
  induction e as [|x e IH]; intros He; simpl; [reflexivity|].
  apply not_elem_of_cons in He as [Hx He].
  destruct (N.eqb_spec x c) as [->|_]; [congruence|]. now rewrite IH.
Qed.

Lemma split_on_app (c : N) (X R : jsstring) :
  exists L, L <> [] /\ split_on c (X ++ c :: R) = L ++ split_on c R.
Proof.
  induction X as [|x X (L & HL & IH)]; simpl.
  - rewrite N.eqb_refl. now exists [[]].
  - destruct (N.eqb x c).
    + exists ([] :: L). now rewrite IH.
    + rewrite IH. destruct L as [|w L]; [congruence|]. now exists ((x :: w) :: L).
Qed.

Lemma pop_split_suffix (X e : jsstring) :
  46%N ∉ e -> Media.pop (split_on 46 (X ++ 46%N :: e)) = e.
Proof.
  intros He. destruct (split_on_app 46 X e) as (L & _ & ->).
  rewrite (split_on_notin _ _ He). unfold Media.pop. apply last_last.
Qed.

Lemma pop_split_ext (stem ext e : jsstring) :
  ext = 46%N :: e -> 46%N ∉ e -> Media.pop (split_on 46 (stem ++ ext)) = e.
Proof. intros ->. apply pop_split_suffix. Qed.

Lemma endsWith_app (stem ext suffix : jsstring) :
  Media.endsWith (stem ++ ext) suffix
  = match strip_prefix (rev suffix) (rev ext ++ rev stem) with
    | Some _ => true
    | None => false
    end.
Proof. unfold Media.endsWith. now rewrite rev_app_distr. Qed.

(** X8.  In [src/main.js] and in the plain variant a file whose name passes the
    extension check is sent with the media type of its extension, never as
    a generic binary. *)
Theorem accepted_file_has_its_media_type `{Host} (fileName : jsstring) :
  includes allowedExtensions (fileExtension fileName) = true ->
  Media.mimeType fileName <> lit "application/octet-stream"
  /\ Media.mimeType fileName
     = (if jseq (fileExtension fileName) (lit ".pdf") then lit "application/pdf"
        else if jseq (fileExtension fileName) (lit ".png") then lit "image/png"
        else if jseq (fileExtension fileName) (lit ".doc") then lit "application/msword"
        else if jseq (fileExtension fileName) (lit ".docx")
        then lit "application/vnd.openxmlformats-officedocument.wordprocessingml.document"
        else lit "image/jpeg").
Proof.
  intros Hin. destruct (extension_is_suffix fileName) as [stem Hs].
  unfold Media.mimeType. cbv zeta. rewrite Hs.
  destruct (allowed_cases _ Hin) as [-> | [-> | [-> | [-> | [-> | ->]]]]];
    [rewrite (pop_split_ext stem (lit ".pdf") (lit "pdf") eq_refl) by decide_now
    |rewrite (pop_split_ext stem (lit ".jpg") (lit "jpg") eq_refl) by decide_now
    |rewrite (pop_split_ext stem (lit ".jpeg") (lit "jpeg") eq_refl) by decide_now
    |rewrite (pop_split_ext stem (lit ".png") (lit "png") eq_refl) by decide_now
    |rewrite (pop_split_ext stem (lit ".doc") (lit "doc") eq_refl) by decide_now
    |rewrite (pop_split_ext stem (lit ".docx") (lit "docx") eq_refl) by decide_now];
    split; vm_compute; congruence.
Qed.

Lemma accepted_file_has_its_media_type_witness :
  Media.mimeType (lit "Scan.JPG") <> lit "application/octet-stream"
  /\ Media.mimeType (lit "Scan.JPG") = lit "image/jpeg".
Proof.
  assert (Hin : includes allowedExtensions (fileExtension (lit "Scan.JPG")) = true)
    by (vm_compute; reflexivity).
  destruct (accepted_file_has_its_media_type (lit "Scan.JPG") Hin) as [H1 H2].
  split; [exact H1|]. rewrite H2. vm_compute. reflexivity.
Defined.

(** X9.  In the third variant a Word document, which the extension check
    accepts, is sent as a generic binary, and an image is sent with a type
    made of its extension as it was typed: [image/jpg] for a lower-case
    .jpg name, where [src/main.js] sends [image/jpeg]. *)
Theorem third_variant_media_types `{Host} (fileName : jsstring) :
  (fileExtension fileName = lit ".doc" \/ fileExtension fileName = lit ".docx" ->
   Media.mimeType001 fileName = lit "application/octet-stream")
  /\ (fileExtension fileName = lit ".pdf" ->
      Media.mimeType001 fileName = lit "application/pdf")
  /\ (fileExtension fileName = lit ".jpg" -> toLowerCase fileName = fileName ->
      Media.mimeType001 fileName = lit "image/jpg"
      /\ Media.mimeType fileName = lit "image/jpeg").
Proof.
  destruct (extension_is_suffix fileName) as [stem Hs].
  split; [|split].
  - intros He. unfold Media.mimeType001. rewrite Hs, !endsWith_app.
    destruct He as [-> | ->]; reflexivity.
  - intros He. unfold Media.mimeType001. rewrite Hs, !endsWith_app.
    rewrite He. reflexivity.
  - intros He Hlow. split.
    + unfold Media.mimeType001. rewrite Hs, !endsWith_app. rewrite He.
      cbn [rev app lit list_ascii_of_string List.map strip_prefix N_of_ascii N.eqb orb].
      rewrite <- Hlow, Hs, He.
      rewrite (pop_split_ext stem (lit ".jpg") (lit "jpg") eq_refl) by decide_now. reflexivity.
    + unfold Media.mimeType. cbv zeta. rewrite Hs, He.
      rewrite (pop_split_ext stem (lit ".jpg") (lit "jpg") eq_refl) by decide_now. reflexivity.
Qed.

Lemma third_variant_media_types_witness :
  Media.mimeType001 (lit "cv.docx") = lit "application/octet-stream"
  /\ Media.mimeType001 (lit "photo.jpg") = lit "image/jpg"
  /\ Media.mimeType (lit "photo.jpg") = lit "image/jpeg".
Proof.
  split.
  - apply (proj1 (third_variant_media_types (lit "cv.docx"))). right. vm_compute. reflexivity.
  - apply (proj2 (proj2 (third_variant_media_types (lit "photo.jpg"))));
      vm_compute; reflexivity.
Defined.

(** ** Every run of the handlers *)

Lemma failure_well_formed msg code :
  code = 400 \/ code = 404 \/ code = 500 -> well_formed (failure msg code).
Proof. intros Hc. split; [reflexivity|]. right. repeat split; eauto. Qed.

Lemma completed_well_formed talent careerPath fileName report flag :
  well_formed (completed talent careerPath fileName report flag).
Proof. split; [reflexivity|]. left. repeat split; eauto. Qed.

Lemma extraction_sufficient `{Host} env fileData fileName :
  is_throw (fst (run (extractTextFromCV env fileData fileName)))
  = negb (sufficient (generateFromFile env)).
Proof.
  unfold run, extractTextFromCV, sufficient. unfold_monad.
  destruct (generateFromFile env) as [text|m]; cbn [fst]; [|reflexivity].
  destruct (truthy (JStr text)); cbn [negb orb andb]; [|reflexivity].
  destruct (Z.ltb_spec (Z.of_nat (length (trim text))) 50);
    destruct (Z.leb_spec 50 (Z.of_nat (length (trim text)))); try lia; reflexivity.
Qed.

Lemma pipeline_early `{Host} env env' analyze analyze' fallback fallback' body :
  gemini_api_key env' = gemini_api_key env -> listDocuments env' = listDocuments env ->
  (early "Talent profile not found" env body (run (pipeline env analyze fallback body))
   /\ run (pipeline env' analyze' fallback' body) = run (pipeline env analyze fallback body))
  \/ exists talentId fileData fileName talent,
       body = BodyFields (Some talentId) (Some fileData) (Some fileName)
       /\ accepted env talentId fileData fileName talent
       /\ accepted env' talentId fileData fileName talent.
Proof.
  intros Ekey Edocs. unfold run, pipeline. unfold_monad. rewrite Ekey.
  destruct (gemini_api_key env) eqn:Hkey; cbn [negb];
    [|left; split; [apply early_refused; tauto|reflexivity]].
  destruct body as [| |[[|t0 tid]|] [[|d0 fd]|] [[|n0 fn]|]];
    try (left; split; [apply early_refused; tauto|reflexivity]).
  cbn [nonempty negb orb].
  destruct (includes allowedExtensions (fileExtension (n0 :: fn))) eqn:Hext; cbn [negb];
    [|left; split; [apply early_refused; tauto|reflexivity]].
  destruct (tooLarge (d0 :: fd)) eqn:Hsize;
    [left; split; [apply early_refused; tauto|reflexivity]|].
  unfold fetchTalent. unfold_monad. rewrite Edocs.
  destruct (listDocuments env (t0 :: tid)) as [[|talent others]|m] eqn:Hdocs;
    cbn [calls uploadedFileId st0 app].
  - left. split; [now apply early_not_found|reflexivity].
  - right. exists (t0 :: tid), (d0 :: fd), (n0 :: fn), talent.
    split; [reflexivity|].
    split; (split; try assumption; try discriminate; try congruence);
      exists others; congruence.
  - left. split; [apply early_store_error; now rewrite Hdocs|reflexivity].
Qed.

Lemma Part001_early `{Host} env env' body :
  listDocuments env' = listDocuments env ->
  (early "Talent not found" env body (run (Part001.handler env body))
   /\ run (Part001.handler env' body) = run (Part001.handler env body))
  \/ exists talentId fileData fileName talent,
       body = BodyFields (Some talentId) (Some fileData) (Some fileName)
       /\ accepted001 env talentId fileData fileName talent
       /\ accepted001 env' talentId fileData fileName talent.
Proof.
  intros Edocs. unfold run, Part001.handler. unfold_monad.
  destruct body as [| |[[|t0 tid]|] [[|d0 fd]|] [[|n0 fn]|]];
    try (left; split; [apply early_refused; tauto|reflexivity]).
  cbn [nonempty negb orb].
  destruct (includes allowedExtensions (fileExtension (n0 :: fn))) eqn:Hext; cbn [negb];
    [|left; split; [apply early_refused; tauto|reflexivity]].
  unfold fetchTalent. unfold_monad. rewrite Edocs.
  destruct (listDocuments env (t0 :: tid)) as [[|talent others]|m] eqn:Hdocs;
    cbn [calls uploadedFileId st0 app].
  - left. split; [now apply early_not_found|reflexivity].
  - right. exists (t0 :: tid), (d0 :: fd), (n0 :: fn), talent.
    split; [reflexivity|].
    split; (split; try assumption; try discriminate; try congruence);
      exists others; congruence.
  - left. split; [apply early_store_error; now rewrite Hdocs|reflexivity].
Qed.

Lemma early_well_formed notFound env body out :
  early notFound env body out -> exists response, fst out = Ok response /\ well_formed response.
Proof.
  intros [body' msg code Hc|tid fd fn Hd|tid fd fn Hd]; eexists; (split; [reflexivity|]);
    apply failure_well_formed; tauto.
Qed.

(** ** The calls of an accepted request *)

Section PipelineTrace.
Context `{Host} (env : Env) (talentId fileData fileName : jsstring) (talent : Profile).
Variable analyzeCVContent : jsstring -> Profile -> option CareerPath -> M JSValue.
Variable generateFallbackAnalysis : Profile -> option CareerPath -> result JSValue.
Variable analysed : jsstring -> result JSValue.
Hypothesis Hacc : accepted env talentId fileData fileName talent.
Hypothesis Heffect : forall cvText careerPath,
  effect (analyzeCVContent cvText talent careerPath) (analysed cvText) [CallGenerateFromText].

Lemma pipeline_calls :
  calls (snd (run (pipeline env analyzeCVContent generateFallbackAnalysis
                     (BodyFields (Some talentId) (Some fileData) (Some fileName)))))
  = trace env talentId talent
      (is_throw (aiOutcome env fileData fileName analysed)
       && is_throw (generateFallbackAnalysis talent (careerPathOf env talent))).
Proof.
  pose proof (extraction_sufficient env fileData fileName) as Hsuf.
  apply (f_equal negb) in Hsuf. rewrite negb_involutive in Hsuf.
  unfold trace. rewrite <- Hsuf. clear Hsuf.
  destruct Hacc as [Hkey Htid Hfd Hfn Hext Hsize (others & Hdocs)].
  unfold aiOutcome, pipeline, fetchTalent, fetchCareerPath, careerPathOf, analysisStep,
    aiPath, cleanup, path_calls, release_calls.
  unfold run at 1. unfold_monad.
  rewrite Hkey, Hext, Hsize.
  destruct talentId as [|t0 tid']; [congruence|].
  destruct fileData as [|d0 fd']; [congruence|].
  destruct fileName as [|n0 fn']; [congruence|].
  cbn [negb nonempty orb calls uploadedFileId st0].
  rewrite Hdocs.
  destruct (fst (run (extractTextFromCV env (d0 :: fd') (n0 :: fn')))) as [cv|m] eqn:Ex;
    cbn [rbind is_throw negb andb];
    [destruct (analysed cv) as [r|m] eqn:Ea|];
    destruct (selectedPath talent) as [[|p0 pid]|]; cbn [nonempty];
    try destruct (getDocument env _) as [cp|];
    destruct (generateFallbackAnalysis talent _) as [fb|fm] eqn:Hfb;
    destruct (createFile env) as [[|i0 id]|];
    cbn [fst snd calls uploadedFileId nonempty];
    rewrite extractTextFromCV_effect, Ex; cbn [fst snd calls uploadedFileId];
    rewrite ?Heffect, ?Ea; cbn [fst snd calls uploadedFileId]; rewrite ?Hfb;
    repeat (cbn [fst snd rbind is_throw calls uploadedFileId nonempty];
            match goal with
            | |- context [deleteFile env (?c :: ?i)] => destruct (deleteFile env (c :: i))
            end);
    reflexivity.
Qed.

Lemma pipeline_response :
  fst (run (pipeline env analyzeCVContent generateFallbackAnalysis
              (BodyFields (Some talentId) (Some fileData) (Some fileName))))
  = Ok (match aiOutcome env fileData fileName analysed with
        | Ok report => completed talent (careerPathOf env talent) fileName report false
        | Throw _ =>
            match generateFallbackAnalysis talent (careerPathOf env talent) with
            | Ok fallback =>
                completed talent (careerPathOf env talent) fileName fallback true
            | Throw _ => failure "Internal server error occurred during analysis" 500
            end
        end).
Proof.
  destruct (aiOutcome env fileData fileName analysed) as [report|m] eqn:Hai.
  - destruct (pipeline_ai_report env talentId fileData fileName talent analyzeCVContent
                generateFallbackAnalysis analysed Hacc Heffect report Hai) as (st & -> & _).
    reflexivity.
  - destruct (generateFallbackAnalysis talent (careerPathOf env talent)) as [fb|fm] eqn:Hfb.
    + destruct (pipeline_fallback_report env talentId fileData fileName talent
                  analyzeCVContent generateFallbackAnalysis analysed Hacc Heffect fb)
        as (st & -> & _); [now rewrite Hai|exact Hfb|reflexivity].
    + destruct (pipeline_fallback_crash env talentId fileData fileName talent
                  analyzeCVContent generateFallbackAnalysis analysed Hacc Heffect fm)
        as (st & -> & _); [now rewrite Hai|exact Hfb|reflexivity].
Qed.
End PipelineTrace.

Lemma Part000_analyze_effect `{Host} env cvText talent careerPath :
  effect (Part000.analyzeCVContent env cvText talent careerPath)
         (fst (run (Part000.analyzeCVContent env cvText talent careerPath)))
         [CallGenerateFromText].
Proof.
  intros st. unfold run, Part000.analyzeCVContent. unfold_monad.
  destruct (generateFromText env) as [text|m]; cbn [fst calls uploadedFileId st0]; [|reflexivity].
  destruct (sanitizeAndParse text) as [a|m]; [|reflexivity].
  destruct (Part000.validate a); reflexivity.
Qed.

Lemma Part001_calls `{Host} env talentId fileData fileName talent :
  accepted001 env talentId fileData fileName talent ->
  calls (snd (run (Part001.handler env
                     (BodyFields (Some talentId) (Some fileData) (Some fileName)))))
  = trace001 env talentId talent.
Proof.
  intros [Htid Hfd Hfn Hext (others & Hdocs)].
  unfold run, Part001.handler, fetchTalent, fetchCareerPath, Part001.analysisStep,
    Part001.aiPath, Part001.extractTextFromCV, cleanup, trace001, path_calls,
    release_calls, sufficient.
  unfold_monad.
  rewrite Hext, !nonempty_Some by assumption.
  cbn [negb orb calls uploadedFileId st0]. rewrite Hdocs.
  destruct (selectedPath talent) as [[|p0 pid]|]; cbn [nonempty];
    try destruct (getDocument env _) as [cp|];
    destruct (createFile env) as [[|i0 id]|];
    cbn [fst snd calls uploadedFileId nonempty is_throw];
    try destruct (generateFromFile env) as [text|m];
    cbn [fst snd calls uploadedFileId nonempty is_throw];
    try (destruct (truthy (JStr text)); cbn [negb orb andb];
         try (destruct (Z.ltb_spec (Z.of_nat (length (trim text))) 50);
              destruct (Z.leb_spec 50 (Z.of_nat (length (trim text)))); try lia));
    rewrite ?Part001_analyze_effect;
    repeat (cbn [fst snd calls uploadedFileId nonempty];
            match goal with
            | |- context [deleteFile env (?c :: ?i)] => destruct (deleteFile env (c :: i))
            | |- context [fst (run (Part001.analyzeCVContent ?e ?c ?t ?p))] =>
                destruct (fst (run (Part001.analyzeCVContent e c t p)))
            end);
    reflexivity.
Qed.

Lemma Main_effect `{Host} env talent cvText (careerPath : option CareerPath) :
  effect (Main.analyzeCVContent env cvText talent careerPath)
         (analysisOutcome (Main.analyzeCVContent env) talent cvText) [CallGenerateFromText].
Proof. intros st. exact (Main_analyze_effect env cvText talent careerPath st). Qed.

Lemma Part000_effect `{Host} env talent cvText (careerPath : option CareerPath) :
  effect (Part000.analyzeCVContent env cvText talent careerPath)
         (analysisOutcome (Part000.analyzeCVContent env) talent cvText) [CallGenerateFromText].
Proof. intros st. exact (Part000_analyze_effect env cvText talent careerPath st). Qed.

Lemma pipeline_well_formed `{Host} env analyze fallback analysed body :
  (forall talent cvText careerPath,
     effect (analyze cvText talent careerPath) (analysed talent cvText)
            [CallGenerateFromText]) ->
  exists response,
    fst (run (pipeline env analyze fallback body)) = Ok response
    /\ well_formed response
    /\ (statusCode response = 400 -> calls (snd (run (pipeline env analyze fallback body))) = [])
    /\ (statusCode response = 404 ->
        exists talentId,
          listDocuments env talentId = Ok []
          /\ calls (snd (run (pipeline env analyze fallback body)))
             = [CallListDocuments talentId]).
Proof.
  intros Heffect.
  destruct (pipeline_early env env analyze analyze fallback fallback body eq_refl eq_refl)
    as [[He _]|(tid & fd & fn & talent & -> & Hacc & _)].
  - destruct He as [body' msg code Hc|tid fd fn Hd|tid fd fn Hd]; eexists;
      (split; [reflexivity|]); (split; [apply failure_well_formed; tauto|]);
      cbn [failure statusCode snd calls]; split; intros Hs; try lia; try reflexivity;
      try (destruct Hc; lia).
    exists tid. now split.
  - rewrite (pipeline_response env tid fd fn talent analyze fallback (analysed talent) Hacc
               (Heffect talent)).
    destruct (aiOutcome env fd fn (analysed talent)) as [report|m];
      [|destruct (fallback talent (careerPathOf env talent)) as [fb|fm]];
      eexists; (split; [reflexivity|]);
      (split; [first [apply completed_well_formed|apply failure_well_formed; tauto]|]);
      cbn [failure completed statusCode]; split; intros Hs; lia.
Qed.

(** X10.  Every invocation of the three handlers answers a response and raises
    nothing; the response is a report with its metadata and status 200, or
    an error message with status 400, 404 or 500 and no report, and its
    HTTP status is the status written in its body. *)
Theorem every_run_answers_an_envelope `{Host} (env : Env) (body : Body) :
  (exists response, fst (run (Main.handler env body)) = Ok response /\ well_formed response)
  /\ (exists response,
        fst (run (Part000.handler env body)) = Ok response /\ well_formed response)
  /\ (exists response,
        fst (run (Part001.handler env body)) = Ok response /\ well_formed response).
Proof.
  split; [|split].
  - destruct (pipeline_well_formed env (Main.analyzeCVContent env)
                Main.generateFallbackAnalysis
                (fun talent => analysisOutcome (Main.analyzeCVContent env) talent) body
                (Main_effect env)) as (r & Hr & Hw & _).
    now exists r.
  - destruct (pipeline_well_formed env (Part000.analyzeCVContent env)
                (fun talent careerPath =>
                   Ok (Part000.generateFallbackAnalysis talent careerPath))
                (fun talent => analysisOutcome (Part000.analyzeCVContent env) talent) body
                (Part000_effect env)) as (r & Hr & Hw & _).
    now exists r.
  - destruct (Part001_early env env body eq_refl)
      as [[He _]|(tid & fd & fn & talent & -> & Hacc & _)].
    + exact (early_well_formed _ _ _ _ He).
    + destruct (Part001_run env tid fd fn talent Hacc) as (st & -> & _).
      destruct (aiOutcome001 env fd fn talent (careerPathOf env talent));
        eexists; (split; [reflexivity|apply completed_well_formed]).
Qed.

Lemma pipeline_quiet `{Host} env analyze fallback analysed body :
  (forall talent cvText careerPath,
     effect (analyze cvText talent careerPath) (analysed talent cvText)
            [CallGenerateFromText]) ->
  quiet_refusals env (run (pipeline env analyze fallback body)).
Proof.
  intros Heffect.
  destruct (pipeline_well_formed env analyze fallback analysed body Heffect)
    as (r & Hr & _ & H400 & H404).
  unfold quiet_refusals, statusOf, callsOf. rewrite Hr.
  split; intros [= _ Hs _]; auto.
Qed.

(** X11.  In the three handlers a response with status 400 is given before any
    call to a collaborator, and a response with status 404 after the query
    for the profile, which found no document, and no other call. *)
Theorem refusals_are_quiet `{Host} (env : Env) (body : Body) :
  quiet_refusals env (run (Main.handler env body))
  /\ quiet_refusals env (run (Part000.handler env body))
  /\ quiet_refusals env (run (Part001.handler env body)).
Proof.
  split; [|split].
  - exact (pipeline_quiet env _ _ _ body (Main_effect env)).
  - exact (pipeline_quiet env _ _ _ body (Part000_effect env)).
  - destruct (Part001_early env env body eq_refl)
      as [[He _]|(tid & fd & fn & talent & -> & Hacc & _)].
    + unfold quiet_refusals, statusOf, callsOf.
      destruct He as [body' msg code Hc|tid fd fn Hd|tid fd fn Hd];
        cbn [fst snd failure success statusCode httpStatus calls st0];
        split; intros Hs; try discriminate Hs; try reflexivity;
        try (injection Hs as Hs _; destruct Hc; lia).
      exists tid. now split.
    + unfold quiet_refusals, statusOf.
      destruct (Part001_run env tid fd fn talent Hacc) as (st & -> & _).
      destruct (aiOutcome001 env fd fn talent (careerPathOf env talent));
        cbn [fst completed success statusCode httpStatus]; split; intros [= ].
Qed.

Lemma refusals_are_quiet_witness :
  let env := {| gemini_api_key := true;
                listDocuments := fun _ => Ok [];
                getDocument := fun _ => Ok Ex.webdev;
                createFile := Ok (lit "file-1");
                deleteFile := fun _ => Ok tt;
                generateFromFile := Ok Ex.cvText;
                generateFromText := Ok (Ex.answer "85") |} in
  callsOf (run (Main.handler env (Ex.request "resume.exe"))) = []
  /\ exists talentId,
       listDocuments env talentId = Ok []
       /\ callsOf (run (Part001.handler env (Ex.request "cv.pdf")))
          = [CallListDocuments talentId].
Proof.
  intros env. split.
  - apply (proj1 (proj1 (refusals_are_quiet env (Ex.request "resume.exe")))).
    vm_compute. reflexivity.
  - apply (proj2 (proj2 (proj2 (refusals_are_quiet env (Ex.request "cv.pdf"))))).
    vm_compute. reflexivity.
Defined.

(** ** The order of the calls *)

(** X12.  An accepted request of [src/main.js] and of the plain variant makes
    its calls in one order: the query for the profile, the fetch of the
    selected career path, the staging of the file, the extraction, the
    analysis when the extracted text is sufficient, and the release of the
    staged file; [src/main.js] releases a second time when its fallback
    builder raises. *)
Theorem accepted_calls_in_order `{Host} (env : Env)
    (talentId fileData fileName : jsstring) (talent : Profile) :
  accepted env talentId fileData fileName talent ->
  let body := BodyFields (Some talentId) (Some fileData) (Some fileName) in
  callsOf (run (Main.handler env body))
  = trace env talentId talent
      (is_throw (aiOutcome env fileData fileName
                   (analysisOutcome (Main.analyzeCVContent env) talent))
       && is_throw (Main.generateFallbackAnalysis talent (careerPathOf env talent)))
  /\ callsOf (run (Part000.handler env body)) = trace env talentId talent false.
Proof.
  intros Hacc body. unfold callsOf, Main.handler, Part000.handler. split.
  - exact (pipeline_calls env talentId fileData fileName talent _ _ _ Hacc
             (Main_effect env talent)).
  - rewrite (pipeline_calls env talentId fileData fileName talent _ _ _ Hacc
               (Part000_effect env talent)).
    cbn [is_throw]. now rewrite andb_false_r.
Qed.

Lemma accepted_calls_in_order_witness :
  let env := Ex.env Ex.alice (Ok (lit "file-1")) (Ok Ex.cvText) (Ok (Ex.answer "85")) in
  accepted env (lit "t1") (lit "JVBERi0xLjQK") (lit "cv.pdf") Ex.alice
  /\ callsOf (run (Part000.handler env (Ex.request "cv.pdf")))
     = [CallListDocuments (lit "t1"); CallCreateFile; CallGenerateFromFile;
        CallGenerateFromText; CallDeleteFile (lit "file-1")].
Proof.
  intros env.
  assert (Hacc : accepted env (lit "t1") (lit "JVBERi0xLjQK") (lit "cv.pdf") Ex.alice).
  { split; try discriminate; try (vm_compute; reflexivity). now exists []. }
  split; [exact Hacc|].
  etransitivity;
    [exact (proj2 (accepted_calls_in_order env _ _ _ _ Hacc))|vm_compute; reflexivity].
Defined.

(** X13.  An accepted request of the third variant makes its calls in one
    order: the query for the profile, the fetch of the selected career path,
    the staging, then (only when the staging succeeded) the extraction and
    (only when the extracted text is sufficient) the analysis, and the
    release of the staged file. *)
Theorem third_variant_calls_in_order `{Host} (env : Env)
    (talentId fileData fileName : jsstring) (talent : Profile) :
  accepted001 env talentId fileData fileName talent ->
  callsOf (run (Part001.handler env
                  (BodyFields (Some talentId) (Some fileData) (Some fileName))))
  = trace001 env talentId talent.
Proof. intros Hacc. unfold callsOf. now apply Part001_calls. Qed.

Lemma third_variant_calls_in_order_witness :
  let env := Ex.env Ex.alice (Throw (lit "storage unavailable")) (Ok Ex.cvText)
                    (Ok (Ex.answer "85")) in
  accepted001 env (lit "t1") (lit "JVBERi0xLjQK") (lit "cv.pdf") Ex.alice
  /\ callsOf (run (Part001.handler env (Ex.request "cv.pdf")))
     = [CallListDocuments (lit "t1"); CallCreateFile].
Proof.
  intros env.
  assert (Hacc : accepted001 env (lit "t1") (lit "JVBERi0xLjQK") (lit "cv.pdf") Ex.alice).
  { split; try discriminate; try (vm_compute; reflexivity). now exists []. }
  split; [exact Hacc|].
  etransitivity;
    [exact (third_variant_calls_in_order env _ _ _ _ Hacc)|vm_compute; reflexivity].
Defined.

(** ** The release of the staged file *)

(** X14.  Whatever [storage.deleteFile] answers, and for every request, the three
    handlers give the same response and make the same calls: a failed
    release is never reported. *)
Theorem release_outcome_never_shows `{Host} (env : Env)
    (outcome : jsstring -> result unit) (body : Body) :
  let env' := with_deleteFile env outcome in
  (fst (run (Main.handler env' body)) = fst (run (Main.handler env body))
   /\ callsOf (run (Main.handler env' body)) = callsOf (run (Main.handler env body)))
  /\ (fst (run (Part000.handler env' body)) = fst (run (Part000.handler env body))
      /\ callsOf (run (Part000.handler env' body)) = callsOf (run (Part000.handler env body)))
  /\ (fst (run (Part001.handler env' body)) = fst (run (Part001.handler env body))
      /\ callsOf (run (Part001.handler env' body))
         = callsOf (run (Part001.handler env body))).
Proof.
  intros env'. unfold callsOf, Main.handler, Part000.handler. split; [|split].
  - destruct (pipeline_early env env' (Main.analyzeCVContent env)
                (Main.analyzeCVContent env') Main.generateFallbackAnalysis
                Main.generateFallbackAnalysis body eq_refl eq_refl)
      as [[_ ->]|(tid & fd & fn & talent & -> & Hacc & Hacc')]; [now split|].
    rewrite (pipeline_response env tid fd fn talent _ _ _ Hacc (Main_effect env talent)),
      (pipeline_response env' tid fd fn talent _ _ _ Hacc' (Main_effect env' talent)),
      (pipeline_calls env tid fd fn talent _ _ _ Hacc (Main_effect env talent)),
      (pipeline_calls env' tid fd fn talent _ _ _ Hacc' (Main_effect env' talent)).
    split; reflexivity.
  - destruct (pipeline_early env env' (Part000.analyzeCVContent env)
                (Part000.analyzeCVContent env')
                (fun talent careerPath =>
                   Ok (Part000.generateFallbackAnalysis talent careerPath))
                (fun talent careerPath =>
                   Ok (Part000.generateFallbackAnalysis talent careerPath))
                body eq_refl eq_refl)
      as [[_ ->]|(tid & fd & fn & talent & -> & Hacc & Hacc')]; [now split|].
    rewrite (pipeline_response env tid fd fn talent _ _ _ Hacc (Part000_effect env talent)),
      (pipeline_response env' tid fd fn talent _ _ _ Hacc' (Part000_effect env' talent)),
      (pipeline_calls env tid fd fn talent _ _ _ Hacc (Part000_effect env talent)),
      (pipeline_calls env' tid fd fn talent _ _ _ Hacc' (Part000_effect env' talent)).
    split; reflexivity.
  - destruct (Part001_early env env' body eq_refl)
      as [[_ ->]|(tid & fd & fn & talent & -> & Hacc & Hacc')]; [now split|].
    rewrite (Part001_calls env tid fd fn talent Hacc),
      (Part001_calls env' tid fd fn talent Hacc').
    destruct (Part001_run env tid fd fn talent Hacc) as (st & -> & _).
    destruct (Part001_run env' tid fd fn talent Hacc') as (st' & -> & _).
    split; reflexivity.
Qed.

(** ** The career path *)

Lemma accepted_accepted001 `{Host} env talentId fileData fileName talent :
  accepted env talentId fileData fileName talent ->
  accepted001 env talentId fileData fileName talent.
Proof. intros [? ? ? ? ? ? ?]. now split. Qed.

Lemma fetches_trace env talentId talent crash :
  fetches (trace env talentId talent crash) = length (path_calls talent).
Proof.
  unfold trace, path_calls, release_calls.
  destruct (selectedPath talent) as [[|p0 pid]|];
    destruct (sufficient (generateFromFile env));
    destruct (createFile env) as [[|i0 id]|]; destruct crash; reflexivity.
Qed.

Lemma fetches_trace001 env talentId talent :
  fetches (trace001 env talentId talent) = length (path_calls talent).
Proof.
  unfold trace001, path_calls, release_calls.
  destruct (selectedPath talent) as [[|p0 pid]|];
    destruct (sufficient (generateFromFile env));
    destruct (createFile env) as [[|i0 id]|]; reflexivity.
Qed.

(** X15.  When the fetch of the selected career path fails, the request is
    answered as if the profile had selected none: the response is the one
    computed with no career path (the report of the model analysed without a
    target, or the fallback report built without a target, and metadata that
    names no career path), the fetch is attempted exactly once, and the calls
    are those of any accepted request. *)
Theorem failed_path_fetch_is_not_fatal `{Host} (env : Env)
    (talentId fileData fileName id : jsstring) (talent : Profile) :
  accepted env talentId fileData fileName talent ->
  selectedPath talent = Some id -> id <> [] -> is_throw (getDocument env id) = true ->
  let body := BodyFields (Some talentId) (Some fileData) (Some fileName) in
  let once (out : result Response * St) :=
    fetches (callsOf out) = 1%nat /\ CallGetDocument id ∈ callsOf out in
  (fst (run (Main.handler env body))
   = Ok (response_of talent None fileName
           (aiOutcome env fileData fileName
              (analysisOutcome (Main.analyzeCVContent env) talent))
           (Main.generateFallbackAnalysis talent None))
   /\ once (run (Main.handler env body)))
  /\ (fst (run (Part000.handler env body))
      = Ok (response_of talent None fileName
              (aiOutcome env fileData fileName
                 (analysisOutcome (Part000.analyzeCVContent env) talent))
              (Ok (Part000.generateFallbackAnalysis talent None)))
      /\ once (run (Part000.handler env body)))
  /\ (fst (run (Part001.handler env body))
      = Ok (response_of talent None fileName
              (aiOutcome001 env fileData fileName talent None)
              (Ok (Part001.generateFallbackAnalysis talent None)))
      /\ once (run (Part001.handler env body))).
Proof.
  intros Hacc Hsel Hid Hget body once. subst body once. cbv beta.
  assert (Hcp : careerPathOf env talent = None).
  { unfold careerPathOf. rewrite Hsel. destruct id as [|c id']; [congruence|].
    now destruct (getDocument env (c :: id')). }
  assert (Hpc : path_calls talent = [CallGetDocument id]).
  { unfold path_calls. rewrite Hsel. destruct id; [congruence|reflexivity]. }
  unfold callsOf, Main.handler, Part000.handler, response_of. split; [|split].
  - rewrite (pipeline_response env talentId fileData fileName talent _ _ _ Hacc
               (Main_effect env talent)),
      (pipeline_calls env talentId fileData fileName talent _ _ _ Hacc
         (Main_effect env talent)).
    rewrite Hcp, fetches_trace, Hpc. split; [reflexivity|]. split; [reflexivity|].
    unfold trace. rewrite Hpc, elem_of_cons. right. now left.
  - rewrite (pipeline_response env talentId fileData fileName talent _ _ _ Hacc
               (Part000_effect env talent)),
      (pipeline_calls env talentId fileData fileName talent _ _ _ Hacc
         (Part000_effect env talent)).
    rewrite Hcp, fetches_trace, Hpc. split; [reflexivity|]. split; [reflexivity|].
    unfold trace. rewrite Hpc, elem_of_cons. right. now left.
  - pose proof (accepted_accepted001 _ _ _ _ _ Hacc) as Hacc1.
    rewrite (Part001_calls env talentId fileData fileName talent Hacc1).
    destruct (Part001_run env talentId fileData fileName talent Hacc1) as (st & -> & _).
    rewrite Hcp, fetches_trace001, Hpc. cbn [fst].
    split; [now destruct (aiOutcome001 env fileData fileName talent None)|].
    split; [reflexivity|].
    unfold trace001. rewrite Hpc, elem_of_cons. right. now left.
Qed.

Lemma failed_path_fetch_is_not_fatal_witness :
  let talent :=
    {| talent_id := lit "doc-1"; fullname := lit "Alice Example";
       careerStage := lit "Trailblazer"; skills := Some [lit "React"; lit "SQL"];
       degrees := None; certifications := None; interests := None;
       selectedPath := Some (lit "path-1") |} in
  let env :=
    {| gemini_api_key := true;
       listDocuments := fun _ => Ok [talent];
       getDocument := fun _ => Throw (lit "document not found");
       createFile := Ok (lit "file-1");
       deleteFile := fun _ => Ok tt;
       generateFromFile := Throw (lit "model unavailable");
       generateFromText := Ok (Ex.answer "85") |} in
  let out := run (Part000.handler env (Ex.request "cv.pdf")) in
  accepted env (lit "t1") (lit "JVBERi0xLjQK") (lit "cv.pdf") talent
  /\ fst out = Ok (completed talent None (lit "cv.pdf")
                     (Part000.generateFallbackAnalysis talent None) true)
  /\ fetches (callsOf out) = 1%nat
  /\ CallGetDocument (lit "path-1") ∈ callsOf out.
Proof.
  intros talent env out.
  assert (Hacc : accepted env (lit "t1") (lit "JVBERi0xLjQK") (lit "cv.pdf") talent).
  { split; try discriminate; try (vm_compute; reflexivity). now exists []. }
  split; [exact Hacc|].
  destruct (failed_path_fetch_is_not_fatal env _ _ _ (lit "path-1") talent Hacc
              eq_refl ltac:(discriminate) eq_refl) as (_ & (Hr & Hf & Hin) & _).
  split; [exact Hr|]. split; [exact Hf|exact Hin].
Defined.

(** ** Accepted requests of the plain and of the third variant *)

Lemma releases_trace env talentId talent :
  releases (trace env talentId talent false) = staged env.
Proof.
  unfold trace, path_calls, release_calls, staged.
  destruct (selectedPath talent) as [[|p0 pid]|];
    destruct (sufficient (generateFromFile env));
    destruct (createFile env) as [[|i0 id]|]; reflexivity.
Qed.

(** X16.  The plain variant and the third variant answer every accepted request
    with status 200 and a report; [usedFallback] tells whether the AI path
    failed, and the staged file is released exactly once when the staging
    gave a handle, and never otherwise. *)
Theorem accepted_request_is_always_reported `{Host} (env : Env)
    (talentId fileData fileName : jsstring) (talent : Profile) :
  let body := BodyFields (Some talentId) (Some fileData) (Some fileName) in
  (accepted env talentId fileData fileName talent ->
   let out := run (Part000.handler env body) in
   statusOf out = Some (true, 200, 200)
   /\ usedFallbackOf out
      = Some (is_throw (aiOutcome env fileData fileName
                          (analysisOutcome (Part000.analyzeCVContent env) talent)))
   /\ releases (callsOf out) = staged env)
  /\ (accepted001 env talentId fileData fileName talent ->
      let out := run (Part001.handler env body) in
      statusOf out = Some (true, 200, 200)
      /\ usedFallbackOf out
         = Some (is_throw (aiOutcome001 env fileData fileName talent
                             (careerPathOf env talent)))
      /\ releases (callsOf out) = staged env).
Proof.
  intros body. subst body. split.
  - intros Hacc out. subst out. unfold statusOf, usedFallbackOf, callsOf, Part000.handler.
    rewrite (pipeline_response env talentId fileData fileName talent _ _ _ Hacc
               (Part000_effect env talent)),
      (pipeline_calls env talentId fileData fileName talent _ _ _ Hacc
         (Part000_effect env talent)).
    cbn [is_throw]. rewrite andb_false_r, releases_trace.
    now destruct (aiOutcome env fileData fileName _).
  - intros Hacc out. subst out. unfold statusOf, usedFallbackOf, callsOf.
    destruct (Part001_run env talentId fileData fileName talent Hacc) as (st & -> & Hrel & _).
    cbn [fst snd]. split; [|split; [|exact Hrel]];
      now destruct (aiOutcome001 env fileData fileName talent (careerPathOf env talent)).
Qed.

Lemma accepted_request_is_always_reported_witness :
  let env := Ex.env Ex.alice (Ok (lit "file-1")) (Throw (lit "model unavailable"))
                    (Ok (Ex.answer "85")) in
  let out := run (Part000.handler env (Ex.request "cv.pdf")) in
  accepted env (lit "t1") (lit "JVBERi0xLjQK") (lit "cv.pdf") Ex.alice
  /\ statusOf out = Some (true, 200, 200)
  /\ usedFallbackOf out = Some true
  /\ releases (callsOf out) = 1%nat.
Proof.
  intros env out.
  assert (Hacc : accepted env (lit "t1") (lit "JVBERi0xLjQK") (lit "cv.pdf") Ex.alice).
  { split; try discriminate; try (vm_compute; reflexivity). now exists []. }
  split; [exact Hacc|].
  destruct (proj1 (accepted_request_is_always_reported env _ _ _ _) Hacc)
    as (H1 & H2 & H3).
  split; [exact H1|]. split; [exact H2|exact H3].
Defined.

(** ** The misspelled field of the third variant *)

Lemma Part001_aiPath_fails `{Host} env talent careerPath fileData fileName :
  (forall cvText,
     is_throw (fst (run (Part001.analyzeCVContent env cvText talent careerPath))) = true) ->
  is_throw (aiOutcome001 env fileData fileName talent careerPath) = true.
Proof.
  intros Hfail. unfold aiOutcome001, run, Part001.aiPath, Part001.extractTextFromCV.
  unfold_monad.
  destruct (createFile env) as [id|m]; cbn [fst snd]; [|reflexivity].
  destruct (generateFromFile env) as [text|m]; cbn [fst snd]; [|reflexivity].
  destruct (negb (truthy (JStr text)) || (Z.of_nat (length (trim text)) <? 50));
    [reflexivity|].
  rewrite Part001_analyze_effect. cbn [fst]. apply Hfail.
Qed.

(** X17.  The third variant accepts a parsed answer only when it carries a truthy
    field under the misspelled name [profileVsCvGPs], and then returns it
    untouched; an answer without that field, whatever else it holds, is
    replaced by the fallback report. *)
Theorem third_variant_needs_the_misspelled_field `{Host} (env : Env)
    (talentId fileData fileName : jsstring) (talent : Profile) :
  (forall analysis report,
     Part001.validate analysis = Ok report ->
     report = analysis /\ truthy (get analysis (lit "profileVsCvGPs")) = true)
  /\ (forall text analysis,
        accepted001 env talentId fileData fileName talent ->
        generateFromText env = Ok text -> sanitizeAndParse text = Ok analysis ->
        get analysis (lit "profileVsCvGPs") = JUndefined ->
        fst (run (Part001.handler env
                    (BodyFields (Some talentId) (Some fileData) (Some fileName))))
        = Ok (completed talent (careerPathOf env talent) fileName
                (Part001.generateFallbackAnalysis talent (careerPathOf env talent)) true)).
Proof.
  split.
  - intros analysis report Hv. unfold Part001.validate in Hv.
    destruct (checkRequired _ Part001.requiredFields analysis) as [[]|m] eqn:Hc;
      [|discriminate Hv].
    injection Hv as <-. split; [reflexivity|].
    destruct (truthy (get analysis (lit "profileVsCvGPs"))) eqn:Ht; [reflexivity|].
    assert (Hin : lit "profileVsCvGPs" ∈ Part001.requiredFields) by decide_now.
    pose proof (checkRequired_missing (lit "Missing required field: ") _ _ _ Hin Ht) as Hm.
    rewrite Hc in Hm. discriminate Hm.
  - intros text analysis Hacc Htext Hparse Hget.
    destruct (Part001_run env talentId fileData fileName talent Hacc) as (st & -> & _).
    cbn [fst].
    assert (Hfail : is_throw (aiOutcome001 env fileData fileName talent
                                (careerPathOf env talent)) = true).
    { apply Part001_aiPath_fails. intros cvText.
      destruct (Part001_analysis_contract env cvText talent (careerPathOf env talent))
        as (_ & _ & Hmissing & _).
      apply (Hmissing text analysis (lit "profileVsCvGPs") Htext Hparse);
        [decide_now|exact Hget]. }
    now destruct (aiOutcome001 env fileData fileName talent (careerPathOf env talent)).
Qed.

Lemma third_variant_needs_the_misspelled_field_witness :
  let env := Ex.env Ex.alice (Ok (lit "file-1")) (Ok Ex.cvText)
                    (Ok Ex.answerWithoutAlignment) in
  accepted001 env (lit "t1") (lit "JVBERi0xLjQK") (lit "cv.pdf") Ex.alice
  /\ fst (run (Part001.handler env (Ex.request "cv.pdf")))
     = Ok (completed Ex.alice None (lit "cv.pdf")
             (Part001.generateFallbackAnalysis Ex.alice None) true).
Proof.
  intros env.
  assert (Hacc : accepted001 env (lit "t1") (lit "JVBERi0xLjQK") (lit "cv.pdf") Ex.alice).
  { split; try discriminate; try (vm_compute; reflexivity). now exists []. }
  split; [exact Hacc|].
  refine (proj2 (third_variant_needs_the_misspelled_field env _ _ _ Ex.alice)
            Ex.answerWithoutAlignment
            (match sanitizeAndParse Ex.answerWithoutAlignment with
             | Ok v => v
             | Throw _ => JUndefined
             end) Hacc eq_refl _ _); vm_compute; reflexivity.
Defined.

(** ** The fallback report against the validation of the model's report *)

(** X18.  The fallback report of [src/main.js] and of the plain variant satisfies
    the checks their analysis stage makes on the report of the model and is
    left unchanged by the clamping; the fallback report of the third variant
    does not pass the check of the third variant. *)
Theorem fallback_report_passes_the_validation `{Host} (talent : Profile)
    (careerPath : option CareerPath) :
  (plain_stage talent ->
   exists fallback,
     Main.generateFallbackAnalysis talent careerPath = Ok fallback
     /\ Main.validate fallback = Ok fallback)
  /\ Part000.validate (Part000.generateFallbackAnalysis talent careerPath)
     = Ok (Part000.generateFallbackAnalysis talent careerPath)
  /\ Part001.validate (Part001.generateFallbackAnalysis talent careerPath)
     = Throw (lit "Missing required field: profileVsCvGPs").
Proof.
  split; [|split].
  - unfold plain_stage, Main.generateFallbackAnalysis, Main.stageContentFor.
    intros Hp.
    destruct (jseq (careerStage talent) (lit "Pathfinder"));
      [|destruct (jseq (careerStage talent) (lit "Trailblazer"));
        [|destruct (jseq (careerStage talent) (lit "Horizon Changer"));
          [|destruct (includes Main.object_prototype_keys (careerStage talent));
            [congruence|]]]];
      eexists; (split; [reflexivity|]); destruct careerPath; vm_compute; reflexivity.
  - destruct careerPath; vm_compute; reflexivity.
  - destruct careerPath; vm_compute; reflexivity.
Qed.

Lemma fallback_report_passes_the_validation_witness :
  plain_stage Ex.alice
  /\ exists fallback,
       Main.generateFallbackAnalysis Ex.alice (Some Ex.webdev) = Ok fallback
       /\ Main.validate fallback = Ok fallback.
Proof.
  assert (Hp : plain_stage Ex.alice) by (vm_compute; discriminate).
  split; [exact Hp|].
  exact (proj1 (fallback_report_passes_the_validation Ex.alice (Some Ex.webdev)) Hp).
Defined.

(** ** Scores below zero *)


Lemma set_get_same v k x : (exists fs, v = JObj fs) -> get (set v k x) k = x.
Proof. intros [fs ->]. apply assoc_get_set_same. Qed.




(** ** The size limit *)

(** X20.  In [src/main.js] and in the plain variant a request that passes the
    other checks is refused for its size, with status 400, exactly when its
    payload has 6 990 507 characters or more. *)
Theorem size_limit_in_characters `{Host} (env : Env)
    (talentId fileData fileName : jsstring) :
  gemini_api_key env = true -> talentId <> [] -> fileData <> [] -> fileName <> [] ->
  includes allowedExtensions (fileExtension fileName) = true ->
  let body := BodyFields (Some talentId) (Some fileData) (Some fileName) in
  (statusOf (run (Main.handler env body)) = Some (false, 400, 400)
   <-> 6990507 <= Z.of_nat (length fileData))
  /\ (statusOf (run (Part000.handler env body)) = Some (false, 400, 400)
      <-> 6990507 <= Z.of_nat (length fileData)).
Proof.
  intros Hkey Htid Hfd Hfn Hext body. subst body.
  rewrite <- tooLarge_length.
  assert (Hgen : forall analyze fallback analysed,
    (forall talent cvText careerPath,
       effect (analyze cvText talent careerPath) (analysed talent cvText)
              [CallGenerateFromText]) ->
    statusOf (run (pipeline env analyze fallback
                     (BodyFields (Some talentId) (Some fileData) (Some fileName))))
    = Some (false, 400, 400) <-> tooLarge fileData = true).
  { intros analyze fallback analysed Heffect.
    destruct (tooLarge fileData) eqn:Hsize.
    - split; [reflexivity|intros _].
      unfold statusOf, run, pipeline. unfold_monad.
      rewrite Hkey, Hext, Hsize, !nonempty_Some by assumption. reflexivity.
    - split; [|discriminate]. intros Hstatus. exfalso.
      destruct (listDocuments env talentId) as [[|talent others]|m] eqn:Hdocs.
      + revert Hstatus. unfold statusOf, run, pipeline, fetchTalent. unfold_monad.
        rewrite Hkey, Hext, Hsize, !nonempty_Some by assumption.
        cbn [negb orb]. rewrite Hdocs. discriminate.
      + assert (Hacc : accepted env talentId fileData fileName talent)
          by (split; try assumption; now exists others).
        revert Hstatus. unfold statusOf.
        rewrite (pipeline_response env talentId fileData fileName talent analyze fallback
                   (analysed talent) Hacc (Heffect talent)).
        destruct (aiOutcome env fileData fileName (analysed talent));
          [|destruct (fallback talent (careerPathOf env talent))]; discriminate.
      + revert Hstatus. unfold statusOf, run, pipeline, fetchTalent. unfold_monad.
        rewrite Hkey, Hext, Hsize, !nonempty_Some by assumption.
        cbn [negb orb]. rewrite Hdocs. discriminate. }
  split.
  - exact (Hgen _ _ _ (Main_effect env)).
  - exact (Hgen _ _ _ (Part000_effect env)).
Qed.

Lemma size_limit_in_characters_witness :
  let env := Ex.env Ex.alice (Ok (lit "file-1")) (Ok Ex.cvText) (Ok (Ex.answer "85")) in
  statusOf (run (Main.handler env
                   (BodyFields (Some (lit "t1")) (Some Ex.bigData) (Some (lit "cv.pdf")))))
  = Some (false, 400, 400).
Proof.
  intros env.
  apply (proj1 (size_limit_in_characters env (lit "t1") Ex.bigData (lit "cv.pdf")
                  eq_refl ltac:(discriminate) bigData_nonempty ltac:(discriminate)
                  ltac:(vm_compute; reflexivity))).
  rewrite bigData_length. lia.
Defined.

(** ** What the clamping of [src/main.js] leaves behind *)

Section Roots.
Context `{Host}.

Lemma clampAt_last_truthy key v :
  truthy v = true ->
  exists v', Main.clampAt [key] (Fin 0) (Fin 100) v = Ok v' /\ truthy v' = true
             /\ (v = JObj [] -> v' = JObj []).
Proof.
  intros Hv.
  assert (Hstep : Main.clampAt [key] (Fin 0) (Fin 100) v
                  = match get v key with
                    | JUndefined => Ok v
                    | x => Ok (set v key
                           (JNum (Math_max (Fin 0) (Math_min (Fin 100) (ToNumber x)))))
                    end)
    by (destruct v; try discriminate; reflexivity).
  rewrite Hstep. clear Hstep.
  destruct v as [| | | | | |fs]; try discriminate Hv;
    try (exists v; cbn [get]; repeat split; try assumption; discriminate);
    cbn [get].
  - eexists. cbn [get]. split; [reflexivity|]. split; [exact Hv|discriminate].
  - eexists. cbn [get]. split; [reflexivity|]. split; [exact Hv|discriminate].
  - eexists. cbn [get]. split; [reflexivity|]. split; [exact Hv|discriminate].
  - eexists. cbn [get]. split; [reflexivity|]. split; [exact Hv|discriminate].
  - destruct (assoc_get key fs) eqn:E;
      (eexists; split; [reflexivity|]; split; [reflexivity|]);
      intros [= ->]; try discriminate E; reflexivity.
Qed.

Lemma clampAt_nested_root key1 key2 fs :
  exists fs', Main.clampAt [key1; key2] (Fin 0) (Fin 100) (JObj fs) = Ok (JObj fs') /\
    truthy (assoc_get key1 fs') = true /\
    (truthy (assoc_get key1 fs) = false -> assoc_get key1 fs' = JObj []) /\
    (forall k', k' <> key1 -> assoc_get k' fs' = assoc_get k' fs).
Proof.
  set (obj1 := if negb (truthy (get (JObj fs) key1))
               then set (JObj fs) key1 (JObj []) else JObj fs).
  assert (Hstep : Main.clampAt [key1; key2] (Fin 0) (Fin 100) (JObj fs)
                  = rbind (Main.clampAt [key2] (Fin 0) (Fin 100) (get obj1 key1))
                          (fun child => Ok (set obj1 key1 child))) by reflexivity.
  rewrite Hstep. clear Hstep.
  assert (Hobj1 : exists fs1, obj1 = JObj fs1 /\
            truthy (assoc_get key1 fs1) = true /\
            (truthy (assoc_get key1 fs) = false -> assoc_get key1 fs1 = JObj []) /\
            (forall k', k' <> key1 -> assoc_get k' fs1 = assoc_get k' fs)).
  { unfold obj1. simpl. destruct (truthy (assoc_get key1 fs)) eqn:Et; simpl.
    - exists fs. repeat split; [exact Et|discriminate].
    - eexists. split; [reflexivity|]. rewrite assoc_get_set_same.
      repeat split. intros. now apply assoc_get_set_other. }
  destruct Hobj1 as (fs1 & -> & Ht & Hempty & Hframe).
  change (get (JObj fs1) key1) with (assoc_get key1 fs1).
  destruct (clampAt_last_truthy key2 _ Ht) as (child & -> & Hc & He).
  simpl. eexists. split; [reflexivity|].
  rewrite assoc_get_set_same. split; [exact Hc|]. split.
  - intros Hf. apply He. now apply Hempty.
  - intros k' Hk. rewrite assoc_get_set_other by assumption. now apply Hframe.
Qed.

Lemma clampScores_roots fs :
  exists fs', Main.clampScores Main.scoreFields (JObj fs) = Ok (JObj fs') /\
    truthy (assoc_get (lit "careerPathAlignment") fs') = true /\
    (truthy (assoc_get (lit "careerPathAlignment") fs) = false ->
     assoc_get (lit "careerPathAlignment") fs' = JObj []) /\
    (forall key, key ∉ [lit "overallScore"; lit "careerStageAlignment";
                        lit "careerPathAlignment"; lit "marketability"] ->
                 assoc_get key fs' = assoc_get key fs).
Proof.
  assert (Hs : Main.clampScores Main.scoreFields (JObj fs)
    = rbind (Main.clampAt [lit "overallScore"] (Fin 0) (Fin 100) (JObj fs)) (fun a1 =>
      rbind (Main.clampAt [lit "careerStageAlignment"; lit "alignmentScore"]
               (Fin 0) (Fin 100) a1) (fun a2 =>
      rbind (Main.clampAt [lit "careerPathAlignment"; lit "alignmentScore"]
               (Fin 0) (Fin 100) a2) (fun a3 =>
      rbind (Main.clampAt [lit "marketability"; lit "score"] (Fin 0) (Fin 100) a3)
            (fun a4 => Ok a4))))) by reflexivity.
  rewrite Hs. clear Hs.
  destruct (clampAt_last (lit "overallScore") (JObj fs) eq_refl)
    as (v1 & -> & _ & _ & F1 & O1).
  destruct (O1 fs eq_refl) as (fs1 & ->). cbn [rbind]. cbn [get] in F1.
  destruct (clampAt_nested_root (lit "careerStageAlignment") (lit "alignmentScore") fs1)
    as (fs2 & -> & _ & _ & F2). cbn [rbind].
  destruct (clampAt_nested_root (lit "careerPathAlignment") (lit "alignmentScore") fs2)
    as (fs3 & -> & T3 & E3 & F3). cbn [rbind].
  destruct (clampAt_nested_root (lit "marketability") (lit "score") fs3)
    as (fs4 & -> & _ & _ & F4). cbn [rbind].
  exists fs4. split; [reflexivity|]. split; [|split].
  - rewrite F4 by (vm_compute; discriminate). exact T3.
  - intros Hf. rewrite F4 by (vm_compute; discriminate). apply E3.
    rewrite F2, F1 by (vm_compute; discriminate). exact Hf.
  - intros key Hkey. rewrite !not_elem_of_cons in Hkey.
    destruct Hkey as (K1 & K2 & K3 & K4 & _).
    now rewrite F4, F3, F2, F1.
Qed.
End Roots.

(** X21.  A report that leaves the analysis stage of [src/main.js] always has a
    [careerPathAlignment]: the one of the model, or an empty object when the
    model gave none or a falsy one.  Every field but the four that carry a
    score is the field of the model. *)
Theorem validated_report_carries_an_alignment `{Host} (analysis report : JSValue) :
  Main.validate analysis = Ok report ->
  truthy (get report (lit "careerPathAlignment")) = true
  /\ (truthy (get analysis (lit "careerPathAlignment")) = false ->
      get report (lit "careerPathAlignment") = JObj [])
  /\ (forall key, key ∉ [lit "overallScore"; lit "careerStageAlignment";
                          lit "careerPathAlignment"; lit "marketability"] ->
                   get report key = get analysis key).
Proof.
  unfold Main.validate.
  destruct (checkRequired _ Main.requiredFields analysis) as [[]|] eqn:Ec;
    [|discriminate].
  destruct (checkRequired_object _ _ _ _ Ec) as (fs & ->). cbn [rbind].
  destruct (clampScores_roots fs) as (fs' & -> & Hroots).
  intros [= <-]. exact Hroots.
Qed.

Lemma validated_report_carries_an_alignment_witness :
  let analysis := match sanitizeAndParse Ex.answerWithoutAlignment with
                  | Ok v => v
                  | Throw _ => JUndefined
                  end in
  let report := match Main.validate analysis with
                | Ok v => v
                | Throw _ => JUndefined
                end in
  Main.validate analysis = Ok report
  /\ get analysis (lit "careerPathAlignment") = JUndefined
  /\ get report (lit "careerPathAlignment") = JObj []
  /\ get report (lit "strengths") = get analysis (lit "strengths").
Proof.
  intros analysis report.
  assert (Hv : Main.validate analysis = Ok report) by (vm_compute; reflexivity).
  assert (Ha : get analysis (lit "careerPathAlignment") = JUndefined)
    by (vm_compute; reflexivity).
  destruct (validated_report_carries_an_alignment analysis report Hv) as (_ & He & Hf).
  split; [exact Hv|]. split; [exact Ha|]. split.
  - apply He. rewrite Ha. reflexivity.
  - apply Hf. rewrite !not_elem_of_cons.
    split; [vm_compute; discriminate|]. split; [vm_compute; discriminate|].
    split; [vm_compute; discriminate|]. split; [vm_compute; discriminate|].
    apply not_elem_of_nil.
Defined.

(** ** The range checks of the plain variant *)

Section Clamp000.
Context `{Host}.

Lemma outOfRange_number (q : Q) :
  Part000.outOfRange (JNum (Fin q)) = negb (Qle_bool 0 q) || negb (Qle_bool q 100).
Proof. reflexivity. Qed.

Lemma clamp100_or_keep (q : Q) :
  let x := JNum (Fin q) in
  exists q', (if Part000.outOfRange x then Part000.clamp100 x else x) = JNum (Fin q')
             /\ (q' == Qmax 0 (Qmin 100 q))%Q
             /\ (0 <= q' /\ q' <= 100)%Q
             /\ ((0 <= q /\ q <= 100)%Q -> q' = q).
Proof.
  intros x. subst x. rewrite outOfRange_number.
  destruct (Qle_bool 0 q) eqn:E0; destruct (Qle_bool q 100) eqn:E100; cbn [negb orb].
  - apply Qle_bool_iff in E0, E100. exists q. split; [reflexivity|]. split.
    + rewrite Q.min_r by exact E100. now rewrite Q.max_r by exact E0.
    + split; [now split|reflexivity].
  - exists (Qmax 0 (Qmin 100 q)). split; [reflexivity|]. split; [reflexivity|].
    split; [apply clamp_bounds|].
    intros [_ H100]. apply Qle_bool_iff in H100. congruence.
  - exists (Qmax 0 (Qmin 100 q)). split; [reflexivity|]. split; [reflexivity|].
    split; [apply clamp_bounds|].
    intros [H0 _]. apply Qle_bool_iff in H0. congruence.
  - exists (Qmax 0 (Qmin 100 q)). split; [reflexivity|]. split; [reflexivity|].
    split; [apply clamp_bounds|].
    intros [H0 _]. apply Qle_bool_iff in H0. congruence.
Qed.

Lemma outOfRange_truthy (q : Q) :
  Part000.outOfRange (JNum (Fin q)) = true -> truthy (JNum (Fin q)) = true.
Proof.
  rewrite outOfRange_number. cbn [truthy]. intros Hout.
  destruct (Qeq_bool q 0) eqn:Eq; [|reflexivity].
  apply Qeq_bool_iff in Eq.
  assert (H0 : Qle_bool 0 q = true) by (apply Qle_bool_iff; rewrite Eq; discriminate).
  assert (H100 : Qle_bool q 100 = true) by (apply Qle_bool_iff; rewrite Eq; discriminate).
  rewrite H0, H100 in Hout. discriminate Hout.
Qed.

Lemma get_number_object v k n : get v k = JNum n -> exists fs, v = JObj fs.
Proof. destruct v; try discriminate. eauto. Qed.

Lemma set_object fs k v : exists fs', set (JObj fs) k v = JObj fs'.
Proof. simpl. eauto. Qed.

Ltac frame :=
  repeat first
    [ rewrite get_set_other by (intros E; vm_compute in E; discriminate E)
    | rewrite set_get_same by (first [apply set_object | eauto]) ].

Lemma Part000_read_market fs q :
  get (get (JObj fs) (lit "marketability")) (lit "score") = JNum (Fin q) ->
  get (get (Part000.clampScores (JObj fs)) (lit "marketability")) (lit "score")
  = (if Part000.outOfRange (JNum (Fin q)) then Part000.clamp100 (JNum (Fin q))
     else JNum (Fin q)).
Proof.
  intros Hread. destruct (get_number_object _ _ _ Hread) as [mfs Em].
  unfold Part000.clampScores. cbv zeta.
  destruct (Part000.outOfRange (get (JObj fs) (lit "overallScore"))); frame;
    rewrite ?Hread;
    (destruct (Part000.outOfRange (JNum (Fin q))) eqn:C2;
     [rewrite (outOfRange_truthy q C2)|]);
    repeat match goal with
           | |- context [if ?c then _ else _] => destruct c
           end;
    frame; rewrite ?Em; frame; rewrite <- ?Em, ?Hread; reflexivity.
Qed.

Lemma Part000_read_overall fs q :
  get (JObj fs) (lit "overallScore") = JNum (Fin q) ->
  get (Part000.clampScores (JObj fs)) (lit "overallScore")
  = (if Part000.outOfRange (JNum (Fin q)) then Part000.clamp100 (JNum (Fin q))
     else JNum (Fin q)).
Proof.
  intros Hread. unfold Part000.clampScores. cbv zeta. rewrite Hread.
  destruct (Part000.outOfRange (JNum (Fin q))) eqn:C1;
    repeat match goal with
           | |- context [if ?c then _ else _] => destruct c
           end;
    frame; rewrite ?Hread; reflexivity.
Qed.

Lemma Part000_read_alignment fs q :
  get (get (JObj fs) (lit "careerPathAlignment")) (lit "alignmentScore") = JNum (Fin q) ->
  get (get (Part000.clampScores (JObj fs)) (lit "careerPathAlignment"))
      (lit "alignmentScore")
  = (if Part000.outOfRange (JNum (Fin q)) then Part000.clamp100 (JNum (Fin q))
     else JNum (Fin q)).
Proof.
  intros Hread. destruct (get_number_object _ _ _ Hread) as [afs Ea].
  unfold Part000.clampScores. cbv zeta.
  destruct (Part000.outOfRange (get (JObj fs) (lit "overallScore"))); frame;
    (destruct (Part000.outOfRange
                 (get (get (JObj fs) (lit "marketability")) (lit "score"))); frame);
    rewrite ?Hread;
    (destruct (Part000.outOfRange (JNum (Fin q))) eqn:C3);
    rewrite ?Ea; cbn [truthy]; frame; rewrite <- ?Ea, ?Hread; reflexivity.
Qed.

Lemma Part000_read_stage fs :
  get (get (Part000.clampScores (JObj fs)) (lit "careerStageAlignment"))
      (lit "alignmentScore")
  = get (get (JObj fs) (lit "careerStageAlignment")) (lit "alignmentScore").
Proof.
  unfold Part000.clampScores. cbv zeta.
  repeat match goal with
         | |- context [if ?c then _ else _] => destruct c
         end;
    frame; reflexivity.
Qed.
End Clamp000.

(** X22.  In the plain variant a numeric score of the model ends within bounds:
    an overall, marketability or career path score out of the range is
    replaced by the nearest bound and a score within the range is kept as it
    is.  The career stage score, which only [src/main.js] knows, is left
    alone. *)
Theorem plain_variant_clamps_numeric_scores `{Host} (analysis report : JSValue) :
  Part000.validate analysis = Ok report ->
  (forall path q,
     path ∈ score_paths000 -> read analysis path = JNum (Fin q) ->
     exists q', read report path = JNum (Fin q')
                /\ (q' == Qmax 0 (Qmin 100 q))%Q
                /\ (0 <= q' /\ q' <= 100)%Q
                /\ ((0 <= q /\ q <= 100)%Q -> q' = q))
  /\ read report [lit "careerStageAlignment"; lit "alignmentScore"]
     = read analysis [lit "careerStageAlignment"; lit "alignmentScore"].
Proof.
  unfold Part000.validate.
  destruct (checkRequired _ Part000.requiredFields analysis) as [[]|] eqn:Ec;
    [|discriminate].
  destruct (checkRequired_object _ _ _ _ Ec) as (fs & ->). cbn [rbind].
  intros [= <-]. split.
  - intros path q Hin Hread. unfold score_paths000 in Hin.
    destruct (clamp100_or_keep q) as (q' & Hq' & Hrest). exists q'.
    split; [|exact Hrest]. rewrite <- Hq'.
    repeat (apply elem_of_cons in Hin as [-> | Hin]); [ | | | inversion Hin];
      unfold read in *; cbn [fold_left] in *.
    + now apply Part000_read_overall.
    + now apply Part000_read_market.
    + now apply Part000_read_alignment.
  - unfold read. cbn [fold_left]. apply Part000_read_stage.
Qed.

Lemma plain_variant_clamps_numeric_scores_witness :
  let report := match Part000.validate (Ex.parsed "150") with
                | Ok v => v
                | Throw _ => JUndefined
                end in
  Part000.validate (Ex.parsed "150") = Ok report
  /\ read (Ex.parsed "150") [lit "overallScore"] = num 150
  /\ (exists q', read report [lit "overallScore"] = JNum (Fin q')
                 /\ (0 <= q' /\ q' <= 100)%Q)
  /\ read report [lit "careerStageAlignment"; lit "alignmentScore"] = num 120.
Proof.
  intros report.
  assert (Hv : Part000.validate (Ex.parsed "150") = Ok report)
    by (vm_compute; reflexivity).
  assert (Hr : read (Ex.parsed "150") [lit "overallScore"] = num 150)
    by (vm_compute; reflexivity).
  destruct (plain_variant_clamps_numeric_scores _ _ Hv) as [Hscores Hstage].
  split; [exact Hv|]. split; [exact Hr|]. split.
  - destruct (Hscores [lit "overallScore"] (inject_Z 150)) as (q' & Hq & _ & Hb & _);
      [apply elem_of_cons; now left|exact Hr|].
    exists q'. now split.
  - rewrite Hstage. vm_compute. reflexivity.
Defined.

(** ** Too little text *)

Lemma insufficient_aiOutcome `{Host} env fileData fileName analysed :
  sufficient (generateFromFile env) = false ->
  is_throw (aiOutcome env fileData fileName analysed) = true.
Proof.
  intros Hs. unfold aiOutcome.
  pose proof (extraction_sufficient env fileData fileName) as He.
  rewrite Hs in He. now destruct (fst (run (extractTextFromCV env fileData fileName))).
Qed.

Lemma insufficient_aiOutcome001 `{Host} env fileData fileName talent careerPath :
  sufficient (generateFromFile env) = false ->
  is_throw (aiOutcome001 env fileData fileName talent careerPath) = true.
Proof.
  unfold sufficient, aiOutcome001, run, Part001.aiPath, Part001.extractTextFromCV.
  unfold_monad. intros Hs.
  destruct (createFile env) as [id|m]; cbn [fst snd]; [|reflexivity].
  destruct (generateFromFile env) as [text|m]; cbn [fst snd]; [|reflexivity].
  destruct (truthy (JStr text)); cbn [negb orb andb] in *; [|reflexivity].
  apply Z.leb_gt in Hs. apply Z.ltb_lt in Hs. now rewrite Hs.
Qed.

Lemma no_analysis_call_in_trace env talentId talent crash :
  sufficient (generateFromFile env) = false ->
  CallGenerateFromText ∉ trace env talentId talent crash.
Proof.
  intros Hs. unfold trace, path_calls, release_calls. rewrite Hs.
  destruct (selectedPath talent) as [[|p0 pid]|];
    destruct (createFile env) as [[|i0 id]|]; destruct crash; cbn [app];
    rewrite ?elem_of_cons, ?elem_of_nil; intuition discriminate.
Qed.

Lemma no_analysis_call_in_trace001 env talentId talent :
  sufficient (generateFromFile env) = false ->
  CallGenerateFromText ∉ trace001 env talentId talent.
Proof.
  intros Hs. unfold trace001, path_calls, release_calls. rewrite Hs.
  destruct (selectedPath talent) as [[|p0 pid]|];
    destruct (createFile env) as [[|i0 id]|]; cbn [app is_throw];
    rewrite ?elem_of_cons, ?elem_of_nil; intuition discriminate.
Qed.

(** X23.  When the extraction model raises or gives fewer than fifty characters
    of text once trimmed, the analysis model is not called and the response
    carries the fallback report with [usedFallback] true (for [src/main.js],
    on the stage labels its tables answer). *)
Theorem insufficient_text_skips_the_analysis `{Host} (env : Env)
    (talentId fileData fileName : jsstring) (talent : Profile) :
  accepted env talentId fileData fileName talent ->
  sufficient (generateFromFile env) = false ->
  let body := BodyFields (Some talentId) (Some fileData) (Some fileName) in
  let fallen (out : result Response * St) (fallback : JSValue) :=
    fst out = Ok (completed talent (careerPathOf env talent) fileName fallback true)
    /\ CallGenerateFromText ∉ callsOf out in
  (forall fallback,
     Main.generateFallbackAnalysis talent (careerPathOf env talent) = Ok fallback ->
     fallen (run (Main.handler env body)) fallback)
  /\ fallen (run (Part000.handler env body))
       (Part000.generateFallbackAnalysis talent (careerPathOf env talent))
  /\ fallen (run (Part001.handler env body))
       (Part001.generateFallbackAnalysis talent (careerPathOf env talent)).
Proof.
  intros Hacc Hs body fallen. subst body fallen. cbv beta.
  unfold callsOf, Main.handler, Part000.handler. split; [|split].
  - intros fallback Hfb.
    rewrite (pipeline_response env talentId fileData fileName talent _ _ _ Hacc
               (Main_effect env talent)),
      (pipeline_calls env talentId fileData fileName talent _ _ _ Hacc
         (Main_effect env talent)).
    pose proof (insufficient_aiOutcome env fileData fileName
                  (analysisOutcome (Main.analyzeCVContent env) talent) Hs) as Hai.
    destruct (aiOutcome env fileData fileName _); [discriminate Hai|].
    rewrite Hfb. split; [reflexivity|now apply no_analysis_call_in_trace].
  - rewrite (pipeline_response env talentId fileData fileName talent _ _ _ Hacc
               (Part000_effect env talent)),
      (pipeline_calls env talentId fileData fileName talent _ _ _ Hacc
         (Part000_effect env talent)).
    pose proof (insufficient_aiOutcome env fileData fileName
                  (analysisOutcome (Part000.analyzeCVContent env) talent) Hs) as Hai.
    destruct (aiOutcome env fileData fileName _); [discriminate Hai|].
    split; [reflexivity|now apply no_analysis_call_in_trace].
  - pose proof (accepted_accepted001 _ _ _ _ _ Hacc) as Hacc1.
    rewrite (Part001_calls env talentId fileData fileName talent Hacc1).
    destruct (Part001_run env talentId fileData fileName talent Hacc1) as (st & -> & _).
    pose proof (insufficient_aiOutcome001 env fileData fileName talent
                  (careerPathOf env talent) Hs) as Hai.
    destruct (aiOutcome001 env fileData fileName talent (careerPathOf env talent));
      [discriminate Hai|].
    split; [reflexivity|now apply no_analysis_call_in_trace001].
Qed.

Lemma insufficient_text_skips_the_analysis_witness :
  let env := Ex.env Ex.alice (Ok (lit "file-1")) (Ok (lit "   too short   "))
                    (Ok (Ex.answer "85")) in
  let out := run (Part000.handler env (Ex.request "cv.pdf")) in
  accepted env (lit "t1") (lit "JVBERi0xLjQK") (lit "cv.pdf") Ex.alice
  /\ sufficient (generateFromFile env) = false
  /\ fst out = Ok (completed Ex.alice None (lit "cv.pdf")
                     (Part000.generateFallbackAnalysis Ex.alice None) true)
  /\ CallGenerateFromText ∉ callsOf out.
Proof.
  intros env out.
  assert (Hacc : accepted env (lit "t1") (lit "JVBERi0xLjQK") (lit "cv.pdf") Ex.alice).
  { split; try discriminate; try (vm_compute; reflexivity). now exists []. }
  split; [exact Hacc|]. split; [reflexivity|].
  exact (proj1 (proj2 (insufficient_text_skips_the_analysis env _ _ _ _ Hacc eq_refl))).
Defined.

